(** * AT45DBFlash: a linear byte store over a page-buffered SPI DataFlash

    Shallow embedding of [drivers/AT45DB/AT45DBFlash.{h,cpp}] together with
    a mock of the device on the other end of the SPI bus, and the
    properties of the driver that follow from the two.

    Conventions.
    - C integers are [Z] with the wrap-around of their type written out
      ([u8], [u16], [u32]; [int] is the 16-bit [int] of the megaAVR target
      the HAL under [hal/architecture/megaAVR] is written for).  A value is
      wrapped where C converts it: when it is bound to a parameter, stored
      in a field, or returned.
    - The driver is a state-and-failure monad over [Sys]: the object
      ([this]) and the device on the bus ([dev]).  The only source of
      failure is a busy-wait loop that exhausts its [fuel]; every such loop
      of the source gets the same, fresh, [fuel].
    - Bus settings (SPCR/SPSR save and restore, SPI transactions), interrupt
      masking, pin-mode set-up and debug output do not reach the device
      protocol and are left out, as are [sleep], [wakeup] and [end], which
      send nothing.
    - Of the hardware layer [hal/architecture/megaAVR/MyHwmegaAVR.cpp] the
      timed sleep and the supply-voltage reading are embedded, as functions
      of what the hardware hands them: the interrupts that wake the CPU and
      the ADC reading. *)

From Stdlib Require Import ZArith List Lia Bool.
Import ListNotations.
Local Open Scope Z_scope.

(* ================================================================= *)
(** ** Machine integers *)

Definition u8 (z : Z) : Z := z mod 256.
Definition u16 (z : Z) : Z := z mod 65536.
Definition u32 (z : Z) : Z := z mod 4294967296.
(** [int] on the AVR: 16 bits, two's complement. *)
Definition int (z : Z) : Z := (z + 32768) mod 65536 - 32768.

(* ================================================================= *)
(** ** Geometry tables (AT45DBFlash.h) *)

Inductive AT45Flash : Set :=
| AT45DB011 | AT45DB021 | AT45DB041 | AT45DB081
| AT45DB161 | AT45DB321 | AT45DB641.

Definition enum_value (c : AT45Flash) : Z :=
  match c with
  | AT45DB011 => 0 | AT45DB021 => 1 | AT45DB041 => 2 | AT45DB081 => 3
  | AT45DB161 => 4 | AT45DB321 => 5 | AT45DB641 => 6
  end.

(** An index outside [0..6] is an out-of-bounds read in C; the tables
    answer 0 there, and every statement below assumes a supported
    density. *)
Definition table (t : list Z) (i : Z) : Z := nth (Z.to_nat i) t 0.

Definition AT45_PageBitSizes : Z -> Z := table [9; 9; 9; 9; 10; 10; 11].
Definition AT45_PagesTotal : Z -> Z :=
  table [512; 1024; 2048; 4096; 4096; 8192; 8192].
Definition AT45_PageBytes : Z -> Z :=
  table [264; 264; 264; 264; 528; 528; 1056].

(* ================================================================= *)
(** ** The device on the bus

    The flash chip is hardware on the far side of the transport; the
    source holds only the commands sent to it.  The definitions of this
    part are a mock of it: the page geometry of the header's table, a main
    array of pages, the on-chip buffers, the status register, and the
    commands the driver uses with the meaning the driver's comments and
    the specification give them (fetch page to buffer, write bytes into
    the buffer, program buffer to page, continuous read, page and block
    erase).  The mock also logs every command header (opcode and 24-bit
    address) clocked in; status reads carry no address and are not
    logged. *)

(** Modelled from the spec: what the device, which is not in the source,
    is in the middle of while it is selected. *)
Inductive Phase : Type :=
| Idle                                   (* not selected *)
| Opcode                                 (* selected, nothing received *)
| Status                                 (* D7h: status register on MISO *)
| Addr (op : Z) (got : list Z)           (* collecting the 3 address bytes *)
| BufWrite (b : Z) (pos : Z)             (* 84h/87h: data into a buffer *)
| ArrayRead (dummy : nat) (page byte : Z) (* E8h: 4 dummies, then data *)
| Pending (op adr : Z)                   (* runs when deselected *)
| Ignore.

(** Modelled from the spec: the state of the device, which is not in the
    source: its variant, main array, buffers, busy countdown, decoder
    phase and command log. *)
Record Chip : Type := mkChip {
  variant : AT45Flash;        (* which device is soldered on *)
  latency : nat;              (* status polls a self-timed operation lasts *)
  busy_left : nat;            (* polls left until ready *)
  main : Z -> Z -> Z;         (* main array: page, byte in page *)
  buf1 : Z -> Z;              (* SRAM buffer 1 *)
  buf2 : Z -> Z;              (* SRAM buffer 2 *)
  phase : Phase;
  log : list (Z * Z)          (* command headers, newest first *)
}.

Definition chip_bits (v : AT45Flash) : Z := AT45_PageBitSizes (enum_value v).
Definition chip_pages (v : AT45Flash) : Z := AT45_PagesTotal (enum_value v).
Definition chip_bytes (v : AT45Flash) : Z := AT45_PageBytes (enum_value v).

(** Modelled from the spec: how the device, which is not in the source,
    splits a 24-bit address into page and byte fields (page address above
    the [chip_bits] byte-address bits; higher bits are don't-care). *)
Definition page_of_adr (v : AT45Flash) (adr : Z) : Z :=
  Z.shiftr adr (chip_bits v) mod chip_pages v.
(** Modelled from the spec: the byte field of a 24-bit address, for the
    device, which is not in the source. *)
Definition byte_of_adr (v : AT45Flash) (adr : Z) : Z :=
  adr mod 2 ^ chip_bits v.

(** Modelled from the spec: the status register of the device, which is
    not in the source: bit 7 ready (not busy), bits 5..2 the density code
    of the header's table (3, 5, ..., 15). *)
Definition status_byte (c : Chip) : Z :=
  (if Nat.eqb (busy_left c) 0 then 128 else 0)
  + (2 * enum_value (variant c) + 3) * 4.

(** The device in another decoder phase. *)
Definition set_phase (p : Phase) (c : Chip) : Chip :=
  mkChip (variant c) (latency c) (busy_left c) (main c) (buf1 c) (buf2 c)
         p (log c).

(** A buffer with one byte replaced, an array with one page replaced, and
    the erased page (all ones). *)
Definition upd (f : Z -> Z) (k v : Z) : Z -> Z :=
  fun x => if x =? k then v else f x.

Definition upd_page (m : Z -> Z -> Z) (p : Z) (row : Z -> Z) : Z -> Z -> Z :=
  fun q => if q =? p then row else m q.

Definition erased : Z -> Z := fun _ => 255.

(** Modelled from the spec: what the device, which is not in the source,
    does with an opcode once its address is complete.  84h/87h write into
    buffer 1/2, E8h reads the array, 53h/55h, 83h/86h, 81h and 50h wait
    for the select line to rise.  A device that is busy accepts nothing
    but status reads. *)
Definition dispatch (v : AT45Flash) (busy_now : nat) (op adr : Z) : Phase :=
  if negb (Nat.eqb busy_now 0) then Ignore
  else if op =? 0x84 then BufWrite 0 (byte_of_adr v adr)
  else if op =? 0x87 then BufWrite 1 (byte_of_adr v adr)
  else if op =? 0xE8 then ArrayRead 0 (page_of_adr v adr) (byte_of_adr v adr)
  else if (op =? 0x53) || (op =? 0x55) || (op =? 0x83) || (op =? 0x86)
          || (op =? 0x81) || (op =? 0x50)
       then Pending op adr
  else Ignore.

(** Modelled from the spec: the select line of the device, which is not
    in the source, going low. *)
Definition spi_select (c : Chip) : Chip :=
  match phase c with
  | Idle => set_phase Opcode c
  | _ => c
  end.

(** Modelled from the spec: one byte exchanged with the device, which is
    not in the source: the byte it answers and its state afterwards.  A
    status read counts the busy time down; buffer writes advance and wrap
    within the page; an array read runs on into the next page. *)
Definition spi_transfer (b : Z) (c : Chip) : Z * Chip :=
  match phase c with
  | Idle => (0, c)
  | Opcode =>
      if b =? 0xD7 then (0, set_phase Status c)
      else (0, set_phase (Addr b []) c)
  | Status =>
      (status_byte c,
       mkChip (variant c) (latency c) (Nat.pred (busy_left c)) (main c)
              (buf1 c) (buf2 c) Status (log c))
  | Addr op [a1; a2] =>
      let adr := a1 * 65536 + a2 * 256 + b in
      (0, mkChip (variant c) (latency c) (busy_left c) (main c)
                 (buf1 c) (buf2 c) (dispatch (variant c) (busy_left c) op adr)
                 ((op, adr) :: log c))
  | Addr op got => (0, set_phase (Addr op (got ++ [b])) c)
  | BufWrite n pos =>
      let next := if pos + 1 <? chip_bytes (variant c) then pos + 1 else 0 in
      (0, mkChip (variant c) (latency c) (busy_left c) (main c)
                 (if n =? 0 then upd (buf1 c) pos b else buf1 c)
                 (if n =? 0 then buf2 c else upd (buf2 c) pos b)
                 (BufWrite n next) (log c))
  | ArrayRead dummy page byte =>
      if Nat.ltb dummy 4 then (0, set_phase (ArrayRead (S dummy) page byte) c)
      else
        (main c page byte,
         set_phase
           (if byte + 1 <? chip_bytes (variant c)
            then ArrayRead dummy page (byte + 1)
            else ArrayRead dummy ((page + 1) mod chip_pages (variant c)) 0) c)
  | Pending _ _ => (0, c)
  | Ignore => (0, c)
  end.

(** Modelled from the spec: the self-timed operations of the device,
    which is not in the source, started by the rising edge of the select
    line: page to buffer (53h/55h), buffer to page with built-in erase
    (83h/86h), page erase (81h), block erase (50h, a block is 8 pages).
    Each leaves the device busy for [latency] polls. *)
Definition run_pending (op adr : Z) (c : Chip) : Chip :=
  let p := page_of_adr (variant c) adr in
  let m := main c in
  let done m' b1' b2' :=
    mkChip (variant c) (latency c) (latency c) m' b1' b2' Idle (log c) in
  if op =? 0x53 then done m (m p) (buf2 c)
  else if op =? 0x55 then done m (buf1 c) (m p)
  else if op =? 0x83 then done (upd_page m p (buf1 c)) (buf1 c) (buf2 c)
  else if op =? 0x86 then done (upd_page m p (buf2 c)) (buf1 c) (buf2 c)
  else if op =? 0x81 then done (upd_page m p erased) (buf1 c) (buf2 c)
  else if op =? 0x50 then
    done (fun q => if q / 8 =? p / 8 then erased else m q) (buf1 c) (buf2 c)
  else set_phase Idle c.

(** Modelled from the spec: the select line of the device, which is not
    in the source, going high. *)
Definition spi_unselect (c : Chip) : Chip :=
  match phase c with
  | Pending op adr => run_pending op adr c
  | _ => set_phase Idle c
  end.

(* ================================================================= *)
(** ** The driver object and the monad *)

(** The fields of [class AT45DBFlash] that the device protocol depends
    on. *)
Record AT45DBFlash : Type := mkFlash {
  _expected_chip : AT45Flash;
  _density : Z;              (* uint8_t *)
  _cur_page_in_buf : Z       (* int32_t; -1: no page in the buffer *)
}.

(** The object and the device it talks to. *)
Record Sys : Type := mkSys { this : AT45DBFlash; dev : Chip }.

Definition M (A : Type) : Type := Sys -> option (A * Sys).

Definition ret {A} (a : A) : M A := fun s => Some (a, s).
Definition bind {A B} (m : M A) (k : A -> M B) : M B :=
  fun s => match m s with
           | Some (a, s') => k a s'
           | None => None
           end.
Definition fail {A} : M A := fun _ => None.

Notation "x <- m ;; k" := (bind m (fun x => k))
  (at level 61, m at next level, right associativity).
Notation "m ;; k" := (bind m (fun _ => k))
  (at level 61, right associativity).

Definition get_this : M AT45DBFlash := fun s => Some (this s, s).
Definition set_density (d : Z) : M unit :=
  fun s => Some (tt, mkSys (mkFlash (_expected_chip (this s)) (u8 d)
                                    (_cur_page_in_buf (this s))) (dev s)).
Definition set_cur_page_in_buf (p : Z) : M unit :=
  fun s => Some (tt, mkSys (mkFlash (_expected_chip (this s))
                                    (_density (this s)) p) (dev s)).

(** The constructor leaves [_density] unset; [garbage] is whatever the
    object's storage held. *)
Definition AT45DBFlash_new (expected_chip : AT45Flash) (garbage : Z)
  : AT45DBFlash :=
  mkFlash expected_chip (u8 garbage) (-1).

(** [SPI.transfer]: [uint8_t] in, [uint8_t] out. *)
Definition SPI_transfer (data : Z) : M Z :=
  fun s => let (r, c) := spi_transfer (u8 data) (dev s) in
           Some (u8 r, mkSys (this s) c).

(** [select()] and [unselect()]: the select line driven low and high. *)
Definition select : M unit :=
  fun s => Some (tt, mkSys (this s) (spi_select (dev s))).
Definition unselect : M unit :=
  fun s => Some (tt, mkSys (this s) (spi_unselect (dev s))).

(** [for (int i = 0; i < n; i++) SPI.transfer(b);] *)
Fixpoint transfer_n (n : nat) (b : Z) : M unit :=
  match n with
  | O => ret tt
  | S n' => SPI_transfer b ;; transfer_n n' b
  end.

Definition addressToByteInPage (t : AT45DBFlash) (addr : Z) : Z :=
  u16 (u32 addr mod AT45_PageBytes (_density t)).

Definition addressToPage (t : AT45DBFlash) (addr : Z) : Z :=
  u16 (u32 addr / AT45_PageBytes (_density t)).

Definition readStatus : M Z :=
  select ;; SPI_transfer 0xD7 ;; r <- SPI_transfer 0x00 ;; unselect ;; ret r.

Definition busy : M bool :=
  r <- readStatus ;; ret (negb (Z.land r 0x80 =? 0x80)).

Section Driver.

(** Iterations granted to each busy-wait loop. *)
Variable fuel : nat.

(** [while (busy());] *)
Fixpoint while_busy (n : nat) : M unit :=
  match n with
  | O => fail
  | S n' => b <- busy ;; if b then while_busy n' else ret tt
  end.

Definition command (cmd : Z) : M unit :=
  while_busy fuel ;; select ;; SPI_transfer cmd ;; ret tt.

(** [while ((SPI.transfer(0x00) & 0x80) != 0x80) { }] *)
Fixpoint poll_ready (n : nat) : M unit :=
  match n with
  | O => fail
  | S n' => r <- SPI_transfer 0x00 ;;
            if negb (Z.land r 0x80 =? 0x80) then poll_ready n' else ret tt
  end.

Definition waitUntilBusy : M unit :=
  select ;; SPI_transfer 0xD7 ;; poll_ready fuel ;; unselect.

Definition send3bytesAddr (page start_byte : Z) : M unit :=
  t <- get_this ;;
  let adr := u32 (int page) in
  let adr := u32 (u32 (Z.shiftl adr (AT45_PageBitSizes (_density t)))
                  + u32 (int start_byte)) in
  SPI_transfer (Z.shiftr adr 16) ;;
  SPI_transfer (Z.shiftr adr 8) ;;
  SPI_transfer adr ;;
  ret tt.

Definition clearBuffer (buf : Z) : M unit :=
  command (0x84 + 3 * u8 buf) ;;
  send3bytesAddr 0 0 ;;
  transfer_n 264 0xff ;;
  unselect.

Definition getPageToBuf (buf page : Z) : M unit :=
  clearBuffer buf ;;
  command (0x53 + 2 * u8 buf) ;;
  send3bytesAddr page 0 ;;
  unselect ;;
  waitUntilBusy.

Definition writeByteToBuffer (buf start_byte data : Z) : M unit :=
  command (0x84 + 3 * u8 buf) ;;
  send3bytesAddr 0 (u16 start_byte) ;;
  SPI_transfer (Z.lnot (u8 data)) ;;
  unselect.

Definition readByte (addr : Z) : M Z :=
  command 0xE8 ;;
  t <- get_this ;;
  send3bytesAddr (addressToPage t addr) (addressToByteInPage t addr) ;;
  transfer_n 4 0x00 ;;
  result <- SPI_transfer 0x00 ;;
  unselect ;;
  ret result.

(** [for (uint16_t i = 0; i < len; ++i) buf[i] = ~SPI.transfer(0x00);] *)
Fixpoint read_loop (n : nat) : M (list Z) :=
  match n with
  | O => ret []
  | S n' => r <- SPI_transfer 0x00 ;;
            rest <- read_loop n' ;;
            ret (u8 (Z.lnot r) :: rest)
  end.

Definition readBytes (addr len : Z) : M (list Z) :=
  command 0xE8 ;;
  t <- get_this ;;
  send3bytesAddr (addressToPage t addr) (addressToByteInPage t addr) ;;
  transfer_n 4 0x00 ;;
  buf <- read_loop (Z.to_nat (u16 len)) ;;
  unselect ;;
  ret buf.

(** [readUniqueId]: the first 8 bytes of the last page, through
    [readByte]; the address is computed in [int], where an overflow is
    undefined in C and wraps here, as avr-gcc compiles it.  The result is
    the content of [UNIQUEID]. *)
Fixpoint readUniqueId_loop (n : nat) (i : Z) : M (list Z) :=
  match n with
  | O => ret []
  | S n' =>
      t <- get_this ;;
      b <- readByte (int (int ((AT45_PagesTotal (_density t) - 1)
                               * AT45_PageBytes (_density t)) + i)) ;;
      rest <- readUniqueId_loop n' (i + 1) ;;
      ret (b :: rest)
  end.

Definition readUniqueId : M (list Z) := readUniqueId_loop 8 0.

Definition programBufToPage (buf page : Z) : M unit :=
  command (0x83 + 2 * u8 buf) ;;
  send3bytesAddr page 0 ;;
  unselect.

Definition startContWrite (start_addr : Z) : M unit :=
  t <- get_this ;;
  set_cur_page_in_buf (addressToPage t start_addr) ;;
  t <- get_this ;;
  getPageToBuf 0 (_cur_page_in_buf t).

Definition writeContByte (addr byte : Z) : M unit :=
  t <- get_this ;;
  let _act_addr_page := addressToPage t addr in
  (if negb (_cur_page_in_buf t =? _act_addr_page) then
     programBufToPage 0 (_cur_page_in_buf t) ;;
     set_cur_page_in_buf _act_addr_page ;;
     t <- get_this ;;
     getPageToBuf 0 (_cur_page_in_buf t)
   else ret tt) ;;
  t <- get_this ;;
  writeByteToBuffer 0 (addressToByteInPage t addr) byte.

Definition stopContWrite : M unit :=
  t <- get_this ;;
  programBufToPage 0 (_cur_page_in_buf t).

Definition writeByte (addr byt : Z) : M unit :=
  startContWrite addr ;;
  writeContByte addr byt ;;
  stopContWrite.

(** [for (uint16_t i = 0; i < len; i++) writeContByte(addr+i, buf[i]);]
    with [n] iterations left and [buf] a C array: reading past its end is
    undefined, the model reads 0 there. *)
Fixpoint writeBytes_loop (n : nat) (addr : Z) (buf : list Z) (i : Z) : M unit :=
  match n with
  | O => ret tt
  | S n' =>
      writeContByte (u32 (addr + i)) (nth (Z.to_nat i) buf 0) ;;
      writeBytes_loop n' addr buf (i + 1)
  end.

Definition writeBytes (addr : Z) (buf : list Z) (len : Z) : M unit :=
  startContWrite addr ;;
  writeBytes_loop (Z.to_nat (u16 len)) (u32 addr) buf 0 ;;
  stopContWrite.

Definition erasePage (page : Z) : M unit :=
  command 0x81 ;;
  send3bytesAddr page 0 ;;
  unselect ;;
  waitUntilBusy.

Definition eraseBlock (block : Z) : M unit :=
  command 0x50 ;;
  send3bytesAddr (int (Z.shiftl (int block) 3)) 0 ;;
  unselect ;;
  waitUntilBusy.

(** [for (bl = 0; bl < (AT45_PagesTotal[_density] >> 3); bl++)]; [n] bounds
    the iterations and running out of it is a failure. *)
Fixpoint eraseChip_loop (n : nat) (bl : Z) : M unit :=
  t <- get_this ;;
  if bl <? Z.shiftr (AT45_PagesTotal (_density t)) 3 then
    match n with
    | O => fail
    | S n' => eraseBlock bl ;; eraseChip_loop n' (int (bl + 1))
    end
  else ret tt.

Definition eraseChip : M unit :=
  t <- get_this ;;
  eraseChip_loop (Z.to_nat (AT45_PagesTotal (_density t))) 0.

Definition chipErase : M unit := eraseChip.

(** [for (int i = 0; i < num_pages; i += 8) eraseBlock(page + i);] *)
Fixpoint blockErase_loop (n : nat) (page num_pages i : Z) : M unit :=
  if i <? num_pages then
    match n with
    | O => fail
    | S n' => eraseBlock (int (page + i)) ;;
              blockErase_loop n' page num_pages (int (i + 8))
    end
  else ret tt.

(** The common body of [blockErase4K], [blockErase32K] and
    [blockErase64K], which differ in the size they divide. *)
Definition blockErase (size : Z) (addr : Z) : M unit :=
  t <- get_this ;;
  let page := int (addressToPage t addr) in
  let num_pages := int (size / AT45_PageBytes (_density t) + 1) in
  blockErase_loop (Z.to_nat num_pages) page num_pages 0.

Definition blockErase4K : Z -> M unit := blockErase 4096.
Definition blockErase32K : Z -> M unit := blockErase 32768.
(** The literal in the source is 655356, not 65536. *)
Definition blockErase64K : Z -> M unit := blockErase 655356.

(** [while ((sr & 0x80) != 0x80) sr = readStatus();] *)
Fixpoint status_until_ready (n : nat) (sr : Z) : M Z :=
  if negb (Z.land sr 0x80 =? 0x80) then
    match n with
    | O => fail
    | S n' => sr' <- readStatus ;; status_until_ready n' sr'
    end
  else ret sr.

(** The detection loop, [n] attempts left. *)
Fixpoint initialize_loop (n : nat) : M bool :=
  match n with
  | O => ret false
  | S n' =>
      st <- readStatus ;;
      if negb (st =? 0x00) then
        sr <- status_until_ready fuel 0 ;;
        let den := u8 (Z.shiftr (Z.land sr 60) 2) in
        let den := u8 (Z.shiftr (den - 3) 1) in
        t <- get_this ;;
        if u8 (enum_value (_expected_chip t)) =? den then
          set_density den ;; ret true
        else initialize_loop n'
      else initialize_loop n'
  end.

Definition initialize : M bool :=
  unselect ;; initialize_loop 10.

End Driver.

(* ================================================================= *)
(** ** Observations *)

(** How many logged command headers carry opcode [op]. *)
Definition count (op : Z) (l : list (Z * Z)) : nat :=
  length (filter (fun e => fst e =? op) l).

(** Page-to-buffer transfers and buffer-to-page programs seen so far. *)
Definition fetches (s : Sys) : nat := count 0x53 (log (dev s)).
Definition programs (s : Sys) : nat := count 0x83 (log (dev s)).

(* ================================================================= *)
(** ** Vocabulary of the statements *)

(** The 24-bit address [send3bytesAddr] puts on the wire. *)
Definition wire_adr (d page start_byte : Z) : Z :=
  let adr := u32 (int page) in
  let adr := u32 (u32 (Z.shiftl adr (AT45_PageBitSizes d))
                  + u32 (int start_byte)) in
  u8 (Z.shiftr adr 16) * 65536 + u8 (Z.shiftr adr 8) * 256 + u8 adr.

(** The 24-bit address of byte 0 of page [p] on device [v]. *)
Definition page_adr (v : AT45Flash) (p : Z) : Z := p * 2 ^ chip_bits v.

(** The linear address space of a device. *)
Definition capacity (v : AT45Flash) : Z := chip_pages v * chip_bytes v.

(** The object with another page recorded as staged. *)
Definition with_cur (t : AT45DBFlash) (p : Z) : AT45DBFlash :=
  mkFlash (_expected_chip t) (_density t) p.

(** What the main array holds once the buffer is programmed into page
    [cur]: the driver's view of the store during a write sequence. *)
Definition view (cur : Z) (m : Z -> Z -> Z) (b1 : Z -> Z) : Z -> Z -> Z :=
  upd_page m cur b1.

(** What [readBytes] delivers from an array [m]: the complement of the
    [k] bytes from linear address [a] on. *)
Fixpoint stream (v : AT45Flash) (m : Z -> Z -> Z) (a : Z) (k : nat) : list Z :=
  match k with
  | O => []
  | S k' => u8 (Z.lnot (u8 (m (a / chip_bytes v) (a mod chip_bytes v))))
              :: stream v m (a + 1) k'
  end.

(** The state identification leaves behind when it succeeds, between two
    operations: the density in use is that of the device, and the device
    is deselected. *)
Definition ready (s : Sys) : Prop :=
  _density (this s) = enum_value (variant (dev s)) /\ phase (dev s) = Idle.

(** The busy-wait loops are granted more polls than the device can stay
    busy. *)
Definition responsive (fuel : nat) (s : Sys) : Prop :=
  (busy_left (dev s) < fuel)%nat /\ (latency (dev s) < fuel)%nat.

(** A value of type [uint8_t]. *)
Definition is_byte (b : Z) : Prop := 0 <= b < 256.

(** [s'] has everything logged in [s], and after it a command [op]. *)
Definition issued (op : Z) (s s' : Sys) : Prop :=
  exists more, log (dev s') = more ++ log (dev s) /\ In op (map fst more).

(** The status byte of a device that is ready. *)
Definition ready_status (v : AT45Flash) : Z :=
  128 + (2 * enum_value v + 3) * 4.

(** The pages of the [k] addresses [addr + i], [addr + i + 1], ... as
    [writeBytes] computes them. *)
Fixpoint span_pages (t : AT45DBFlash) (addr i : Z) (k : nat) : list Z :=
  match k with
  | O => []
  | S k' => addressToPage t (u32 (addr + i)) :: span_pages t addr (i + 1) k'
  end.

(** How many distinct pages a span touches. *)
Definition pages_spanned (t : AT45DBFlash) (addr len : Z) : nat :=
  length (nodup Z.eq_dec (span_pages t (u32 addr) 0 (Z.to_nat (u16 len)))).

(** How often the page changes along [l], starting from [cur]. *)
Fixpoint changes (cur : Z) (l : list Z) : nat :=
  match l with
  | [] => O
  | p :: l' => ((if (cur =? p)%Z then 0 else 1) + changes p l')%nat
  end.

(** The command headers a write loop sends, and the page it ends on. *)
Fixpoint session_log (t : AT45DBFlash) (addr i : Z) (k : nat)
         (cur : Z) (lg : list (Z * Z)) : Z * list (Z * Z) :=
  match k with
  | O => (cur, lg)
  | S k' =>
      let a := u32 (addr + i) in
      let p := addressToPage t a in
      let d := _density t in
      session_log t addr (i + 1) k' p
        ((0x84, wire_adr d 0 (u16 (addressToByteInPage t a)))
           :: (if cur =? p then lg
               else (0x53, wire_adr d p 0) :: (0x84, 0)
                      :: (0x83, wire_adr d cur 0) :: lg))
  end.

(** A list made of runs of equal elements, no element in two runs. *)
Inductive runs : list Z -> Prop :=
| runs_nil : runs []
| runs_one x : runs [x]
| runs_same x l : runs (x :: l) -> runs (x :: x :: l)
| runs_new x y l : x <> y -> ~ In x (y :: l) -> runs (y :: l) ->
                   runs (x :: y :: l).

(** The buffer writes that fill bytes [0 .. n-1] of the staged page, in
    the order they are sent. *)
Definition fill (n : nat) : list (Z * Z) :=
  map (fun o => (0x84, Z.of_nat o)) (seq 0 n).

(** Writing 300 bytes at address 0 with 264-byte pages, as command
    headers in the order sent: stage page 0 (buffer clear, fetch), 264
    buffer writes, program page 0; stage page 1, 36 buffer writes,
    program page 1. *)
Definition scenario_300 : list (Z * Z) :=
  [(0x84, 0); (0x53, 0)] ++ fill 264 ++ [(0x83, 0)]
  ++ [(0x84, 0); (0x53, 512)] ++ fill 36 ++ [(0x83, 512)].

(** The write sequence of the re-staging test: byte 0 of page [P], a byte
    of page [P + 1], byte 1 of page [P]. *)
Definition restage_sequence (fuel : nat) (pb P k v0 v1 v2 : Z) : M unit :=
  startContWrite fuel (P * pb) ;;
  writeContByte fuel (P * pb) v0 ;;
  writeContByte fuel ((P + 1) * pb + k) v1 ;;
  writeContByte fuel (P * pb + 1) v2 ;;
  stopContWrite fuel.

(** A concrete device for the examples: its array holds
    [(page + byte) mod 256], a self-timed operation lasts three polls,
    nothing is logged yet. *)
Definition sample_chip (v : AT45Flash) : Chip :=
  mkChip v 3 0 (fun p o => (p + o) mod 256) (fun _ => 0) (fun _ => 0) Idle [].

(** An identified AT45DB041 (264-byte pages, 2048 pages). *)
Definition sample_sys : Sys :=
  mkSys (mkFlash AT45DB041 2 (-1)) (sample_chip AT45DB041).

(** A device with page 3 staged, as a write sequence leaves it before
    [stopContWrite]. *)
Definition staged_sys : Sys :=
  mkSys (mkFlash AT45DB041 2 3) (sample_chip AT45DB041).

(** An AT45DB161 on the bus of a driver built for an AT45DB041. *)
Definition mismatch_sys : Sys :=
  mkSys (AT45DBFlash_new AT45DB041 0) (sample_chip AT45DB161).

(** The pages a block erase of [N] pages from page [P] reaches: those of
    the 8-page blocks numbered [P], [P + 8], ... below [P + N]. *)
Definition reached_by_blockErase (P N q : Z) : bool :=
  (P <=? q / 8) && (q / 8 <? P + N) && ((q / 8 - P) mod 8 =? 0).

(** A device in the middle of a self-timed operation: busy for three more
    status polls. *)
Definition busy_sys : Sys :=
  mkSys (mkFlash AT45DB041 2 (-1))
        (mkChip AT45DB041 3 3 (fun p o => (p + o) mod 256) (fun _ => 0)
                (fun _ => 0) Idle []).

(** A 528-byte-page device whose buffer holds 7 everywhere. *)
Definition wide_sys : Sys :=
  mkSys (mkFlash AT45DB161 4 (-1))
        (mkChip AT45DB161 3 0 (fun _ _ => 255) (fun _ => 7) (fun _ => 0)
                Idle []).

(** A device that has just received the opcode of a continuous read. *)
Definition addressed_sys : Sys :=
  mkSys (mkFlash AT45DB641 6 (-1))
        (mkChip AT45DB641 3 0 (fun _ _ => 255) (fun _ => 0) (fun _ => 0)
                (Addr 0xE8 []) []).

(* ================================================================= *)
(** * The megaAVR hardware layer (MyHwmegaAVR.cpp) *)

(** [int32_t]: 32 bits, two's complement. *)
Definition int32 (z : Z) : Z := (z + 2147483648) mod 4294967296 - 2147483648.

(** [#define PIT_INT_FREQ (1024)]: timer interrupts per second. *)
Definition PIT_INT_FREQ : Z := 1024.
(** [#define PIT_INT_PERIOD (16000/PIT_INT_FREQ)], an integer division. *)
Definition PIT_INT_PERIOD : Z := 16000 / PIT_INT_FREQ.

(** The interrupts that end a [sleep_cpu()]: the periodic timer, whose
    handler is in this file, or any other source. *)
Inductive Interrupt : Type := RTC_PIT_vect | other_vect.

(** [ISR(RTC_PIT_vect)], on the global [remainingSleep]. *)
Definition ISR_RTC_PIT (remainingSleep : Z) : Z :=
  if negb (remainingSleep =? 0) then u32 (remainingSleep - 1)
  else remainingSleep.

(** What serving an interrupt does to [remainingSleep]: only the timer's
    handler touches it. *)
Definition serve (i : Interrupt) (remainingSleep : Z) : Z :=
  match i with
  | RTC_PIT_vect => ISR_RTC_PIT remainingSleep
  | other_vect => remainingSleep
  end.

(** [while (remainingSleep>0) { wdt_disable(); sleep_cpu(); wdt_enable(..); }]
    where each [sleep_cpu()] returns after the next interrupt of [wakes]
    is served; [None] when the CPU is still asleep after all of them. *)
Fixpoint sleep_loop (wakes : list Interrupt) (remainingSleep : Z)
  : option (Z * list Interrupt) :=
  if 0 <? remainingSleep then
    match wakes with
    | [] => None
    | i :: wakes' => sleep_loop wakes' (serve i remainingSleep)
    end
  else Some (remainingSleep, wakes).

(** [hwInternalSleep]: the value returned, [remainingSleep] afterwards and
    the interrupts still to come. *)
Definition hwInternalSleep (ms : Z) (wakes : list Interrupt)
  : option (Z * Z * list Interrupt) :=
  let remainingSleep := u32 (u32 ms * PIT_INT_PERIOD) in
  let remainingSleep := remainingSleep / 16 in
  match sleep_loop wakes remainingSleep with
  | Some (remainingSleep, rest) => Some (0, remainingSleep, rest)
  | None => None
  end.

(** [hwCPUVoltage], given the build's [MEGATINYCORE_SERIES] and the value
    [analogReadEnh(ADC_VDDDIV10, 12)] returns; the result is [uint16_t]. *)
Definition hwCPUVoltage (MEGATINYCORE_SERIES analogReadEnh : Z) : Z :=
  if MEGATINYCORE_SERIES =? 2 then
    let vddmeasure := int32 (int32 analogReadEnh * 10) in
    let returnval := int (Z.shiftr vddmeasure 2) in
    let returnval :=
      if negb (Z.land vddmeasure 0x02 =? 0) then int (returnval + 1)
      else returnval in
    u16 returnval
  else u16 (-1).

(** How many timer ticks a list of interrupts holds. *)
Fixpoint pit_ticks (l : list Interrupt) : Z :=
  match l with
  | [] => 0
  | RTC_PIT_vect :: l' => 1 + pit_ticks l'
  | other_vect :: l' => pit_ticks l'
  end.

(* ================================================================= *)
(** * Proofs *)

(** ** Integer wrap-around *)

Lemma u8_small z : 0 <= z < 256 -> u8 z = z.
Proof. intros; unfold u8; apply Z.mod_small; lia. Qed.

Lemma u16_small z : 0 <= z < 65536 -> u16 z = z.
Proof. intros; unfold u16; apply Z.mod_small; lia. Qed.

Lemma u32_small z : 0 <= z < 4294967296 -> u32 z = z.
Proof. intros; unfold u32; apply Z.mod_small; lia. Qed.

Lemma int_small z : -32768 <= z < 32768 -> int z = z.
Proof. intros; unfold int; rewrite Z.mod_small; lia. Qed.

Lemma u8_range z : 0 <= u8 z < 256.
Proof. unfold u8; apply Z.mod_pos_bound; lia. Qed.

Lemma u8_u8 z : u8 (u8 z) = u8 z.
Proof. apply u8_small, u8_range. Qed.

Lemma u32_range z : 0 <= u32 z < 4294967296.
Proof. unfold u32; apply Z.mod_pos_bound; lia. Qed.

Lemma u32_u32 z : u32 (u32 z) = u32 z.
Proof. apply u32_small, u32_range. Qed.

(** The complement of a byte, as [~] and the conversion back to
    [uint8_t] compute it. *)
Lemma not8_val z : 0 <= z < 256 -> u8 (Z.lnot z) = 255 - z.
Proof.
  intros; unfold u8, Z.lnot, Z.pred.
  replace (- z + -1) with (255 - z + (-1) * 256) by lia.
  rewrite Z.mod_add by lia. apply Z.mod_small; lia.
Qed.

Lemma not8_not8 z : 0 <= z < 256 -> u8 (Z.lnot (u8 (Z.lnot z))) = z.
Proof. intros; rewrite (not8_val z) by lia; rewrite not8_val; lia. Qed.

(** ** The monad *)

Lemma bind_some {A B} (m : M A) (k : A -> M B) s a s' :
  m s = Some (a, s') -> bind m k s = k a s'.
Proof. intros H; unfold bind; now rewrite H. Qed.

Lemma bind_none {A B} (m : M A) (k : A -> M B) s :
  m s = None -> bind m k s = None.
Proof. intros H; unfold bind; now rewrite H. Qed.

Lemma status_ready (v : AT45Flash) (k : nat) :
  (Z.land (u8 ((if Nat.eqb k 0 then 128 else 0) + (2 * enum_value v + 3) * 4))
          0x80 =? 0x80) = Nat.eqb k 0.
Proof. destruct v, k; reflexivity. Qed.

Lemma bind_assoc {A B C} (m : M A) (f : A -> M B) (g : B -> M C) s :
  bind (bind m f) g s = bind m (fun x => bind (f x) g) s.
Proof. unfold bind. destruct (m s) as [[a s']|]; reflexivity. Qed.

(** Runs the first action of a [bind] with the equation [H] for it. *)
Ltac mstep H := rewrite ?bind_assoc; rewrite (bind_some _ _ _ _ _ H); cbv beta.

(** Runs a first action that only reads or writes the object. *)
Ltac mtriv :=
  rewrite ?bind_assoc; erewrite bind_some by reflexivity; cbv beta;
  cbn [this dev _density _cur_page_in_buf _expected_chip].

(** ** Single steps of the bus *)

Section Steps.
Variables (t : AT45DBFlash) (v : AT45Flash) (lat n : nat)
          (m : Z -> Z -> Z) (b1 b2 : Z -> Z) (lg : list (Z * Z)).

Local Abbreviation sys busy_now ph :=
  (mkSys t (mkChip v lat busy_now m b1 b2 ph lg)).

Lemma select_idle : select (sys n Idle) = Some (tt, sys n Opcode).
Proof. reflexivity. Qed.

Lemma transfer_opcode b :
  (u8 b =? 0xD7) = false ->
  SPI_transfer b (sys n Opcode) = Some (0, sys n (Addr (u8 b) [])).
Proof.
  intros H. unfold SPI_transfer, spi_transfer; cbn. now rewrite H.
Qed.

Lemma transfer_opcode_status :
  SPI_transfer 0xD7 (sys n Opcode) = Some (0, sys n Status).
Proof. reflexivity. Qed.

Lemma transfer_status b :
  SPI_transfer b (sys n Status)
  = Some (u8 ((if Nat.eqb n 0 then 128 else 0) + (2 * enum_value v + 3) * 4),
          sys (Nat.pred n) Status).
Proof. reflexivity. Qed.

Lemma transfer_addr0 op b :
  SPI_transfer b (sys n (Addr op [])) = Some (0, sys n (Addr op [u8 b])).
Proof. reflexivity. Qed.

Lemma transfer_addr1 op a1 b :
  SPI_transfer b (sys n (Addr op [a1])) = Some (0, sys n (Addr op [a1; u8 b])).
Proof. reflexivity. Qed.

Lemma transfer_addr2 op a1 a2 b :
  SPI_transfer b (sys n (Addr op [a1; a2]))
  = Some (0, mkSys t (mkChip v lat n m b1 b2
                        (dispatch v n op (a1 * 65536 + a2 * 256 + u8 b))
                        ((op, a1 * 65536 + a2 * 256 + u8 b) :: lg))).
Proof. reflexivity. Qed.

Lemma transfer_bufwrite1 pos b :
  SPI_transfer b (sys n (BufWrite 0 pos))
  = Some (0, mkSys t (mkChip v lat n m (upd b1 pos (u8 b)) b2
                        (BufWrite 0 (if pos + 1 <? chip_bytes v
                                     then pos + 1 else 0)) lg)).
Proof. reflexivity. Qed.

Lemma transfer_read_dummy k page byte b :
  (k < 4)%nat ->
  SPI_transfer b (sys n (ArrayRead k page byte))
  = Some (0, sys n (ArrayRead (S k) page byte)).
Proof.
  intros H. unfold SPI_transfer, spi_transfer; cbn [dev this phase].
  apply Nat.ltb_lt in H. now rewrite H.
Qed.

Lemma transfer_read_data page byte b :
  SPI_transfer b (sys n (ArrayRead 4 page byte))
  = Some (u8 (m page byte),
          sys n (if byte + 1 <? chip_bytes v
                 then ArrayRead 4 page (byte + 1)
                 else ArrayRead 4 ((page + 1) mod chip_pages v) 0)).
Proof. reflexivity. Qed.

Lemma unselect_status : unselect (sys n Status) = Some (tt, sys n Idle).
Proof. reflexivity. Qed.

Lemma unselect_bufwrite b pos :
  unselect (sys n (BufWrite b pos)) = Some (tt, sys n Idle).
Proof. reflexivity. Qed.

Lemma unselect_read k page byte :
  unselect (sys n (ArrayRead k page byte)) = Some (tt, sys n Idle).
Proof. reflexivity. Qed.

Lemma unselect_fetch1 adr :
  unselect (sys n (Pending 0x53 adr))
  = Some (tt, mkSys t (mkChip v lat lat m (m (page_of_adr v adr)) b2 Idle lg)).
Proof. reflexivity. Qed.

Lemma unselect_program1 adr :
  unselect (sys n (Pending 0x83 adr))
  = Some (tt, mkSys t (mkChip v lat lat (upd_page m (page_of_adr v adr) b1)
                         b1 b2 Idle lg)).
Proof. reflexivity. Qed.

Lemma unselect_erase_page adr :
  unselect (sys n (Pending 0x81 adr))
  = Some (tt, mkSys t (mkChip v lat lat (upd_page m (page_of_adr v adr) erased)
                         b1 b2 Idle lg)).
Proof. reflexivity. Qed.

Lemma unselect_erase_block adr :
  unselect (sys n (Pending 0x50 adr))
  = Some (tt, mkSys t (mkChip v lat lat
                         (fun q => if q / 8 =? page_of_adr v adr / 8
                                   then erased else m q)
                         b1 b2 Idle lg)).
Proof. reflexivity. Qed.

(** ** Status polling *)

Lemma readStatus_idle :
  readStatus (sys n Idle)
  = Some (u8 ((if Nat.eqb n 0 then 128 else 0) + (2 * enum_value v + 3) * 4),
          sys (Nat.pred n) Idle).
Proof. reflexivity. Qed.

Lemma busy_idle :
  busy (sys n Idle) = Some (negb (Nat.eqb n 0), sys (Nat.pred n) Idle).
Proof.
  unfold busy. mstep readStatus_idle. unfold ret. now rewrite status_ready.
Qed.

End Steps.

Lemma while_busy_idle fuel : forall t v lat n m b1 b2 lg,
  (n < fuel)%nat ->
  while_busy fuel (mkSys t (mkChip v lat n m b1 b2 Idle lg))
  = Some (tt, mkSys t (mkChip v lat 0 m b1 b2 Idle lg)).
Proof.
  induction fuel as [|f IH]; intros t v lat n m b1 b2 lg Hn; [lia|].
  cbn [while_busy]. mstep (busy_idle t v lat n m b1 b2 lg).
  destruct n as [|n]; cbn [Nat.eqb negb Nat.pred]; [reflexivity|].
  apply IH; lia.
Qed.

Lemma command_idle fuel cmd t v lat n m b1 b2 lg :
  (n < fuel)%nat -> (u8 cmd =? 0xD7) = false ->
  command fuel cmd (mkSys t (mkChip v lat n m b1 b2 Idle lg))
  = Some (tt, mkSys t (mkChip v lat 0 m b1 b2 (Addr (u8 cmd) []) lg)).
Proof.
  intros Hn Hc. unfold command.
  mstep (while_busy_idle fuel t v lat n m b1 b2 lg Hn).
  mstep (select_idle t v lat 0%nat m b1 b2 lg).
  mstep (transfer_opcode t v lat 0%nat m b1 b2 lg cmd Hc).
  reflexivity.
Qed.

Lemma poll_ready_status fuel : forall t v lat n m b1 b2 lg,
  (n < fuel)%nat ->
  poll_ready fuel (mkSys t (mkChip v lat n m b1 b2 Status lg))
  = Some (tt, mkSys t (mkChip v lat 0 m b1 b2 Status lg)).
Proof.
  induction fuel as [|f IH]; intros t v lat n m b1 b2 lg Hn; [lia|].
  cbn [poll_ready]. mstep (transfer_status t v lat n m b1 b2 lg 0).
  rewrite status_ready.
  destruct n as [|n]; cbn [Nat.eqb negb Nat.pred]; [reflexivity|].
  apply IH; lia.
Qed.

Lemma waitUntilBusy_idle fuel t v lat n m b1 b2 lg :
  (n < fuel)%nat ->
  waitUntilBusy fuel (mkSys t (mkChip v lat n m b1 b2 Idle lg))
  = Some (tt, mkSys t (mkChip v lat 0 m b1 b2 Idle lg)).
Proof.
  intros Hn. unfold waitUntilBusy.
  mstep (select_idle t v lat n m b1 b2 lg).
  mstep (transfer_opcode_status t v lat n m b1 b2 lg).
  mstep (poll_ready_status fuel t v lat n m b1 b2 lg Hn).
  apply unselect_status.
Qed.

(** ** The commands of the driver, from an idle bus *)

Lemma send3bytesAddr_spec page start t v lat n m b1 b2 lg op :
  send3bytesAddr page start (mkSys t (mkChip v lat n m b1 b2 (Addr op []) lg))
  = Some (tt, mkSys t (mkChip v lat n m b1 b2
                         (dispatch v n op (wire_adr (_density t) page start))
                         ((op, wire_adr (_density t) page start) :: lg))).
Proof. reflexivity. Qed.

Lemma wire_adr_0 d : wire_adr d 0 0 = 0.
Proof.
  unfold wire_adr. change (u32 (int 0)) with 0. now rewrite Z.shiftl_0_l.
Qed.

Lemma transfer_n_bufwrite k b : forall t v lat n m b1 b2 lg pos,
  exists b1' pos',
    transfer_n k b (mkSys t (mkChip v lat n m b1 b2 (BufWrite 0 pos) lg))
    = Some (tt, mkSys t (mkChip v lat n m b1' b2 (BufWrite 0 pos') lg)).
Proof.
  induction k as [|k IH]; intros t v lat n m b1 b2 lg pos.
  - now exists b1, pos.
  - cbn [transfer_n]. mstep (transfer_bufwrite1 t v lat n m b1 b2 lg pos b).
    apply IH.
Qed.

Lemma clearBuffer_idle fuel t v lat n m b1 b2 lg :
  (n < fuel)%nat ->
  exists b1',
    clearBuffer fuel 0 (mkSys t (mkChip v lat n m b1 b2 Idle lg))
    = Some (tt, mkSys t (mkChip v lat 0 m b1' b2 Idle ((0x84, 0) :: lg))).
Proof.
  intros Hn. unfold clearBuffer.
  mstep (command_idle fuel (0x84 + 3 * u8 0) t v lat n m b1 b2 lg Hn eq_refl).
  mstep (send3bytesAddr_spec 0 0 t v lat 0%nat m b1 b2 lg
           (u8 (0x84 + 3 * u8 0))).
  rewrite wire_adr_0.
  change (dispatch v 0 (u8 (132 + 3 * u8 0)) 0)
    with (BufWrite 0 (byte_of_adr v 0)).
  change (u8 (132 + 3 * u8 0)) with 132.
  destruct (transfer_n_bufwrite 264 255 t v lat 0%nat m b1 b2
              ((132, 0) :: lg) (byte_of_adr v 0)) as (b1' & pos' & E).
  exists b1'. mstep E. apply unselect_bufwrite.
Qed.

Lemma getPageToBuf_idle fuel page t v lat n m b1 b2 lg :
  (n < fuel)%nat -> (lat < fuel)%nat ->
  getPageToBuf fuel 0 page (mkSys t (mkChip v lat n m b1 b2 Idle lg))
  = Some (tt, mkSys t (mkChip v lat 0 m
                         (m (page_of_adr v (wire_adr (_density t) page 0)))
                         b2 Idle
                         ((0x53, wire_adr (_density t) page 0)
                            :: (0x84, 0) :: lg))).
Proof.
  intros Hn Hl. unfold getPageToBuf.
  destruct (clearBuffer_idle fuel t v lat n m b1 b2 lg Hn) as (b1' & E).
  mstep E.
  mstep (command_idle fuel (0x53 + 2 * u8 0) t v lat 0%nat m b1' b2
           ((0x84, 0) :: lg) ltac:(lia) eq_refl).
  mstep (send3bytesAddr_spec page 0 t v lat 0%nat m b1' b2
           ((0x84, 0) :: lg) (u8 (0x53 + 2 * u8 0))).
  change (u8 (83 + 2 * u8 0)) with 83.
  change (dispatch v 0 83 (wire_adr (_density t) page 0))
    with (Pending 83 (wire_adr (_density t) page 0)).
  mstep (unselect_fetch1 t v lat 0%nat m b1' b2
           ((83, wire_adr (_density t) page 0) :: (132, 0) :: lg)
           (wire_adr (_density t) page 0)).
  apply waitUntilBusy_idle; assumption.
Qed.

Lemma writeByteToBuffer_idle fuel start data t v lat n m b1 b2 lg :
  (n < fuel)%nat ->
  writeByteToBuffer fuel 0 start data
    (mkSys t (mkChip v lat n m b1 b2 Idle lg))
  = Some (tt, mkSys t (mkChip v lat 0 m
                         (upd b1 (byte_of_adr v (wire_adr (_density t) 0
                                                   (u16 start)))
                              (u8 (Z.lnot (u8 data))))
                         b2 Idle
                         ((0x84, wire_adr (_density t) 0 (u16 start)) :: lg))).
Proof.
  intros Hn. unfold writeByteToBuffer.
  mstep (command_idle fuel (0x84 + 3 * u8 0) t v lat n m b1 b2 lg Hn eq_refl).
  mstep (send3bytesAddr_spec 0 (u16 start) t v lat 0%nat m b1 b2 lg
           (u8 (0x84 + 3 * u8 0))).
  change (u8 (132 + 3 * u8 0)) with 132.
  change (dispatch v 0 132 (wire_adr (_density t) 0 (u16 start)))
    with (BufWrite 0 (byte_of_adr v (wire_adr (_density t) 0 (u16 start)))).
  mstep (transfer_bufwrite1 t v lat 0%nat m b1 b2
           ((132, wire_adr (_density t) 0 (u16 start)) :: lg)
           (byte_of_adr v (wire_adr (_density t) 0 (u16 start)))
           (Z.lnot (u8 data))).
  apply unselect_bufwrite.
Qed.

Lemma programBufToPage_idle fuel page t v lat n m b1 b2 lg :
  (n < fuel)%nat ->
  programBufToPage fuel 0 page (mkSys t (mkChip v lat n m b1 b2 Idle lg))
  = Some (tt, mkSys t (mkChip v lat lat
                         (upd_page m (page_of_adr v
                                        (wire_adr (_density t) page 0)) b1)
                         b1 b2 Idle
                         ((0x83, wire_adr (_density t) page 0) :: lg))).
Proof.
  intros Hn. unfold programBufToPage.
  mstep (command_idle fuel (0x83 + 2 * u8 0) t v lat n m b1 b2 lg Hn eq_refl).
  mstep (send3bytesAddr_spec page 0 t v lat 0%nat m b1 b2 lg
           (u8 (0x83 + 2 * u8 0))).
  change (u8 (131 + 2 * u8 0)) with 131.
  change (dispatch v 0 131 (wire_adr (_density t) page 0))
    with (Pending 131 (wire_adr (_density t) page 0)).
  apply unselect_program1.
Qed.

Lemma eraseBlock_idle fuel block t v lat n m b1 b2 lg :
  (n < fuel)%nat -> (lat < fuel)%nat ->
  eraseBlock fuel block (mkSys t (mkChip v lat n m b1 b2 Idle lg))
  = Some (tt,
          let adr := wire_adr (_density t) (int (Z.shiftl (int block) 3)) 0 in
          mkSys t (mkChip v lat 0
                     (fun q => if q / 8 =? page_of_adr v adr / 8
                               then erased else m q)
                     b1 b2 Idle ((0x50, adr) :: lg))).
Proof.
  intros Hn Hl. unfold eraseBlock.
  mstep (command_idle fuel 0x50 t v lat n m b1 b2 lg Hn eq_refl).
  mstep (send3bytesAddr_spec (int (Z.shiftl (int block) 3)) 0
           t v lat 0%nat m b1 b2 lg (u8 0x50)).
  change (u8 80) with 80.
  set (adr := wire_adr (_density t) (int (Z.shiftl (int block) 3)) 0).
  change (dispatch v 0 80 adr) with (Pending 80 adr).
  mstep (unselect_erase_block t v lat 0%nat m b1 b2 ((80, adr) :: lg) adr).
  cbv zeta.
  apply waitUntilBusy_idle; assumption.
Qed.

(** ** The write sequence, on any object and device *)

Lemma with_cur_same t : with_cur t (_cur_page_in_buf t) = t.
Proof. now destruct t. Qed.

Section Session.
Variables (fuel : nat) (t : AT45DBFlash) (v : AT45Flash) (lat n : nat)
          (m : Z -> Z -> Z) (b1 b2 : Z -> Z) (lg : list (Z * Z)).
Hypothesis Hn : (n < fuel)%nat.
Hypothesis Hlat : (lat < fuel)%nat.

Local Abbreviation d := (_density t).

Lemma startContWrite_idle start_addr :
  startContWrite fuel start_addr (mkSys t (mkChip v lat n m b1 b2 Idle lg))
  = Some (tt,
          let p := addressToPage t start_addr in
          mkSys (with_cur t p)
            (mkChip v lat 0 m (m (page_of_adr v (wire_adr d p 0))) b2 Idle
               ((0x53, wire_adr d p 0) :: (0x84, 0) :: lg))).
Proof.
  unfold startContWrite. do 3 mtriv.
  apply (getPageToBuf_idle fuel (addressToPage t start_addr)
           (with_cur t (addressToPage t start_addr))); assumption.
Qed.

Lemma writeContByte_same addr byte :
  _cur_page_in_buf t = addressToPage t addr ->
  writeContByte fuel addr byte (mkSys t (mkChip v lat n m b1 b2 Idle lg))
  = Some (tt,
          let a := wire_adr d 0 (u16 (addressToByteInPage t addr)) in
          mkSys t (mkChip v lat 0 m
                     (upd b1 (byte_of_adr v a) (u8 (Z.lnot (u8 byte))))
                     b2 Idle ((0x84, a) :: lg))).
Proof.
  intros E. unfold writeContByte. mtriv.
  rewrite E, Z.eqb_refl. cbn [negb]. do 2 mtriv.
  apply writeByteToBuffer_idle; assumption.
Qed.

Lemma writeContByte_other addr byte :
  _cur_page_in_buf t <> addressToPage t addr ->
  writeContByte fuel addr byte (mkSys t (mkChip v lat n m b1 b2 Idle lg))
  = Some (tt,
          let cur := _cur_page_in_buf t in
          let p := addressToPage t addr in
          let a := wire_adr d 0 (u16 (addressToByteInPage t addr)) in
          let m' := upd_page m (page_of_adr v (wire_adr d cur 0)) b1 in
          mkSys (with_cur t p)
            (mkChip v lat 0 m'
               (upd (m' (page_of_adr v (wire_adr d p 0)))
                    (byte_of_adr v a) (u8 (Z.lnot (u8 byte))))
               b2 Idle
               ((0x84, a) :: (0x53, wire_adr d p 0) :: (0x84, 0)
                  :: (0x83, wire_adr d cur 0) :: lg))).
Proof.
  intros E. unfold writeContByte. mtriv.
  apply Z.eqb_neq in E. rewrite E. cbn [negb].
  rewrite !bind_assoc.
  mstep (programBufToPage_idle fuel (_cur_page_in_buf t) t v lat n m b1 b2
           lg Hn).
  do 2 mtriv.
  mstep (getPageToBuf_idle fuel (addressToPage t addr)
           (mkFlash (_expected_chip t) (_density t) (addressToPage t addr))
           v lat lat
           (upd_page m (page_of_adr v (wire_adr d (_cur_page_in_buf t) 0)) b1)
           b1 b2 ((0x83, wire_adr d (_cur_page_in_buf t) 0) :: lg)
           Hlat Hlat).
  mtriv.
  apply (writeByteToBuffer_idle fuel
           (addressToByteInPage (with_cur t (addressToPage t addr)) addr)
           byte (with_cur t (addressToPage t addr))).
  lia.
Qed.

(** Both cases at once. *)
Lemma writeContByte_idle addr byte :
  writeContByte fuel addr byte (mkSys t (mkChip v lat n m b1 b2 Idle lg))
  = Some (tt,
          let cur := _cur_page_in_buf t in
          let p := addressToPage t addr in
          let a := wire_adr d 0 (u16 (addressToByteInPage t addr)) in
          let m' := if cur =? p then m
                    else upd_page m (page_of_adr v (wire_adr d cur 0)) b1 in
          mkSys (with_cur t p)
            (mkChip v lat 0 m'
               (upd (if cur =? p then b1
                     else m' (page_of_adr v (wire_adr d p 0)))
                    (byte_of_adr v a) (u8 (Z.lnot (u8 byte))))
               b2 Idle
               ((0x84, a)
                  :: (if cur =? p then lg
                      else (0x53, wire_adr d p 0) :: (0x84, 0)
                             :: (0x83, wire_adr d cur 0) :: lg)))).
Proof.
  destruct (Z.eq_dec (_cur_page_in_buf t) (addressToPage t addr)) as [E|E].
  - rewrite (writeContByte_same addr byte E). cbv zeta.
    rewrite <- E, Z.eqb_refl, with_cur_same. reflexivity.
  - rewrite (writeContByte_other addr byte E). cbv zeta.
    apply Z.eqb_neq in E. rewrite E. reflexivity.
Qed.

Lemma stopContWrite_idle :
  stopContWrite fuel (mkSys t (mkChip v lat n m b1 b2 Idle lg))
  = Some (tt,
          let a := wire_adr d (_cur_page_in_buf t) 0 in
          mkSys t (mkChip v lat lat (upd_page m (page_of_adr v a) b1)
                     b1 b2 Idle ((0x83, a) :: lg))).
Proof.
  unfold stopContWrite. mtriv.
  apply programBufToPage_idle; assumption.
Qed.

End Session.

(** ** Addresses on the wire, within the device *)

Lemma bytes24 a :
  0 <= a < 16777216 ->
  u8 (Z.shiftr a 16) * 65536 + u8 (Z.shiftr a 8) * 256 + u8 a = a.
Proof.
  intros H. rewrite !Z.shiftr_div_pow2 by lia. unfold u8.
  change (2 ^ 16) with 65536. change (2 ^ 8) with 256.
  Z.div_mod_to_equations. lia.
Qed.

Lemma chip_geometry v :
  (chip_bits v = 9 /\ chip_bytes v = 264 /\
   (chip_pages v = 512 \/ chip_pages v = 1024 \/ chip_pages v = 2048
    \/ chip_pages v = 4096))
  \/ (chip_bits v = 10 /\ chip_bytes v = 528 /\
      (chip_pages v = 4096 \/ chip_pages v = 8192))
  \/ (chip_bits v = 11 /\ chip_bytes v = 1056 /\ chip_pages v = 8192).
Proof. destruct v; cbv; tauto. Qed.

Lemma wire_adr_device v p o :
  0 <= p < chip_pages v -> 0 <= o < chip_bytes v ->
  wire_adr (enum_value v) p o = p * 2 ^ chip_bits v + o.
Proof.
  intros Hp Ho. unfold wire_adr. fold (chip_bits v).
  assert (G := chip_geometry v).
  assert (Hb : 0 <= chip_bits v) by lia.
  assert (Hpow :
    2 ^ chip_bits v = 512 /\ chip_bytes v = 264 /\ chip_pages v <= 4096
    \/ 2 ^ chip_bits v = 1024 /\ chip_bytes v = 528 /\ chip_pages v <= 8192
    \/ 2 ^ chip_bits v = 2048 /\ chip_bytes v = 1056
       /\ chip_pages v <= 8192).
  { destruct G as [(E & ? & ?)|[(E & ? & ?)|(E & ? & ?)]]; rewrite E;
      [left|right; left|right; right]; repeat split; try reflexivity; lia. }
  cbv zeta.
  rewrite (int_small p), (int_small o) by lia.
  rewrite (u32_small p), (u32_small o) by lia.
  rewrite Z.shiftl_mul_pow2 by lia.
  rewrite (u32_small (p * 2 ^ chip_bits v)) by nia.
  rewrite (u32_small (p * 2 ^ chip_bits v + o)) by nia.
  apply bytes24. nia.
Qed.

Lemma decode_page v p o :
  0 <= p < chip_pages v -> 0 <= o < chip_bytes v ->
  page_of_adr v (wire_adr (enum_value v) p o) = p.
Proof.
  intros Hp Ho. rewrite wire_adr_device by assumption. unfold page_of_adr.
  assert (G := chip_geometry v).
  assert (Hb : 0 <= chip_bits v) by lia.
  rewrite Z.shiftr_div_pow2 by lia.
  assert (Hlt : o < 2 ^ chip_bits v).
  { destruct G as [(E & ? & ?)|[(E & ? & ?)|(E & ? & ?)]]; rewrite E;
      [change (2 ^ 9) with 512|change (2 ^ 10) with 1024
      |change (2 ^ 11) with 2048]; lia. }
  rewrite Z.div_add_l by lia. rewrite (Z.div_small o) by lia.
  rewrite Z.add_0_r. apply Z.mod_small; lia.
Qed.

Lemma decode_byte v p o :
  0 <= p < chip_pages v -> 0 <= o < chip_bytes v ->
  byte_of_adr v (wire_adr (enum_value v) p o) = o.
Proof.
  intros Hp Ho. rewrite wire_adr_device by assumption. unfold byte_of_adr.
  assert (G := chip_geometry v).
  assert (Hlt : o < 2 ^ chip_bits v).
  { destruct G as [(E & ? & ?)|[(E & ? & ?)|(E & ? & ?)]]; rewrite E;
      [change (2 ^ 9) with 512|change (2 ^ 10) with 1024
      |change (2 ^ 11) with 2048]; lia. }
  rewrite Z.add_comm, Z.mod_add by lia. apply Z.mod_small; lia.
Qed.

Lemma chip_bytes_pos v : 0 < chip_bytes v.
Proof. destruct v; reflexivity. Qed.

Lemma chip_pages_pos v : 0 < chip_pages v.
Proof. destruct v; reflexivity. Qed.

Lemma chip_pages_small v : chip_pages v <= 8192.
Proof. destruct v; cbv; discriminate. Qed.

Lemma chip_bytes_small v : chip_bytes v <= 1056.
Proof. destruct v; cbv; discriminate. Qed.

Lemma page_in_device v a :
  0 <= a < capacity v -> 0 <= a / chip_bytes v < chip_pages v.
Proof.
  intros H. unfold capacity in H. pose proof (chip_bytes_pos v).
  split; [apply Z.div_pos; lia|apply Z.div_lt_upper_bound; lia].
Qed.

Lemma offset_in_page v a : 0 <= a mod chip_bytes v < chip_bytes v.
Proof. apply Z.mod_pos_bound, chip_bytes_pos. Qed.

Lemma addressToPage_device t v a :
  _density t = enum_value v -> 0 <= a < capacity v ->
  addressToPage t a = a / chip_bytes v.
Proof.
  intros E H. unfold addressToPage. rewrite E. fold (chip_bytes v).
  pose proof (page_in_device v a H). pose proof (chip_pages_small v).
  pose proof (chip_bytes_small v). unfold capacity in H.
  rewrite u32_small by nia. apply u16_small. lia.
Qed.

Lemma addressToByteInPage_device t v a :
  _density t = enum_value v -> 0 <= a < capacity v ->
  addressToByteInPage t a = a mod chip_bytes v.
Proof.
  intros E H. unfold addressToByteInPage. rewrite E. fold (chip_bytes v).
  pose proof (offset_in_page v a). pose proof (chip_pages_small v).
  pose proof (chip_bytes_small v). unfold capacity in H.
  rewrite u32_small by nia. apply u16_small. lia.
Qed.

(** ** The write sequence within the device it was identified as *)

Lemma linear_eq v p o a :
  0 <= o < chip_bytes v ->
  (p = a / chip_bytes v /\ o = a mod chip_bytes v) <-> p * chip_bytes v + o = a.
Proof.
  intros Ho. pose proof (chip_bytes_pos v). split.
  - intros [-> ->]. rewrite Z.mul_comm. symmetry. apply Z.div_mod. lia.
  - intros <-. split.
    + rewrite Z.div_add_l by lia. rewrite Z.div_small by lia. lia.
    + rewrite Z.add_comm, Z.mod_add by lia. symmetry. apply Z.mod_small; lia.
Qed.

Section DeviceWrite.
Variables (fuel : nat) (v : AT45Flash) (lat : nat) (b2 : Z -> Z).
Hypothesis Hlat : (lat < fuel)%nat.

Lemma writeContByte_view t n m b1 lg a byte :
  _density t = enum_value v ->
  0 <= _cur_page_in_buf t < chip_pages v ->
  0 <= a < capacity v ->
  (n < fuel)%nat ->
  exists m' b1' lg',
    writeContByte fuel a byte (mkSys t (mkChip v lat n m b1 b2 Idle lg))
    = Some (tt, mkSys (with_cur t (a / chip_bytes v))
                  (mkChip v lat 0 m' b1' b2 Idle lg'))
    /\ forall p o,
        view (a / chip_bytes v) m' b1' p o
        = if (p =? a / chip_bytes v) && (o =? a mod chip_bytes v)
          then u8 (Z.lnot (u8 byte))
          else view (_cur_page_in_buf t) m b1 p o.
Proof.
  intros Ed Hcur Ha Hn.
  pose proof (addressToPage_device t v a Ed Ha) as Ep.
  pose proof (addressToByteInPage_device t v a Ed Ha) as Eo.
  pose proof (page_in_device v a Ha) as Hp.
  pose proof (offset_in_page v a) as Ho.
  pose proof (chip_pages_pos v) as Hpp.
  pose proof (chip_bytes_small v) as Hbs.
  assert (Eu : u16 (a mod chip_bytes v) = a mod chip_bytes v)
    by (apply u16_small; lia).
  destruct (Z.eq_dec (_cur_page_in_buf t) (addressToPage t a)) as [E|E].
  - rewrite (writeContByte_same fuel t v lat n m b1 b2 lg Hn a byte E).
    cbv zeta. rewrite Eo, Eu, Ed.
    rewrite decode_byte by lia.
    rewrite Ep in E. rewrite <- E, with_cur_same.
    do 3 eexists. split; [reflexivity|].
    intros p o. unfold view, upd_page, upd.
    destruct (p =? _cur_page_in_buf t); cbn [andb]; reflexivity.
  - rewrite (writeContByte_other fuel t v lat n m b1 b2 lg Hn Hlat a byte E).
    cbv zeta. rewrite Eo, Eu, Ed, Ep.
    rewrite decode_byte by lia.
    rewrite !decode_page by lia.
    do 3 eexists. split; [reflexivity|].
    intros p o. unfold view, upd_page, upd.
    destruct (p =? a / chip_bytes v) eqn:E1; cbn [andb].
    + apply Z.eqb_eq in E1; subst p. reflexivity.
    + reflexivity.
Qed.

Lemma writeBytes_loop_view buf addr : forall k i t n m b1 lg,
  _density t = enum_value v ->
  0 <= _cur_page_in_buf t < chip_pages v ->
  0 <= addr -> 0 <= i -> addr + i + Z.of_nat k <= capacity v ->
  (n < fuel)%nat ->
  exists t' n' m' b1' lg',
    writeBytes_loop fuel k addr buf i
      (mkSys t (mkChip v lat n m b1 b2 Idle lg))
    = Some (tt, mkSys t' (mkChip v lat n' m' b1' b2 Idle lg'))
    /\ _density t' = enum_value v
    /\ 0 <= _cur_page_in_buf t' < chip_pages v
    /\ (n' < fuel)%nat
    /\ forall p o,
        0 <= o < chip_bytes v ->
        view (_cur_page_in_buf t') m' b1' p o
        = if (addr + i <=? p * chip_bytes v + o)
             && (p * chip_bytes v + o <? addr + i + Z.of_nat k)
          then u8 (Z.lnot (u8 (nth (Z.to_nat (p * chip_bytes v + o - addr))
                                   buf 0)))
          else view (_cur_page_in_buf t) m b1 p o.
Proof.
 
  induction k as [|k IH]; intros i t n m b1 lg Ed Hcur Haddr Hi Hcap Hn.
  - exists t, n, m, b1, lg. repeat split; try assumption; try lia.
    intros p o Ho.
    destruct (addr + i <=? p * chip_bytes v + o) eqn:E1; cbn [andb];
      [|reflexivity].
    destruct (p * chip_bytes v + o <? addr + i + Z.of_nat 0) eqn:E2;
      [|reflexivity].
    apply Z.leb_le in E1. apply Z.ltb_lt in E2. lia.
  - cbn [writeBytes_loop].
    assert (Ha : 0 <= addr + i < capacity v) by lia.
    pose proof (chip_pages_small v). pose proof (chip_bytes_small v).
    assert (Hc : capacity v <= 8192 * 1056)
      by (unfold capacity; pose proof (chip_pages_pos v);
          pose proof (chip_bytes_pos v); nia).
    rewrite (u32_small (addr + i)) by lia.
    destruct (writeContByte_view t n m b1 lg (addr + i)
                (nth (Z.to_nat i) buf 0) Ed Hcur Ha Hn)
      as (m1 & b11 & lg1 & E1 & V1).
    mstep E1.
    destruct (IH (i + 1) (with_cur t ((addr + i) / chip_bytes v)) 0%nat
                m1 b11 lg1)
      as (t' & n' & m' & b1' & lg' & E2 & Ed' & Hcur' & Hn' & V2);
      try assumption; try lia.
    { cbn [with_cur _cur_page_in_buf]. apply page_in_device, Ha. }
    exists t', n', m', b1', lg'. repeat split; try assumption; try lia.
    intros p o Ho. rewrite (V2 p o Ho). cbn [with_cur _cur_page_in_buf].
    rewrite V1.
    pose proof (linear_eq v p o (addr + i) Ho) as L.
    set (pb' := chip_bytes v) in *.
    destruct (Z.eq_dec (p * pb' + o) (addr + i)) as [Elin|Nlin].
    + destruct L as [_ L]. destruct (L Elin) as [Ep Eo].
      rewrite <- Ep, <- Eo, !Z.eqb_refl. cbn [andb].
      replace (addr + (i + 1) <=? p * pb' + o) with false
        by (symmetry; apply Z.leb_gt; lia).
      replace (addr + i <=? p * pb' + o) with true
        by (symmetry; apply Z.leb_le; lia).
      replace (p * pb' + o <? addr + i + Z.of_nat (S k)) with true
        by (symmetry; apply Z.ltb_lt; lia).
      cbn [andb]. rewrite Elin.
      replace (addr + i - addr) with i by lia. reflexivity.
    + replace ((p =? (addr + i) / pb') && (o =? (addr + i) mod pb'))
        with false.
      2:{ symmetry. apply not_true_is_false. intros C.
          apply andb_true_iff in C. destruct C as [C5 C6].
          apply Z.eqb_eq in C5, C6. destruct L as [L _].
          apply Nlin, L. now split. }
      replace ((addr + (i + 1) <=? p * pb' + o)
               && (p * pb' + o <? addr + (i + 1) + Z.of_nat k))
        with ((addr + i <=? p * pb' + o)
              && (p * pb' + o <? addr + i + Z.of_nat (S k)));
        [reflexivity|].
      destruct (addr + (i + 1) <=? p * pb' + o) eqn:C1;
        destruct (p * pb' + o <? addr + (i + 1) + Z.of_nat k) eqn:C2;
        destruct (addr + i <=? p * pb' + o) eqn:C3;
        destruct (p * pb' + o <? addr + i + Z.of_nat (S k)) eqn:C4;
        cbn [andb]; try reflexivity; exfalso;
        try apply Z.leb_le in C1; try apply Z.leb_gt in C1;
        try apply Z.ltb_lt in C2; try apply Z.ltb_ge in C2;
        try apply Z.leb_le in C3; try apply Z.leb_gt in C3;
        try apply Z.ltb_lt in C4; try apply Z.ltb_ge in C4; lia.
Qed.

End DeviceWrite.

Section DeviceRead.
Variables (fuel : nat) (v : AT45Flash) (lat : nat) (b2 : Z -> Z).
Hypothesis Hlat : (lat < fuel)%nat.

Lemma view_fetched cur m p o : view cur m (m cur) p o = m p o.
Proof.
  unfold view, upd_page. destruct (p =? cur) eqn:E; [|reflexivity].
  apply Z.eqb_eq in E. now subst.
Qed.

(** [writeBytes] within the device: the array afterwards holds the
    complemented data over the span and is unchanged elsewhere. *)
Lemma writeBytes_device t n m b1 lg addr buf len :
  _density t = enum_value v ->
  0 <= addr < capacity v -> 0 <= len < 65536 -> addr + len <= capacity v ->
  (n < fuel)%nat ->
  exists t' m' b1' lg',
    writeBytes fuel addr buf len (mkSys t (mkChip v lat n m b1 b2 Idle lg))
    = Some (tt, mkSys t' (mkChip v lat lat m' b1' b2 Idle lg'))
    /\ _density t' = enum_value v
    /\ forall p o,
        0 <= o < chip_bytes v ->
        m' p o
        = if (addr <=? p * chip_bytes v + o)
             && (p * chip_bytes v + o <? addr + len)
          then u8 (Z.lnot (u8 (nth (Z.to_nat (p * chip_bytes v + o - addr))
                                   buf 0)))
          else m p o.
Proof.
  intros Ed Ha Hlen Hcap Hn. unfold writeBytes.
  pose proof (chip_pages_small v). pose proof (chip_bytes_small v).
  assert (Hc : capacity v <= 8192 * 1056)
    by (unfold capacity; pose proof (chip_pages_pos v);
        pose proof (chip_bytes_pos v); nia).
  mstep (startContWrite_idle fuel t v lat n m b1 b2 lg Hn Hlat addr).
  cbv zeta. rewrite (addressToPage_device t v addr Ed Ha), Ed.
  pose proof (page_in_device v addr Ha) as Hp.
  rewrite decode_page by (pose proof (chip_bytes_pos v); lia).
  rewrite (u32_small addr), (u16_small len) by lia.
  destruct (writeBytes_loop_view fuel v lat b2 Hlat buf addr (Z.to_nat len) 0
              (with_cur t (addr / chip_bytes v)) 0%nat m
              (m (addr / chip_bytes v))
              ((0x53, wire_adr (enum_value v) (addr / chip_bytes v) 0)
                 :: (0x84, 0) :: lg))
    as (t' & n' & m' & b1' & lg' & E & Ed' & Hcur' & Hn' & V);
    try assumption; try lia.
  mstep E.
  rewrite (stopContWrite_idle fuel t' v lat n' m' b1' b2 lg' Hn').
  cbv zeta. rewrite Ed'.
  rewrite decode_page by (pose proof (chip_bytes_pos v); lia).
  do 4 eexists. split; [reflexivity|]. split; [assumption|].
  intros p o Ho. fold (view (_cur_page_in_buf t') m' b1').
  rewrite (V p o Ho). cbn [with_cur _cur_page_in_buf].
  rewrite view_fetched, Z.add_0_r, Z2Nat.id by lia. reflexivity.
Qed.

Lemma read_loop_stream t n m b1 lg : forall k a,
  0 <= a -> a + Z.of_nat k <= capacity v ->
  exists page byte,
    read_loop k (mkSys t (mkChip v lat n m b1 b2
                            (ArrayRead 4 (a / chip_bytes v)
                                       (a mod chip_bytes v)) lg))
    = Some (stream v m a k,
            mkSys t (mkChip v lat n m b1 b2 (ArrayRead 4 page byte) lg)).
Proof.
  induction k as [|k IH]; intros a Ha Hcap.
  - do 2 eexists. reflexivity.
  - cbn [read_loop stream].
    mstep (transfer_read_data t v lat n m b1 b2 lg (a / chip_bytes v)
             (a mod chip_bytes v) 0).
    destruct k as [|k].
    + destruct (a mod chip_bytes v + 1 <? chip_bytes v);
        do 2 eexists; reflexivity.
    + pose proof (chip_bytes_pos v) as Hb.
      pose proof (offset_in_page v a) as Ho.
      assert (Hin : 0 <= a + 1 < capacity v) by lia.
      pose proof (page_in_device v (a + 1) Hin) as Hp.
      assert (Enext :
        (if a mod chip_bytes v + 1 <? chip_bytes v
         then ArrayRead 4 (a / chip_bytes v) (a mod chip_bytes v + 1)
         else ArrayRead 4 ((a / chip_bytes v + 1) mod chip_pages v) 0)
        = ArrayRead 4 ((a + 1) / chip_bytes v) ((a + 1) mod chip_bytes v)).
      { pose proof (Z.div_mod a (chip_bytes v) ltac:(lia)) as Da.
        destruct (a mod chip_bytes v + 1 <? chip_bytes v) eqn:C.
        - apply Z.ltb_lt in C.
          destruct (proj2 (linear_eq v (a / chip_bytes v)
                             (a mod chip_bytes v + 1) (a + 1) ltac:(lia))
                      ltac:(lia)) as [<- <-].
          reflexivity.
        - apply Z.ltb_ge in C.
          destruct (proj2 (linear_eq v (a / chip_bytes v + 1) 0 (a + 1)
                             ltac:(lia)) ltac:(nia)) as [E1 E2].
          rewrite <- E1, <- E2. rewrite Z.mod_small by lia. reflexivity. }
      rewrite Enext.
      destruct (IH (a + 1)) as (page & byte & E); try lia.
      exists page, byte. mstep E. reflexivity.
Qed.

(** [readBytes] within the device delivers the complement of the array
    over the span and changes neither the array nor the buffers. *)
Lemma readBytes_device t n m b1 lg addr len :
  _density t = enum_value v ->
  0 <= addr < capacity v -> 0 <= len < 65536 -> addr + len <= capacity v ->
  (n < fuel)%nat ->
  exists lg',
    readBytes fuel addr len (mkSys t (mkChip v lat n m b1 b2 Idle lg))
    = Some (stream v m addr (Z.to_nat len),
            mkSys t (mkChip v lat 0 m b1 b2 Idle lg')).
Proof.
  intros Ed Ha Hlen Hcap Hn. unfold readBytes.
  mstep (command_idle fuel 0xE8 t v lat n m b1 b2 lg Hn eq_refl).
  mtriv.
  mstep (send3bytesAddr_spec (addressToPage t addr)
           (addressToByteInPage t addr) t v lat 0%nat m b1 b2 lg (u8 0xE8)).
  rewrite (addressToPage_device t v addr Ed Ha),
          (addressToByteInPage_device t v addr Ed Ha), Ed.
  pose proof (page_in_device v addr Ha) as Hp.
  pose proof (offset_in_page v addr) as Ho.
  change (u8 232) with 232.
  set (adr := wire_adr (enum_value v) (addr / chip_bytes v)
                (addr mod chip_bytes v)).
  change (dispatch v 0 232 adr)
    with (ArrayRead 0 (page_of_adr v adr) (byte_of_adr v adr)).
  unfold adr. rewrite decode_page, decode_byte by assumption.
  change (transfer_n 4 0)
    with (SPI_transfer 0 ;; SPI_transfer 0 ;; SPI_transfer 0 ;;
          SPI_transfer 0 ;; ret tt).
  mstep (transfer_read_dummy t v lat 0%nat m b1 b2 ((232, adr) :: lg) 0%nat
           (addr / chip_bytes v) (addr mod chip_bytes v) 0 ltac:(lia)).
  mstep (transfer_read_dummy t v lat 0%nat m b1 b2 ((232, adr) :: lg) 1%nat
           (addr / chip_bytes v) (addr mod chip_bytes v) 0 ltac:(lia)).
  mstep (transfer_read_dummy t v lat 0%nat m b1 b2 ((232, adr) :: lg) 2%nat
           (addr / chip_bytes v) (addr mod chip_bytes v) 0 ltac:(lia)).
  mstep (transfer_read_dummy t v lat 0%nat m b1 b2 ((232, adr) :: lg) 3%nat
           (addr / chip_bytes v) (addr mod chip_bytes v) 0 ltac:(lia)).
  mtriv.
  rewrite (u16_small len) by lia.
  destruct (read_loop_stream t 0%nat m b1 ((232, adr) :: lg) (Z.to_nat len)
              addr) as (page & byte & E); try lia.
  mstep E. exists ((232, adr) :: lg). reflexivity.
Qed.

End DeviceRead.

Lemma stream_ext v m : forall l a,
  (forall j, (j < length l)%nat ->
     u8 (Z.lnot (u8 (m ((a + Z.of_nat j) / chip_bytes v)
                       ((a + Z.of_nat j) mod chip_bytes v))))
     = nth j l 0) ->
  stream v m a (length l) = l.
Proof.
  induction l as [|x l IH]; intros a H; [reflexivity|].
  cbn [length stream]. f_equal.
  - specialize (H 0%nat ltac:(cbn; lia)). cbn [nth Z.of_nat] in H.
    now rewrite Z.add_0_r in H.
  - apply IH. intros j Hj. specialize (H (S j) ltac:(cbn; lia)).
    cbn [nth] in H. rewrite <- H. rewrite Nat2Z.inj_succ.
    now replace (a + 1 + Z.of_nat j) with (a + Z.succ (Z.of_nat j)) by lia.
Qed.

Ltac open_sys s :=
  let t := fresh "t" in let v := fresh "v" in let lat := fresh "lat" in
  let n := fresh "n" in let m := fresh "m" in let b1 := fresh "b1" in
  let b2 := fresh "b2" in let ph := fresh "ph" in let lg := fresh "lg" in
  destruct s as [t [v lat n m b1 b2 ph lg]];
  unfold ready, responsive in *;
  cbn [this dev _density variant phase busy_left latency main buf1 buf2 log]
    in *.

Lemma readByte_device fuel v lat b2 t n m b1 lg addr :
  _density t = enum_value v ->
  0 <= addr < capacity v ->
  (n < fuel)%nat ->
  exists lg',
    readByte fuel addr (mkSys t (mkChip v lat n m b1 b2 Idle lg))
    = Some (u8 (m (addr / chip_bytes v) (addr mod chip_bytes v)),
            mkSys t (mkChip v lat 0 m b1 b2 Idle lg')).
Proof.
  intros Ed Ha Hn. unfold readByte.
  mstep (command_idle fuel 0xE8 t v lat n m b1 b2 lg Hn eq_refl).
  mtriv.
  mstep (send3bytesAddr_spec (addressToPage t addr)
           (addressToByteInPage t addr) t v lat 0%nat m b1 b2 lg (u8 0xE8)).
  rewrite (addressToPage_device t v addr Ed Ha),
          (addressToByteInPage_device t v addr Ed Ha), Ed.
  pose proof (page_in_device v addr Ha) as Hp.
  pose proof (offset_in_page v addr) as Ho.
  change (u8 232) with 232.
  set (adr := wire_adr (enum_value v) (addr / chip_bytes v)
                (addr mod chip_bytes v)).
  change (dispatch v 0 232 adr)
    with (ArrayRead 0 (page_of_adr v adr) (byte_of_adr v adr)).
  unfold adr. rewrite decode_page, decode_byte by assumption.
  change (transfer_n 4 0)
    with (SPI_transfer 0 ;; SPI_transfer 0 ;; SPI_transfer 0 ;;
          SPI_transfer 0 ;; ret tt).
  mstep (transfer_read_dummy t v lat 0%nat m b1 b2 ((232, adr) :: lg) 0%nat
           (addr / chip_bytes v) (addr mod chip_bytes v) 0 ltac:(lia)).
  mstep (transfer_read_dummy t v lat 0%nat m b1 b2 ((232, adr) :: lg) 1%nat
           (addr / chip_bytes v) (addr mod chip_bytes v) 0 ltac:(lia)).
  mstep (transfer_read_dummy t v lat 0%nat m b1 b2 ((232, adr) :: lg) 2%nat
           (addr / chip_bytes v) (addr mod chip_bytes v) 0 ltac:(lia)).
  mstep (transfer_read_dummy t v lat 0%nat m b1 b2 ((232, adr) :: lg) 3%nat
           (addr / chip_bytes v) (addr mod chip_bytes v) 0 ltac:(lia)).
  mtriv.
  mstep (transfer_read_data t v lat 0%nat m b1 b2 ((232, adr) :: lg)
           (addr / chip_bytes v) (addr mod chip_bytes v) 0).
  exists ((232, adr) :: lg).
  destruct (addr mod chip_bytes v + 1 <? chip_bytes v); reflexivity.
Qed.

Lemma bind_ret_tt (m : M unit) s : bind m (fun _ => ret tt) s = m s.
Proof. unfold bind, ret. destruct (m s) as [[[] s']|]; reflexivity. Qed.

Lemma writeContByte_u32 fuel a b s :
  writeContByte fuel (u32 a) b s = writeContByte fuel a b s.
Proof.
  unfold writeContByte, addressToPage, addressToByteInPage.
  now rewrite !u32_u32.
Qed.

Lemma startContWrite_u32 fuel a s :
  startContWrite fuel (u32 a) s = startContWrite fuel a s.
Proof. unfold startContWrite, addressToPage. now rewrite !u32_u32. Qed.

Lemma writeByte_as_writeBytes fuel addr byt s :
  writeByte fuel addr byt s = writeBytes fuel addr [byt] 1 s.
Proof.
  unfold writeByte, writeBytes.
  change (Z.to_nat (u16 1)) with 1%nat. cbn [writeBytes_loop nth Z.to_nat].
  unfold bind.
  destruct (startContWrite fuel addr s) as [[[] s1]|]; [|reflexivity].
  rewrite (writeContByte_u32 fuel (u32 addr + 0)).
  replace (u32 addr + 0) with (u32 addr) by lia.
  rewrite writeContByte_u32.
  destruct (writeContByte fuel addr byt s1) as [[[] s2]|]; reflexivity.
Qed.

(** ** Writing and reading back *)

Lemma recompose v a :
  a / chip_bytes v * chip_bytes v + a mod chip_bytes v = a.
Proof.
  pose proof (chip_bytes_pos v). rewrite Z.mul_comm. symmetry.
  apply Z.div_mod. lia.
Qed.

(** C2: a span written with [writeBytes] and read back with [readBytes]
    right away comes back unchanged, for every address and data whose span
    lies within the device. *)
Theorem writeBytes_readBytes_roundtrip fuel s addr data :
  ready s -> responsive fuel s ->
  Forall is_byte data ->
  0 <= addr < capacity (variant (dev s)) ->
  Z.of_nat (length data) < 65536 ->
  addr + Z.of_nat (length data) <= capacity (variant (dev s)) ->
  exists s1 s2,
    writeBytes fuel addr data (Z.of_nat (length data)) s = Some (tt, s1)
    /\ readBytes fuel addr (Z.of_nat (length data)) s1 = Some (data, s2).
Proof.
  intros Hr Hf Hd Ha Hlen Hcap. open_sys s.
  destruct Hr as [Ed ->]. destruct Hf as [Hn Hlat].
  destruct (writeBytes_device fuel v lat b2 Hlat t n m b1 lg addr data
              (Z.of_nat (length data)) Ed Ha ltac:(lia) Hcap Hn)
    as (t' & m' & b1' & lg' & E & Ed' & V).
  destruct (readBytes_device fuel v lat b2 Hlat t' lat m' b1' lg' addr
              (Z.of_nat (length data)) Ed' Ha ltac:(lia) Hcap Hlat)
    as (lg2 & E2).
  do 2 eexists. split; [exact E|]. rewrite E2. do 2 f_equal.
  rewrite Nat2Z.id. apply stream_ext. intros j Hj.
  rewrite V by apply offset_in_page. rewrite recompose.
  replace (addr <=? addr + Z.of_nat j) with true
    by (symmetry; apply Z.leb_le; lia).
  replace (addr + Z.of_nat j <? addr + Z.of_nat (length data)) with true
    by (symmetry; apply Z.ltb_lt; lia).
  cbn [andb]. replace (addr + Z.of_nat j - addr) with (Z.of_nat j) by lia.
  rewrite Nat2Z.id.
  assert (Hb : is_byte (nth j data 0)).
  { rewrite Forall_forall in Hd. apply Hd, nth_In, Hj. }
  unfold is_byte in Hb. rewrite (u8_small (nth j data 0)) by exact Hb.
  rewrite u8_u8. now apply not8_not8.
Qed.

Lemma writeBytes_readBytes_roundtrip_witness :
  exists s1 s2,
    writeBytes 5 262 [1; 2; 3] 3 sample_sys = Some (tt, s1)
    /\ readBytes 5 262 3 s1 = Some ([1; 2; 3], s2).
Proof.
  apply (writeBytes_readBytes_roundtrip 5 sample_sys 262 [1; 2; 3]).
  - split; reflexivity.
  - split; cbv [sample_sys sample_chip dev busy_left latency]; lia.
  - repeat constructor; unfold is_byte; lia.
  - change (capacity (variant (dev sample_sys))) with 540672; lia.
  - change (Z.of_nat (length [1; 2; 3])) with 3; lia.
  - change (capacity (variant (dev sample_sys))) with 540672.
    change (Z.of_nat (length [1; 2; 3])) with 3; lia.
Defined.

(** C3 (what the code does): after [writeByte addr v], [readByte addr]
    returns the complement [255 - v], not [v]: [readByte] hands back the
    byte on the wire, where [readBytes] complements it. *)
Theorem writeByte_readByte_complement fuel s addr v :
  ready s -> responsive fuel s ->
  is_byte v ->
  0 <= addr < capacity (variant (dev s)) ->
  exists s1 s2,
    writeByte fuel addr v s = Some (tt, s1)
    /\ readByte fuel addr s1 = Some (255 - v, s2).
Proof.
  intros Hr Hf Hv Ha. open_sys s. rename v into byt, v0 into v.
  destruct Hr as [Ed ->]. destruct Hf as [Hn Hlat].
  rewrite writeByte_as_writeBytes.
  assert (Hc : capacity v <= 8192 * 1056)
    by (unfold capacity; pose proof (chip_pages_pos v);
        pose proof (chip_bytes_pos v); pose proof (chip_pages_small v);
        pose proof (chip_bytes_small v); nia).
  destruct (writeBytes_device fuel v lat b2 Hlat t n m b1 lg addr [byt]
              1 Ed Ha ltac:(lia) ltac:(lia) Hn)
    as (t' & m' & b1' & lg' & E & Ed' & V).
  destruct (readByte_device fuel v lat b2 t' lat m' b1' lg' addr Ed' Ha Hlat)
    as (lg2 & E2).
  do 2 eexists. split; [exact E|]. rewrite E2. do 2 f_equal.
  rewrite V by apply offset_in_page. rewrite recompose.
  replace (addr <=? addr) with true by (symmetry; apply Z.leb_le; lia).
  replace (addr <? addr + 1) with true by (symmetry; apply Z.ltb_lt; lia).
  cbn [andb]. replace (addr - addr) with 0 by lia. cbn [Z.to_nat nth].
  unfold is_byte in Hv. rewrite (u8_small byt) by exact Hv.
  rewrite u8_u8. now apply not8_val.
Qed.

Lemma writeByte_readByte_complement_witness :
  exists s1 s2,
    writeByte 5 1000 90 sample_sys = Some (tt, s1)
    /\ readByte 5 1000 s1 = Some (255 - 90, s2).
Proof.
  apply (writeByte_readByte_complement 5 sample_sys 1000 90).
  - split; reflexivity.
  - split; cbv [sample_sys sample_chip dev busy_left latency]; lia.
  - unfold is_byte; lia.
  - change (capacity (variant (dev sample_sys))) with 540672; lia.
Defined.

(** ** The write sequence in full: array, buffer and command log *)

Lemma wire_page v p :
  0 <= p < chip_pages v -> wire_adr (enum_value v) p 0 = page_adr v p.
Proof.
  intros H. rewrite wire_adr_device by (pose proof (chip_bytes_pos v); lia).
  unfold page_adr. lia.
Qed.

Lemma wire_byte v o :
  0 <= o < chip_bytes v -> wire_adr (enum_value v) 0 (u16 o) = o.
Proof.
  intros H. pose proof (chip_bytes_small v).
  rewrite u16_small by lia.
  rewrite wire_adr_device by (pose proof (chip_pages_pos v); lia). lia.
Qed.

Lemma byte_of_small v o : 0 <= o < chip_bytes v -> byte_of_adr v o = o.
Proof.
  intros H. rewrite <- (wire_byte v o H) at 1. pose proof (chip_bytes_small v).
  rewrite u16_small by lia.
  apply decode_byte; [pose proof (chip_pages_pos v); lia|assumption].
Qed.

Lemma page_of_page_adr v p :
  0 <= p < chip_pages v -> page_of_adr v (page_adr v p) = p.
Proof.
  intros H. rewrite <- (wire_page v p H).
  apply decode_page; [assumption|pose proof (chip_bytes_pos v); lia].
Qed.

Section DeviceSession.
Variables (fuel : nat) (v : AT45Flash) (lat : nat) (b2 : Z -> Z).
Hypothesis Hlat : (lat < fuel)%nat.

Lemma startContWrite_device t n m b1 lg a :
  _density t = enum_value v -> 0 <= a < capacity v -> (n < fuel)%nat ->
  startContWrite fuel a (mkSys t (mkChip v lat n m b1 b2 Idle lg))
  = Some (tt,
          let p := a / chip_bytes v in
          mkSys (with_cur t p)
            (mkChip v lat 0 m (m p) b2 Idle
               ((0x53, page_adr v p) :: (0x84, 0) :: lg))).
Proof.
  intros Ed Ha Hn.
  rewrite (startContWrite_idle fuel t v lat n m b1 b2 lg Hn Hlat a).
  cbv zeta. rewrite (addressToPage_device t v a Ed Ha), Ed.
  pose proof (page_in_device v a Ha).
  rewrite wire_page, page_of_page_adr by assumption. reflexivity.
Qed.

(** [writeContByte] within the device, in full: the commit and re-fetch
    when the page changes, then the byte into the buffer. *)
Lemma writeContByte_device t n m b1 lg a byte :
  _density t = enum_value v ->
  0 <= _cur_page_in_buf t < chip_pages v ->
  0 <= a < capacity v ->
  (n < fuel)%nat ->
  writeContByte fuel a byte (mkSys t (mkChip v lat n m b1 b2 Idle lg))
  = Some (tt,
          let cur := _cur_page_in_buf t in
          let p := a / chip_bytes v in
          let o := a mod chip_bytes v in
          let m' := if cur =? p then m else upd_page m cur b1 in
          mkSys (with_cur t p)
            (mkChip v lat 0 m'
               (upd (if cur =? p then b1 else m' p) o (u8 (Z.lnot (u8 byte))))
               b2 Idle
               ((0x84, o)
                  :: (if cur =? p then lg
                      else (0x53, page_adr v p) :: (0x84, 0)
                             :: (0x83, page_adr v cur) :: lg)))).
Proof.
  intros Ed Hcur Ha Hn.
  pose proof (addressToPage_device t v a Ed Ha) as Ep.
  pose proof (addressToByteInPage_device t v a Ed Ha) as Eo.
  pose proof (page_in_device v a Ha) as Hp.
  pose proof (offset_in_page v a) as Ho.
  cbv zeta.
  destruct (Z.eq_dec (_cur_page_in_buf t) (addressToPage t a)) as [E|E].
  - rewrite (writeContByte_same fuel t v lat n m b1 b2 lg Hn a byte E).
    cbv zeta. rewrite Eo, Ed, wire_byte, byte_of_small by assumption.
    rewrite Ep in E. rewrite <- E, Z.eqb_refl, with_cur_same. reflexivity.
  - rewrite (writeContByte_other fuel t v lat n m b1 b2 lg Hn Hlat a byte E).
    cbv zeta. rewrite Eo, Ed, Ep, wire_byte, byte_of_small by assumption.
    rewrite !wire_page, !page_of_page_adr by assumption.
    rewrite Ep in E. apply Z.eqb_neq in E. rewrite E. reflexivity.
Qed.

Lemma stopContWrite_device t n m b1 lg :
  _density t = enum_value v ->
  0 <= _cur_page_in_buf t < chip_pages v ->
  (n < fuel)%nat ->
  stopContWrite fuel (mkSys t (mkChip v lat n m b1 b2 Idle lg))
  = Some (tt,
          mkSys t (mkChip v lat lat (upd_page m (_cur_page_in_buf t) b1)
                     b1 b2 Idle
                     ((0x83, page_adr v (_cur_page_in_buf t)) :: lg))).
Proof.
  intros Ed Hcur Hn.
  rewrite (stopContWrite_idle fuel t v lat n m b1 b2 lg Hn).
  cbv zeta. rewrite Ed, wire_page, page_of_page_adr by assumption.
  reflexivity.
Qed.

End DeviceSession.

(** ** Re-staging a page *)

Lemma split_linear v p o :
  0 <= o < chip_bytes v ->
  (p * chip_bytes v + o) / chip_bytes v = p
  /\ (p * chip_bytes v + o) mod chip_bytes v = o.
Proof.
  intros H. destruct (proj2 (linear_eq v p o _ H) eq_refl) as [E1 E2].
  now rewrite <- E1, <- E2.
Qed.

Lemma capacity_page v p o :
  0 <= p < chip_pages v -> 0 <= o < chip_bytes v ->
  0 <= p * chip_bytes v + o < capacity v.
Proof. unfold capacity. nia. Qed.

Lemma one_lt_chip_bytes v : 1 < chip_bytes v.
Proof. destruct v; reflexivity. Qed.

(** Every byte written to a page other than the staged one commits the
    staged page, fetches the new page from the main array (53h) and only
    then writes into the buffer: the buffer afterwards holds the page as
    the array has it, apart from the byte just written. *)
Lemma restage_fetches_page fuel s a byte :
  ready s -> responsive fuel s ->
  0 <= _cur_page_in_buf (this s) < chip_pages (variant (dev s)) ->
  0 <= a < capacity (variant (dev s)) ->
  a / chip_bytes (variant (dev s)) <> _cur_page_in_buf (this s) ->
  exists s',
    writeContByte fuel a byte s = Some (tt, s')
    /\ let dv := variant (dev s) in
       let cur := _cur_page_in_buf (this s) in
       let p := a / chip_bytes dv in
       let o := a mod chip_bytes dv in
       _cur_page_in_buf (this s') = p
       /\ log (dev s')
          = [(0x84, o); (0x53, page_adr dv p); (0x84, 0);
             (0x83, page_adr dv cur)] ++ log (dev s)
       /\ (forall q x, main (dev s') q x
                       = if q =? cur then buf1 (dev s) x
                         else main (dev s) q x)
       /\ (forall x, buf1 (dev s') x
                     = if x =? o then u8 (Z.lnot (u8 byte))
                       else main (dev s') p x).
Proof.
  intros Hr Hf Hcur Ha Hne. open_sys s.
  destruct Hr as [Ed ->]. destruct Hf as [Hn Hlat].
  rewrite (writeContByte_device fuel v lat b2 Hlat t n m b1 lg a byte Ed Hcur
             Ha Hn).
  cbv zeta.
  replace (_cur_page_in_buf t =? a / chip_bytes v) with false
    by (symmetry; apply Z.eqb_neq; congruence).
  eexists. split; [reflexivity|].
  cbn [this dev log main buf1 with_cur _cur_page_in_buf app].
  repeat split.
  intros q x. unfold upd_page.
  destruct (q =? _cur_page_in_buf t); reflexivity.
Qed.

(** The re-staging test, for every page [P] that has a successor. *)
Lemma restage_scenario fuel s P k v0 v1 v2 :
  ready s -> responsive fuel s ->
  0 <= P -> P + 1 < chip_pages (variant (dev s)) ->
  0 <= k < chip_bytes (variant (dev s)) ->
  is_byte v0 -> is_byte v2 ->
  exists s',
    restage_sequence fuel (chip_bytes (variant (dev s))) P k v0 v1 v2 s
    = Some (tt, s')
    /\ log (dev s')
       = [(0x83, page_adr (variant (dev s)) P); (0x84, 1);
          (0x53, page_adr (variant (dev s)) P); (0x84, 0);
          (0x83, page_adr (variant (dev s)) (P + 1)); (0x84, k);
          (0x53, page_adr (variant (dev s)) (P + 1)); (0x84, 0);
          (0x83, page_adr (variant (dev s)) P); (0x84, 0);
          (0x53, page_adr (variant (dev s)) P); (0x84, 0)] ++ log (dev s)
    /\ main (dev s') P 0 = 255 - v0
    /\ main (dev s') P 1 = 255 - v2
    /\ (forall o, o <> 0 -> o <> 1 -> main (dev s') P o = main (dev s) P o)
    /\ exists s'',
        readBytes fuel (P * chip_bytes (variant (dev s))) 1 s'
        = Some ([v0], s'').
Proof.
  intros Hr Hf HP HP1 Hk Hv0 Hv2. open_sys s.
  destruct Hr as [Ed ->]. destruct Hf as [Hn Hlat].
  pose proof (one_lt_chip_bytes v) as Hpb.
  assert (HPp : 0 <= P < chip_pages v) by lia.
  assert (HPn : 0 <= P + 1 < chip_pages v) by lia.
  destruct (split_linear v P 0 ltac:(lia)) as [D0 M0].
  destruct (split_linear v P 1 ltac:(lia)) as [D1 M1].
  destruct (split_linear v (P + 1) k Hk) as [D2 M2].
  pose proof (capacity_page v P 0 HPp ltac:(lia)) as C0.
  pose proof (capacity_page v P 1 HPp ltac:(lia)) as C1.
  pose proof (capacity_page v (P + 1) k HPn Hk) as C2.
  rewrite Z.add_0_r in D0, M0, C0.
  assert (Ne1 : (P =? P + 1) = false) by (apply Z.eqb_neq; lia).
  assert (Ne2 : (P + 1 =? P) = false) by (apply Z.eqb_neq; lia).
  unfold restage_sequence.
  mstep (startContWrite_device fuel v lat b2 Hlat t n m b1 lg _ Ed C0 Hn).
  rewrite D0.
  mstep (writeContByte_device fuel v lat b2 Hlat (with_cur t P) 0%nat m (m P)
           ((83, page_adr v P) :: (132, 0) :: lg) _ v0 Ed HPp C0
           ltac:(lia)).
  cbn [with_cur _cur_page_in_buf _density _expected_chip].
  rewrite D0, M0, Z.eqb_refl.
  mstep (writeContByte_device fuel v lat b2 Hlat (with_cur t P) 0%nat m
           (upd (m P) 0 (u8 (Z.lnot (u8 v0))))
           ((132, 0) :: (83, page_adr v P) :: (132, 0) :: lg) _ v1 Ed HPp C2
           ltac:(lia)).
  cbn [with_cur _cur_page_in_buf _density _expected_chip].
  rewrite D2, M2, Ne1.
  set (mA := upd_page m P (upd (m P) 0 (u8 (Z.lnot (u8 v0))))).
  mstep (writeContByte_device fuel v lat b2 Hlat (with_cur t (P + 1)) 0%nat mA
           (upd (mA (P + 1)) k (u8 (Z.lnot (u8 v1))))
           ((132, k) :: (83, page_adr v (P + 1)) :: (132, 0)
              :: (131, page_adr v P) :: (132, 0) :: (83, page_adr v P)
              :: (132, 0) :: lg) _ v2 Ed HPn C1 ltac:(lia)).
  cbn [with_cur _cur_page_in_buf _density _expected_chip].
  rewrite D1, M1, Ne2.
  set (mB := upd_page mA (P + 1) (upd (mA (P + 1)) k (u8 (Z.lnot (u8 v1))))).
  rewrite (stopContWrite_device fuel v lat b2
             (mkFlash (_expected_chip t) (_density t) P) 0%nat mB
             (upd (mB P) 1 (u8 (Z.lnot (u8 v2)))) _ Ed HPp ltac:(lia)).
  cbn [_cur_page_in_buf].
  set (mC := upd_page mB P (upd (mB P) 1 (u8 (Z.lnot (u8 v2))))).
  assert (EP : forall o, mC P o
               = if o =? 1 then u8 (Z.lnot (u8 v2))
                 else if o =? 0 then u8 (Z.lnot (u8 v0)) else m P o).
  { intros o. unfold mC, mB, mA, upd_page, upd.
    rewrite ?Z.eqb_refl, ?Ne1, ?Ne2. rewrite ?Z.eqb_refl. reflexivity. }
  unfold is_byte in Hv0, Hv2.
  eexists. split; [reflexivity|].
  cbn [dev log main app]. split; [reflexivity|].
  split.
  { rewrite EP. change (0 =? 1) with false. change (0 =? 0) with true.
    cbv iota. rewrite (u8_small v0) by lia. now apply not8_val. }
  split.
  { rewrite EP. change (1 =? 1) with true.
    cbv iota. rewrite (u8_small v2) by lia. now apply not8_val. }
  split.
  - intros o Ho0 Ho1. rewrite EP.
    apply Z.eqb_neq in Ho0, Ho1. now rewrite Ho0, Ho1.
  - destruct (readBytes_device fuel v lat b2 Hlat
                (mkFlash (_expected_chip t) (_density t) P) lat mC
                (upd (mB P) 1 (u8 (Z.lnot (u8 v2))))
                ((131, page_adr v P) :: (132, 1) :: (83, page_adr v P)
                   :: (132, 0) :: (131, page_adr v (P + 1)) :: (132, k)
                   :: (83, page_adr v (P + 1)) :: (132, 0)
                   :: (131, page_adr v P) :: (132, 0) :: (83, page_adr v P)
                   :: (132, 0) :: lg)
                (P * chip_bytes v) 1 Ed C0 ltac:(lia) ltac:(lia) Hlat)
      as (lg' & E).
    eexists. rewrite E. do 2 f_equal.
    change (Z.to_nat 1) with 1%nat. cbn [stream].
    rewrite D0, M0, EP. change (0 =? 1) with false.
    change (0 =? 0) with true. cbv iota.
    rewrite (u8_small v0) by lia. rewrite u8_u8.
    now rewrite not8_not8.
Qed.

(** C1: writing to a page other than the staged one fetches that page
    from the main array (53h) before the byte goes into the buffer, every
    time; so in one write sequence that writes byte 0 of page [P], then a
    byte of page [P + 1], then byte 1 of page [P], going back to [P]
    fetches [P] again, and at the end byte 0 of [P] still holds what was
    written to it ([readBytes] returns [v0]), byte 1 holds the new byte,
    and every other byte of [P] holds what it held before the sequence. *)
Theorem restage_refetches_page fuel s :
  ready s -> responsive fuel s ->
  (forall a byte,
     0 <= _cur_page_in_buf (this s) < chip_pages (variant (dev s)) ->
     0 <= a < capacity (variant (dev s)) ->
     a / chip_bytes (variant (dev s)) <> _cur_page_in_buf (this s) ->
     exists s',
       writeContByte fuel a byte s = Some (tt, s')
       /\ let dv := variant (dev s) in
          let cur := _cur_page_in_buf (this s) in
          let p := a / chip_bytes dv in
          let o := a mod chip_bytes dv in
          _cur_page_in_buf (this s') = p
          /\ log (dev s')
             = [(0x84, o); (0x53, page_adr dv p); (0x84, 0);
                (0x83, page_adr dv cur)] ++ log (dev s)
          /\ (forall q x, main (dev s') q x
                          = if q =? cur then buf1 (dev s) x
                            else main (dev s) q x)
          /\ (forall x, buf1 (dev s') x
                        = if x =? o then u8 (Z.lnot (u8 byte))
                          else main (dev s') p x))
  /\ (forall P k v0 v1 v2,
        0 <= P -> P + 1 < chip_pages (variant (dev s)) ->
        0 <= k < chip_bytes (variant (dev s)) ->
        is_byte v0 -> is_byte v2 ->
        exists s',
          restage_sequence fuel (chip_bytes (variant (dev s))) P k v0 v1 v2 s
          = Some (tt, s')
          /\ log (dev s')
             = [(0x83, page_adr (variant (dev s)) P); (0x84, 1);
                (0x53, page_adr (variant (dev s)) P); (0x84, 0);
                (0x83, page_adr (variant (dev s)) (P + 1)); (0x84, k);
                (0x53, page_adr (variant (dev s)) (P + 1)); (0x84, 0);
                (0x83, page_adr (variant (dev s)) P); (0x84, 0);
                (0x53, page_adr (variant (dev s)) P); (0x84, 0)]
               ++ log (dev s)
          /\ main (dev s') P 0 = 255 - v0
          /\ main (dev s') P 1 = 255 - v2
          /\ (forall o, o <> 0 -> o <> 1 ->
                        main (dev s') P o = main (dev s) P o)
          /\ exists s'',
              readBytes fuel (P * chip_bytes (variant (dev s))) 1 s'
              = Some ([v0], s'')).
Proof.
  intros Hr Hf. split.
  - intros a byte. now apply restage_fetches_page.
  - intros P k v0 v1 v2. now apply restage_scenario.
Qed.

Lemma restage_refetches_page_witness :
  exists s',
    restage_sequence 5 264 7 100 11 22 33 sample_sys = Some (tt, s')
    /\ main (dev s') 7 0 = 255 - 11
    /\ main (dev s') 7 2 = main (dev sample_sys) 7 2.
Proof.
  destruct (restage_refetches_page 5 sample_sys) as [_ H].
  - split; reflexivity.
  - split; cbv [sample_sys sample_chip dev busy_left latency]; lia.
  - destruct (H 7 100 11 22 33) as (s' & E & _ & H0 & _ & Hrest & _).
    + lia.
    + change (chip_pages (variant (dev sample_sys))) with 2048; lia.
    + change (chip_bytes (variant (dev sample_sys))) with 264; lia.
    + unfold is_byte; lia.
    + unfold is_byte; lia.
    + exists s'. split; [exact E|]. split; [exact H0|].
      apply Hrest; lia.
Defined.

(** ** Single-byte writes and the end of a sequence *)

(** C10: [writeByte addr v] is [writeBytes addr [v] 1]: the two leave the
    same object and the same device (array, buffers and command log), and
    what both do is fetch the page of [addr], write the complemented byte
    into the buffer and program the buffer back. *)
Theorem writeByte_refines_writeBytes fuel s addr v :
  ready s -> responsive fuel s ->
  0 <= addr < capacity (variant (dev s)) ->
  writeByte fuel addr v s = writeBytes fuel addr [v] 1 s
  /\ exists s',
      writeByte fuel addr v s = Some (tt, s')
      /\ let dv := variant (dev s) in
         let p := addr / chip_bytes dv in
         let o := addr mod chip_bytes dv in
         log (dev s')
         = [(0x83, page_adr dv p); (0x84, o); (0x53, page_adr dv p);
            (0x84, 0)] ++ log (dev s)
         /\ forall q x,
             main (dev s') q x
             = if (q =? p) && (x =? o) then u8 (Z.lnot (u8 v))
               else main (dev s) q x.
Proof.
  intros Hr Hf Ha. split; [apply writeByte_as_writeBytes|].
  open_sys s. rename v into byt, v0 into v.
  destruct Hr as [Ed ->]. destruct Hf as [Hn Hlat].
  pose proof (page_in_device v addr Ha) as Hp.
  unfold writeByte.
  mstep (startContWrite_device fuel v lat b2 Hlat t n m b1 lg addr Ed Ha Hn).
  mstep (writeContByte_device fuel v lat b2 Hlat
           (with_cur t (addr / chip_bytes v)) 0%nat m
           (m (addr / chip_bytes v))
           ((83, page_adr v (addr / chip_bytes v)) :: (132, 0) :: lg)
           addr byt Ed Hp Ha ltac:(lia)).
  cbn [with_cur _cur_page_in_buf _density _expected_chip].
  rewrite Z.eqb_refl.
  rewrite (stopContWrite_device fuel v lat b2
             (mkFlash (_expected_chip t) (_density t) (addr / chip_bytes v))
             0%nat m _ _ Ed Hp ltac:(lia)).
  eexists. split; [reflexivity|]. cbn [dev log main app _cur_page_in_buf].
  split; [reflexivity|].
  intros q x. unfold upd_page, upd.
  destruct (q =? addr / chip_bytes v) eqn:E; cbn [andb]; [|reflexivity].
  apply Z.eqb_eq in E. now subst q.
Qed.

Lemma writeByte_refines_writeBytes_witness :
  writeByte 5 1000 90 sample_sys = writeBytes 5 1000 [90] 1 sample_sys.
Proof.
  apply (writeByte_refines_writeBytes 5 sample_sys 1000 90).
  - split; reflexivity.
  - split; cbv [sample_sys sample_chip dev busy_left latency]; lia.
  - change (capacity (variant (dev sample_sys))) with 540672; lia.
Defined.

(** C8, as the code has it: ending a write sequence programs the buffer
    into the staged page, whatever was written, and leaves the object as it
    was: the page stays recorded in [_cur_page_in_buf]. *)
Theorem stopContWrite_programs_staged_page fuel s :
  ready s -> responsive fuel s ->
  0 <= _cur_page_in_buf (this s) < chip_pages (variant (dev s)) ->
  exists s',
    stopContWrite fuel s = Some (tt, s')
    /\ log (dev s')
       = (0x83, page_adr (variant (dev s)) (_cur_page_in_buf (this s)))
           :: log (dev s)
    /\ (forall o, main (dev s') (_cur_page_in_buf (this s)) o
                  = buf1 (dev s) o)
    /\ (forall p o, p <> _cur_page_in_buf (this s) ->
                    main (dev s') p o = main (dev s) p o)
    /\ this s' = this s.
Proof.
  intros Hr Hf Hcur. open_sys s.
  destruct Hr as [Ed ->]. destruct Hf as [Hn Hlat].
  rewrite (stopContWrite_device fuel v lat b2 t n m b1 lg Ed Hcur Hn).
  eexists. split; [reflexivity|]. cbn [dev this log main].
  split; [reflexivity|]. unfold upd_page. split.
  - intros o. now rewrite Z.eqb_refl.
  - split; [|reflexivity]. intros p o Hp.
    apply Z.eqb_neq in Hp. now rewrite Hp.
Qed.

Lemma stopContWrite_programs_staged_page_witness :
  exists s',
    stopContWrite 5 staged_sys = Some (tt, s')
    /\ log (dev s') = [(0x83, 1536)]
    /\ this s' = this staged_sys.
Proof.
  destruct (stopContWrite_programs_staged_page 5 staged_sys)
    as (s' & E & L & _ & _ & T).
  - split; reflexivity.
  - split; cbv [staged_sys sample_chip dev busy_left latency]; lia.
  - change (_cur_page_in_buf (this staged_sys)) with 3.
    change (chip_pages (variant (dev staged_sys))) with 2048. lia.
  - exists s'. repeat split; assumption.
Defined.

(** C8, as stated, fails: after [stopContWrite] the staged page is still
    recorded, not cleared to -1. *)
Lemma stopContWrite_keeps_staged_page :
  exists s',
    stopContWrite 5 staged_sys = Some (tt, s')
    /\ _cur_page_in_buf (this s') = 3
    /\ _cur_page_in_buf (this s') <> -1.
Proof.
  eexists. split; [vm_compute; reflexivity|]. cbn. split; [reflexivity|lia].
Qed.

(** ** Pages along a span of addresses *)

Lemma supported_bytes d :
  0 <= d < 7 ->
  AT45_PageBytes d = 264 \/ AT45_PageBytes d = 528 \/ AT45_PageBytes d = 1056.
Proof.
  intros H.
  assert (d = 0 \/ d = 1 \/ d = 2 \/ d = 3 \/ d = 4 \/ d = 5 \/ d = 6) by lia.
  repeat (destruct H0 as [->|H0]); try subst d; cbv; tauto.
Qed.

(** Adding less than 2^32 wraps at most once. *)
Lemma u32_add_cases a x :
  0 <= x < 4294967296 ->
  u32 (a + x) = u32 a + x \/ u32 (a + x) = u32 a + x - 4294967296.
Proof. intros H. unfold u32. Z.div_mod_to_equations. lia. Qed.

Lemma mod_differs x y :
  0 < y - x < 65536 -> y mod 65536 <> x mod 65536.
Proof. intros H. Z.div_mod_to_equations. lia. Qed.

(** Within one run of at most 65535 consecutive addresses, a page that
    has been left does not come back (no wrap of the address). *)
Lemma page_no_return_linear pb a x :
  pb = 264 \/ pb = 528 \/ pb = 1056 ->
  0 <= a -> 1 <= x < 65535 ->
  u16 ((a + 1) / pb) <> u16 (a / pb) ->
  u16 ((a + x) / pb) <> u16 (a / pb).
Proof.
  intros Hpb Ha Hx Hne. unfold u16 in *.
  assert (H1 : a / pb <= (a + 1) / pb) by (apply Z.div_le_mono; lia).
  assert (H2 : (a + 1) / pb <= (a + x) / pb) by (apply Z.div_le_mono; lia).
  assert (H3 : (a + x) / pb <= a / pb + 249).
  { destruct Hpb as [->|[->| ->]]; Z.div_mod_to_equations; lia. }
  assert (H4 : a / pb <> (a + 1) / pb) by (intros E; apply Hne; now rewrite E).
  apply mod_differs. lia.
Qed.

(** Across the wrap of a 32-bit address the page numbers are far apart. *)
Lemma page_no_return_wrap pb a x :
  pb = 264 \/ pb = 528 \/ pb = 1056 ->
  0 <= a < 4294967296 -> 1 <= x < 65535 ->
  4294967296 <= a + x ->
  u16 ((a + x - 4294967296) / pb) <> u16 (a / pb).
Proof.
  intros Hpb Ha Hx Hw. unfold u16.
  assert (H1 : 0 <= (a + x - 4294967296) / pb <= 248).
  { destruct Hpb as [->|[->| ->]]; Z.div_mod_to_equations; lia. }
  rewrite (Z.mod_small ((a + x - 4294967296) / pb)) by lia.
  assert (H2 : 3000 <= (a / pb) mod 65536).
  { destruct Hpb as [->|[->| ->]].
    - assert (16268567 <= a / 264 <= 16268815)
        by (Z.div_mod_to_equations; lia).
      Z.div_mod_to_equations; lia.
    - assert (8134283 <= a / 528 <= 8134407)
        by (Z.div_mod_to_equations; lia).
      Z.div_mod_to_equations; lia.
    - assert (4067141 <= a / 1056 <= 4067203)
        by (Z.div_mod_to_equations; lia).
      Z.div_mod_to_equations; lia. }
  lia.
Qed.

Lemma page_no_return t addr i j :
  0 <= _density t < 7 ->
  0 <= i < j -> j < 65535 ->
  addressToPage t (u32 (addr + (i + 1))) <> addressToPage t (u32 (addr + i)) ->
  addressToPage t (u32 (addr + j)) <> addressToPage t (u32 (addr + i)).
Proof.
  intros Hd Hi Hj. unfold addressToPage. rewrite !u32_u32.
  pose proof (supported_bytes _ Hd) as Hpb.
  set (pb := AT45_PageBytes (_density t)) in *.
  pose proof (u32_range (addr + i)) as Ra.
  replace (addr + (i + 1)) with (addr + i + 1) by lia.
  replace (addr + j) with (addr + i + (j - i)) by lia.
  set (a := u32 (addr + i)) in *.
  destruct (u32_add_cases (addr + i) (j - i) ltac:(lia)) as [Ej|Ej];
    fold a in Ej; rewrite Ej.
  - pose proof (u32_range (addr + i + (j - i))) as Rj. rewrite Ej in Rj.
    destruct (u32_add_cases (addr + i) 1 ltac:(lia)) as [E1|E1];
      fold a in E1; rewrite E1.
    + intros Hne. apply page_no_return_linear; try assumption; lia.
    + pose proof (u32_range (addr + i + 1)) as R1. rewrite E1 in R1. lia.
  - intros _.
    pose proof (u32_range (addr + i + (j - i))) as Rj. rewrite Ej in Rj.
    apply page_no_return_wrap; try assumption; lia.
Qed.

Lemma session_log_with_cur t p addr : forall k i cur lg,
  session_log (with_cur t p) addr i k cur lg = session_log t addr i k cur lg.
Proof.
  induction k as [|k IH]; intros i cur lg; [reflexivity|].
  cbn [session_log]. apply IH.
Qed.

Lemma count_cons op x a l :
  count op ((x, a) :: l) = ((if (x =? op)%Z then 1 else 0) + count op l)%nat.
Proof. unfold count. cbn [filter fst]. destruct (x =? op); reflexivity. Qed.

Lemma session_log_count t addr op :
  op = 0x53 \/ op = 0x83 ->
  forall k i cur lg,
    count op (snd (session_log t addr i k cur lg))
    = (count op lg + changes cur (span_pages t addr i k))%nat.
Proof.
  intros Hop. induction k as [|k IH]; intros i cur lg.
  - cbn [session_log span_pages changes snd]. lia.
  - cbn [session_log span_pages changes]. rewrite IH.
    destruct (cur =? addressToPage t (u32 (addr + i)));
      rewrite ?count_cons; destruct Hop as [-> | ->]; cbn; lia.
Qed.

Lemma runs_changes l :
  runs l -> forall x l', l = x :: l' ->
  S (changes x l') = length (nodup Z.eq_dec l).
Proof.
  induction 1 as [|y|y l H IH|y z l Hne Hin H IH]; intros x l' E.
  - discriminate.
  - injection E as <- <-. reflexivity.
  - injection E as <- <-. cbn [changes]. rewrite Z.eqb_refl.
    cbn [Nat.add]. rewrite (IH y l eq_refl). cbn [nodup].
    destruct (in_dec Z.eq_dec y (y :: l)) as [_|N]; [reflexivity|].
    exfalso. apply N. now left.
  - injection E as <- <-. cbn [changes].
    apply Z.eqb_neq in Hne. rewrite Hne.
    cbn [Nat.add]. rewrite (IH z l eq_refl).
    change (nodup Z.eq_dec (y :: z :: l))
      with (if in_dec Z.eq_dec y (z :: l) then nodup Z.eq_dec (z :: l)
            else y :: nodup Z.eq_dec (z :: l)).
    destruct (in_dec Z.eq_dec y (z :: l)) as [I|_]; [contradiction|].
    reflexivity.
Qed.

Lemma In_span_pages t addr : forall k i z,
  In z (span_pages t addr i k) ->
  exists j, i <= j < i + Z.of_nat k /\ z = addressToPage t (u32 (addr + j)).
Proof.
  induction k as [|k IH]; intros i z H; [contradiction|].
  cbn [span_pages] in H. destruct H as [<-|H].
  - exists i. split; [lia|reflexivity].
  - destruct (IH _ _ H) as (j & Hj & E). exists j. split; [lia|exact E].
Qed.

Lemma span_pages_runs t addr :
  0 <= _density t < 7 ->
  forall k i, 0 <= i -> i + Z.of_nat k <= 65535 ->
  runs (span_pages t addr i k).
Proof.
  intros Hd. induction k as [|k IH]; intros i Hi Hk; [constructor|].
  cbn [span_pages]. specialize (IH (i + 1) ltac:(lia) ltac:(lia)).
  destruct k as [|k]; [constructor|].
  cbn [span_pages] in *.
  destruct (Z.eq_dec (addressToPage t (u32 (addr + i)))
                     (addressToPage t (u32 (addr + (i + 1))))) as [E|E].
  - rewrite E. now constructor.
  - constructor; [exact E| |exact IH].
    intros H.
    destruct (In_span_pages t addr (S k) (i + 1) _ H) as (j & Hj & Ej).
    destruct (Z.eq_dec j (i + 1)) as [->|Nj]; [now apply E|].
    apply (page_no_return t addr i j Hd); lia.
Qed.

Section Counting.
Variables (fuel : nat) (v : AT45Flash) (lat : nat) (b2 : Z -> Z).
Hypothesis Hlat : (lat < fuel)%nat.

(** The write loop on any object and any device: it ends, and sends the
    command headers of [session_log]. *)
Lemma writeBytes_loop_log buf addr : forall k i t n m b1 lg,
  (n < fuel)%nat ->
  exists n' m' b1',
    writeBytes_loop fuel k addr buf i
      (mkSys t (mkChip v lat n m b1 b2 Idle lg))
    = Some (tt,
            mkSys (with_cur t (fst (session_log t addr i k
                                      (_cur_page_in_buf t) lg)))
              (mkChip v lat n' m' b1' b2 Idle
                 (snd (session_log t addr i k (_cur_page_in_buf t) lg))))
    /\ (n' < fuel)%nat.
Proof.
  induction k as [|k IH]; intros i t n m b1 lg Hn.
  - exists n, m, b1. cbn [session_log fst snd writeBytes_loop].
    rewrite with_cur_same. split; [reflexivity|assumption].
  - cbn [writeBytes_loop session_log].
    mstep (writeContByte_idle fuel t v lat n m b1 b2 lg Hn Hlat
             (u32 (addr + i)) (nth (Z.to_nat i) buf 0)).
    cbv zeta.
    match goal with
    | |- context [mkSys ?t1 (mkChip v lat 0 ?m1 ?b11 b2 Idle ?lg1)] =>
        destruct (IH (i + 1) t1 0%nat m1 b11 lg1 ltac:(lia))
          as (n' & m' & b1' & E & Hn')
    end.
    rewrite session_log_with_cur in E.
    cbn [with_cur _cur_page_in_buf _density _expected_chip] in E.
    exists n', m', b1'. split; [exact E|exact Hn'].
Qed.

End Counting.

(** ** Fetches and programs per page *)

Lemma span_pages_with_cur t p addr : forall k i,
  span_pages (with_cur t p) addr i k = span_pages t addr i k.
Proof.
  induction k as [|k IH]; intros i; [reflexivity|].
  cbn [span_pages]. now rewrite IH.
Qed.

Lemma density_264 d :
  0 <= d < 7 -> AT45_PageBytes d = 264 -> d = 0 \/ d = 1 \/ d = 2 \/ d = 3.
Proof.
  intros H E.
  assert (C : d = 0 \/ d = 1 \/ d = 2 \/ d = 3 \/ d = 4 \/ d = 5 \/ d = 6)
    by lia.
  destruct C as [->|[->|[->|[->|[->|[->| ->]]]]]]; try lia;
    cbv in E; discriminate.
Qed.

(** C6: a [writeBytes] of [len >= 1] bytes sends as many page fetches
    (53h) and as many page programs (83h) as the span has distinct pages,
    whatever [len] and the start address; and 300 bytes at address 0 with
    264-byte pages are sent as [scenario_300]. *)
Theorem writeBytes_amortised fuel s addr buf len :
  phase (dev s) = Idle -> responsive fuel s ->
  0 <= _density (this s) < 7 ->
  1 <= len < 65536 ->
  exists s',
    writeBytes fuel addr buf len s = Some (tt, s')
    /\ fetches s' = (fetches s + pages_spanned (this s) addr len)%nat
    /\ programs s' = (programs s + pages_spanned (this s) addr len)%nat
    /\ (AT45_PageBytes (_density (this s)) = 264 -> addr = 0 -> len = 300 ->
        log (dev s') = rev scenario_300 ++ log (dev s)).
Proof.
  intros Hph Hf Hd Hlen. open_sys s. subst ph. destruct Hf as [Hn Hlat].
  unfold writeBytes.
  mstep (startContWrite_idle fuel t v lat n m b1 b2 lg Hn Hlat addr).
  cbv zeta.
  set (p0 := addressToPage t addr).
  set (lg0 := (83, wire_adr (_density t) p0 0) :: (132, 0) :: lg).
  destruct (writeBytes_loop_log fuel v lat b2 Hlat buf (u32 addr)
              (Z.to_nat (u16 len)) 0 (with_cur t p0) 0%nat m
              (m (page_of_adr v (wire_adr (_density t) p0 0))) lg0
              ltac:(lia)) as (n' & m' & b1' & E & Hn').
  mstep E.
  rewrite session_log_with_cur. cbn [with_cur _cur_page_in_buf].
  set (k := Z.to_nat (u16 len)) in *.
  set (sl := session_log t (u32 addr) 0 k p0 lg0).
  rewrite (stopContWrite_idle fuel _ v lat n' m' b1' b2 (snd sl) Hn').
  cbv zeta. cbn [_cur_page_in_buf _density].
  eexists. split; [reflexivity|].
  unfold fetches, programs. cbn [dev log].
  assert (Hk : (1 <= k)%nat /\ Z.of_nat k <= 65535).
  { unfold k. rewrite u16_small by lia. lia. }
  assert (Hspan : S (changes p0 (span_pages t (u32 addr) 0 k))
                  = pages_spanned t addr len).
  { unfold pages_spanned. fold k.
    pose proof (span_pages_runs t (u32 addr) Hd k 0 ltac:(lia) ltac:(lia))
      as R.
    destruct k as [|k']; [lia|]. cbn [span_pages] in *.
    replace (addressToPage t (u32 (u32 addr + 0))) with p0 in *.
    2:{ unfold p0, addressToPage. rewrite Z.add_0_r. now rewrite !u32_u32. }
    rewrite <- (runs_changes _ R p0 _ eq_refl).
    cbn [changes]. now rewrite Z.eqb_refl. }
  split; [|split].
  - rewrite count_cons. unfold sl.
    rewrite (session_log_count t (u32 addr) 83 (or_introl eq_refl)).
    unfold lg0. rewrite !count_cons. cbn [Z.eqb Pos.eqb]. lia.
  - rewrite count_cons. unfold sl.
    rewrite (session_log_count t (u32 addr) 131 (or_intror eq_refl)).
    unfold lg0. rewrite !count_cons. cbn [Z.eqb Pos.eqb]. lia.
  - intros Hpb -> ->. clear E Hspan Hk. subst sl lg0 p0 k.
    destruct t as [e d c]. cbn [_density] in *.
    destruct (density_264 d Hd Hpb) as [->|[->|[->| ->]]];
      vm_compute; reflexivity.
Qed.

Lemma writeBytes_amortised_witness :
  exists s',
    writeBytes 5 0 (repeat 171 300) 300 sample_sys = Some (tt, s')
    /\ fetches s' = 2%nat /\ programs s' = 2%nat
    /\ log (dev s') = rev scenario_300.
Proof.
  destruct (writeBytes_amortised 5 sample_sys 0 (repeat 171 300) 300)
    as (s' & E & F & P & L).
  - reflexivity.
  - split; cbv [sample_sys sample_chip dev busy_left latency]; lia.
  - cbv [sample_sys this _density]. lia.
  - lia.
  - exists s'. split; [exact E|]. split; [|split].
    + rewrite F. vm_compute. reflexivity.
    + rewrite P. vm_compute. reflexivity.
    + rewrite (L eq_refl eq_refl eq_refl). apply app_nil_r.
Defined.

(** ** Identification *)

Lemma status_nonzero v n :
  (u8 ((if Nat.eqb n 0 then 128 else 0) + (2 * enum_value v + 3) * 4) =? 0)
  = false.
Proof. destruct v, n; reflexivity. Qed.

Lemma density_of_status v :
  u8 (Z.shiftr (u8 (Z.shiftr (Z.land (u8 (ready_status v)) 60) 2) - 3) 1)
  = enum_value v.
Proof. destruct v; reflexivity. Qed.

Lemma ready_status_ready v :
  (Z.land (u8 (ready_status v)) 0x80 =? 0x80) = true.
Proof. destruct v; reflexivity. Qed.

Lemma status_until_ready_idle fuel : forall t v lat n m b1 b2 lg sr,
  (Z.land sr 0x80 =? 0x80) = false ->
  (n < fuel)%nat ->
  status_until_ready fuel sr (mkSys t (mkChip v lat n m b1 b2 Idle lg))
  = Some (u8 (ready_status v), mkSys t (mkChip v lat 0 m b1 b2 Idle lg)).
Proof.
  induction fuel as [|f IH]; intros t v lat n m b1 b2 lg sr Hsr Hn; [lia|].
  cbn [status_until_ready]. rewrite Hsr. cbn [negb].
  mstep (readStatus_idle t v lat n m b1 b2 lg).
  destruct n as [|n].
  - cbn [Nat.eqb Nat.pred]. fold (ready_status v).
    destruct f; cbn [status_until_ready];
      rewrite ready_status_ready; reflexivity.
  - cbn [Nat.pred]. apply IH; [apply (status_ready v (S n))|lia].
Qed.

(** Identification on an idle bus: it ends, succeeds exactly when the
    device is the expected one, and only then sets [_density]. *)
Lemma initialize_loop_idle fuel : forall k t v lat n m b1 b2 lg,
  (n < fuel)%nat -> (1 <= k)%nat ->
  initialize_loop fuel k (mkSys t (mkChip v lat n m b1 b2 Idle lg))
  = Some (enum_value (_expected_chip t) =? enum_value v,
          mkSys (if enum_value (_expected_chip t) =? enum_value v
                 then mkFlash (_expected_chip t) (enum_value v)
                              (_cur_page_in_buf t)
                 else t)
                (mkChip v lat 0 m b1 b2 Idle lg)).
Proof.
  induction k as [|k IH]; intros t v lat n m b1 b2 lg Hn Hk; [lia|].
  cbn [initialize_loop].
  mstep (readStatus_idle t v lat n m b1 b2 lg).
  rewrite status_nonzero. cbn [negb].
  mstep (status_until_ready_idle fuel t v lat (Nat.pred n) m b1 b2 lg 0
           eq_refl ltac:(lia)).
  mtriv. rewrite density_of_status.
  replace (u8 (enum_value (_expected_chip t)))
    with (enum_value (_expected_chip t))
    by (destruct (_expected_chip t); reflexivity).
  destruct (enum_value (_expected_chip t) =? enum_value v) eqn:E.
  - unfold bind, set_density, ret. cbn [this dev _expected_chip
      _cur_page_in_buf].
    replace (u8 (enum_value v)) with (enum_value v)
      by (destruct v; reflexivity).
    reflexivity.
  - destruct k as [|k]; [reflexivity|].
    rewrite (IH t v lat 0%nat m b1 b2 lg ltac:(lia) ltac:(lia)).
    now rewrite E.
Qed.

Lemma initialize_idle fuel t v lat n m b1 b2 lg :
  (n < fuel)%nat ->
  initialize fuel (mkSys t (mkChip v lat n m b1 b2 Idle lg))
  = Some (enum_value (_expected_chip t) =? enum_value v,
          mkSys (if enum_value (_expected_chip t) =? enum_value v
                 then mkFlash (_expected_chip t) (enum_value v)
                              (_cur_page_in_buf t)
                 else t)
                (mkChip v lat 0 m b1 b2 Idle lg)).
Proof.
  intros Hn. unfold initialize. mtriv.
  change (spi_unselect (mkChip v lat n m b1 b2 Idle lg))
    with (mkChip v lat n m b1 b2 Idle lg).
  apply initialize_loop_idle; [assumption|lia].
Qed.

(** A successful identification leaves the object [ready]. *)
Lemma initialize_ready fuel s0 s :
  phase (dev s0) = Idle -> responsive fuel s0 ->
  initialize fuel s0 = Some (true, s) ->
  ready s /\ responsive fuel s.
Proof.
  intros Hph Hf E. open_sys s0. subst ph. destruct Hf as [Hn Hlat].
  rewrite (initialize_idle fuel t v lat n m b1 b2 lg Hn) in E.
  injection E as Eok <-. rewrite Eok.
  unfold ready, responsive. cbn [this dev _density variant phase busy_left
    latency]. repeat split; [lia|assumption].
Qed.

(** ** Every operation runs on any idle bus *)

Section Total.
Variables (fuel : nat) (v : AT45Flash) (lat : nat) (b2 : Z -> Z).
Hypothesis Hlat : (lat < fuel)%nat.

Lemma read_dummies t n m b1 lg page byte :
  transfer_n 4 0 (mkSys t (mkChip v lat n m b1 b2 (ArrayRead 0 page byte) lg))
  = Some (tt, mkSys t (mkChip v lat n m b1 b2 (ArrayRead 4 page byte) lg)).
Proof.
  change (transfer_n 4 0)
    with (SPI_transfer 0 ;; SPI_transfer 0 ;; SPI_transfer 0 ;;
          SPI_transfer 0 ;; ret tt).
  mstep (transfer_read_dummy t v lat n m b1 b2 lg 0%nat page byte 0
           ltac:(lia)).
  mstep (transfer_read_dummy t v lat n m b1 b2 lg 1%nat page byte 0
           ltac:(lia)).
  mstep (transfer_read_dummy t v lat n m b1 b2 lg 2%nat page byte 0
           ltac:(lia)).
  mstep (transfer_read_dummy t v lat n m b1 b2 lg 3%nat page byte 0
           ltac:(lia)).
  reflexivity.
Qed.

Lemma readByte_idle t n m b1 lg addr :
  (n < fuel)%nat ->
  exists r adr,
    readByte fuel addr (mkSys t (mkChip v lat n m b1 b2 Idle lg))
    = Some (r, mkSys t (mkChip v lat 0 m b1 b2 Idle ((0xE8, adr) :: lg))).
Proof.
  intros Hn. unfold readByte.
  mstep (command_idle fuel 0xE8 t v lat n m b1 b2 lg Hn eq_refl).
  mtriv.
  mstep (send3bytesAddr_spec (addressToPage t addr)
           (addressToByteInPage t addr) t v lat 0%nat m b1 b2 lg (u8 0xE8)).
  change (u8 232) with 232.
  set (adr := wire_adr (_density t) (addressToPage t addr)
                (addressToByteInPage t addr)).
  change (dispatch v 0 232 adr)
    with (ArrayRead 0 (page_of_adr v adr) (byte_of_adr v adr)).
  mstep (read_dummies t 0%nat m b1 ((232, adr) :: lg) (page_of_adr v adr)
           (byte_of_adr v adr)).
  mstep (transfer_read_data t v lat 0%nat m b1 b2 ((232, adr) :: lg)
           (page_of_adr v adr) (byte_of_adr v adr) 0).
  do 2 eexists.
  destruct (byte_of_adr v adr + 1 <? chip_bytes v); reflexivity.
Qed.

Lemma read_loop_total t n m b1 lg : forall k page byte,
  exists l page' byte',
    read_loop k (mkSys t (mkChip v lat n m b1 b2 (ArrayRead 4 page byte) lg))
    = Some (l, mkSys t (mkChip v lat n m b1 b2 (ArrayRead 4 page' byte') lg)).
Proof.
  induction k as [|k IH]; intros page byte.
  - do 3 eexists. reflexivity.
  - cbn [read_loop].
    mstep (transfer_read_data t v lat n m b1 b2 lg page byte 0).
    destruct (byte + 1 <? chip_bytes v).
    + destruct (IH page (byte + 1)) as (l & p' & o' & E).
      mstep E. do 3 eexists. reflexivity.
    + destruct (IH ((page + 1) mod chip_pages v) 0) as (l & p' & o' & E).
      mstep E. do 3 eexists. reflexivity.
Qed.

Lemma readBytes_idle t n m b1 lg addr len :
  (n < fuel)%nat ->
  exists l adr,
    readBytes fuel addr len (mkSys t (mkChip v lat n m b1 b2 Idle lg))
    = Some (l, mkSys t (mkChip v lat 0 m b1 b2 Idle ((0xE8, adr) :: lg))).
Proof.
  intros Hn. unfold readBytes.
  mstep (command_idle fuel 0xE8 t v lat n m b1 b2 lg Hn eq_refl).
  mtriv.
  mstep (send3bytesAddr_spec (addressToPage t addr)
           (addressToByteInPage t addr) t v lat 0%nat m b1 b2 lg (u8 0xE8)).
  change (u8 232) with 232.
  set (adr := wire_adr (_density t) (addressToPage t addr)
                (addressToByteInPage t addr)).
  change (dispatch v 0 232 adr)
    with (ArrayRead 0 (page_of_adr v adr) (byte_of_adr v adr)).
  mstep (read_dummies t 0%nat m b1 ((232, adr) :: lg) (page_of_adr v adr)
           (byte_of_adr v adr)).
  destruct (read_loop_total t 0%nat m b1 ((232, adr) :: lg)
              (Z.to_nat (u16 len)) (page_of_adr v adr) (byte_of_adr v adr))
    as (l & p' & o' & E).
  mstep E. do 2 eexists. reflexivity.
Qed.

Lemma session_log_extends t addr : forall k i cur lg,
  exists more, snd (session_log t addr i k cur lg) = more ++ lg.
Proof.
  induction k as [|k IH]; intros i cur lg.
  - now exists [].
  - cbn [session_log].
    destruct (IH (i + 1) (addressToPage t (u32 (addr + i)))
                ((132, wire_adr (_density t) 0
                         (u16 (addressToByteInPage t (u32 (addr + i)))))
                   :: (if cur =? addressToPage t (u32 (addr + i)) then lg
                       else (83, wire_adr (_density t)
                                   (addressToPage t (u32 (addr + i))) 0)
                              :: (132, 0)
                              :: (131, wire_adr (_density t) cur 0) :: lg)))
      as (more & E).
    rewrite E.
    destruct (cur =? addressToPage t (u32 (addr + i))).
    + exists (more ++ [(132, wire_adr (_density t) 0
                           (u16 (addressToByteInPage t (u32 (addr + i)))))]).
      now rewrite <- app_assoc.
    + eexists (more ++ [_; _; _; _]). now rewrite <- app_assoc.
Qed.

Lemma writeBytes_idle t n m b1 lg addr buf len :
  (n < fuel)%nat ->
  exists t' m' b1' adr more,
    writeBytes fuel addr buf len (mkSys t (mkChip v lat n m b1 b2 Idle lg))
    = Some (tt, mkSys t' (mkChip v lat lat m' b1' b2 Idle
                            ((0x83, adr) :: more ++ lg)))
    /\ _density t' = _density t.
Proof.
  intros Hn. unfold writeBytes.
  mstep (startContWrite_idle fuel t v lat n m b1 b2 lg Hn Hlat addr).
  cbv zeta.
  set (p0 := addressToPage t addr).
  set (lg0 := (83, wire_adr (_density t) p0 0) :: (132, 0) :: lg).
  destruct (writeBytes_loop_log fuel v lat b2 Hlat buf (u32 addr)
              (Z.to_nat (u16 len)) 0 (with_cur t p0) 0%nat m
              (m (page_of_adr v (wire_adr (_density t) p0 0))) lg0
              ltac:(lia)) as (n' & m' & b1' & E & Hn').
  mstep E.
  rewrite session_log_with_cur. cbn [with_cur _cur_page_in_buf].
  set (k := Z.to_nat (u16 len)) in *.
  destruct (session_log_extends t (u32 addr) k 0 p0 lg0) as (more & Em).
  rewrite (stopContWrite_idle fuel _ v lat n' m' b1' b2 _ Hn').
  cbv zeta. rewrite Em. unfold lg0.
  do 4 eexists. exists (more ++ [(83, wire_adr (_density t) p0 0); (132, 0)]).
  rewrite <- app_assoc. split; reflexivity.
Qed.

(** The erase loops.  [lim] bounds the counters well inside [int]. *)
Lemma blockErase_loop_idle t page num b1 : forall k i n m lg,
  0 <= i -> num <= 4096 -> num - i <= 8 * Z.of_nat k ->
  (n < fuel)%nat ->
  exists n' m' more,
    blockErase_loop fuel k page num i
      (mkSys t (mkChip v lat n m b1 b2 Idle lg))
    = Some (tt, mkSys t (mkChip v lat n' m' b1 b2 Idle (more ++ lg)))
    /\ (n' < fuel)%nat
    /\ (i < num -> In 0x50 (map fst more)).
Proof.
  induction k as [|k IH]; intros i n m lg Hi Hnum Hk Hn.
  - exists n, m, []. cbn [blockErase_loop].
    replace (i <? num) with false by (symmetry; apply Z.ltb_ge; lia).
    repeat split; [assumption|lia].
  - cbn [blockErase_loop]. destruct (i <? num) eqn:C.
    + apply Z.ltb_lt in C.
      mstep (eraseBlock_idle fuel (int (page + i)) t v lat n m b1 b2 lg
               Hn Hlat).
      cbv zeta. rewrite (int_small (i + 8)) by lia.
      match goal with
      | |- context [mkChip v lat 0 ?m1 b1 b2 Idle (?e :: lg)] =>
          destruct (IH (i + 8) 0%nat m1 (e :: lg) ltac:(lia) Hnum
                      ltac:(lia) ltac:(lia))
            as (n' & m' & more & E & Hn' & _);
          exists n', m', (more ++ [e])
      end.
      rewrite E, <- app_assoc. repeat split; [assumption|].
      intros _. rewrite map_app. apply in_or_app. right. now left.
    + exists n, m, []. repeat split; [assumption|].
      apply Z.ltb_ge in C. lia.
Qed.

Lemma num_pages_range d size :
  0 <= d < 7 -> size = 4096 \/ size = 32768 \/ size = 655356 ->
  1 <= int (size / AT45_PageBytes d + 1) <= 4096.
Proof.
  intros Hd Hs. destruct (supported_bytes d Hd) as [->|[->| ->]];
    destruct Hs as [->|[->| ->]]; cbv; split; discriminate.
Qed.

Lemma blockErase_idle t n m b1 lg size addr :
  0 <= _density t < 7 ->
  size = 4096 \/ size = 32768 \/ size = 655356 ->
  (n < fuel)%nat ->
  exists n' m' more,
    blockErase fuel size addr (mkSys t (mkChip v lat n m b1 b2 Idle lg))
    = Some (tt, mkSys t (mkChip v lat n' m' b1 b2 Idle (more ++ lg)))
    /\ (n' < fuel)%nat
    /\ In 0x50 (map fst more).
Proof.
  intros Hd Hs Hn. unfold blockErase. mtriv.
  pose proof (num_pages_range _ size Hd Hs) as R.
  set (num := int (size / AT45_PageBytes (_density t) + 1)) in *.
  destruct (blockErase_loop_idle t (int (addressToPage t addr)) num b1
              (Z.to_nat num) 0 n m lg ltac:(lia) ltac:(lia) ltac:(lia) Hn)
    as (n' & m' & more & E & Hn' & I).
  exists n', m', more. repeat split; [exact E|assumption|apply I; lia].
Qed.

Lemma eraseChip_loop_idle t b1 : forall k bl n m lg,
  0 <= bl ->
  Z.shiftr (AT45_PagesTotal (_density t)) 3 <= 1024 ->
  Z.shiftr (AT45_PagesTotal (_density t)) 3 - bl <= Z.of_nat k ->
  (n < fuel)%nat ->
  exists n' m' more,
    eraseChip_loop fuel k bl (mkSys t (mkChip v lat n m b1 b2 Idle lg))
    = Some (tt, mkSys t (mkChip v lat n' m' b1 b2 Idle (more ++ lg)))
    /\ (n' < fuel)%nat
    /\ (bl < Z.shiftr (AT45_PagesTotal (_density t)) 3 ->
        In 0x50 (map fst more)).
Proof.
  induction k as [|k IH]; intros bl n m lg Hbl Hlim Hk Hn.
  - exists n, m, []. cbn [eraseChip_loop]. mtriv.
    replace (bl <? Z.shiftr (AT45_PagesTotal (_density t)) 3) with false
      by (symmetry; apply Z.ltb_ge; lia).
    repeat split; [assumption|lia].
  - cbn [eraseChip_loop]. mtriv.
    destruct (bl <? Z.shiftr (AT45_PagesTotal (_density t)) 3) eqn:C.
    + apply Z.ltb_lt in C.
      mstep (eraseBlock_idle fuel bl t v lat n m b1 b2 lg Hn Hlat).
      cbv zeta. rewrite (int_small (bl + 1)) by lia.
      match goal with
      | |- context [mkChip v lat 0 ?m1 b1 b2 Idle (?e :: lg)] =>
          destruct (IH (bl + 1) 0%nat m1 (e :: lg) ltac:(lia) Hlim
                      ltac:(lia) ltac:(lia))
            as (n' & m' & more & E & Hn' & _);
          exists n', m', (more ++ [e])
      end.
      rewrite E, <- app_assoc. repeat split; [assumption|].
      intros _. rewrite map_app. apply in_or_app. right. now left.
    + exists n, m, []. repeat split; [assumption|].
      apply Z.ltb_ge in C. lia.
Qed.

Lemma supported_pages d :
  0 <= d < 7 ->
  8 <= AT45_PagesTotal d <= 8192
  /\ 1 <= Z.shiftr (AT45_PagesTotal d) 3 <= 1024.
Proof.
  intros H.
  assert (C : d = 0 \/ d = 1 \/ d = 2 \/ d = 3 \/ d = 4 \/ d = 5 \/ d = 6)
    by lia.
  destruct C as [->|[->|[->|[->|[->|[->| ->]]]]]]; cbv;
    repeat split; discriminate.
Qed.

Lemma chipErase_idle t n m b1 lg :
  0 <= _density t < 7 ->
  (n < fuel)%nat ->
  exists n' m' more,
    chipErase fuel (mkSys t (mkChip v lat n m b1 b2 Idle lg))
    = Some (tt, mkSys t (mkChip v lat n' m' b1 b2 Idle (more ++ lg)))
    /\ (n' < fuel)%nat
    /\ In 0x50 (map fst more).
Proof.
  intros Hd Hn. unfold chipErase, eraseChip. mtriv.
  destruct (supported_pages _ Hd) as [Hp Hs].
  assert (Hle : Z.shiftr (AT45_PagesTotal (_density t)) 3
                <= AT45_PagesTotal (_density t)).
  { rewrite Z.shiftr_div_pow2 by lia. change (2 ^ 3) with 8.
    Z.div_mod_to_equations. lia. }
  destruct (eraseChip_loop_idle t b1
              (Z.to_nat (AT45_PagesTotal (_density t))) 0 n m lg
              ltac:(lia) ltac:(lia) ltac:(lia) Hn)
    as (n' & m' & more & E & Hn' & I).
  exists n', m', more. repeat split; [exact E|assumption|apply I; lia].
Qed.

Lemma readUniqueId_loop_idle t m b1 : forall k i n lg,
  (n < fuel)%nat ->
  exists l n' more,
    readUniqueId_loop fuel k i (mkSys t (mkChip v lat n m b1 b2 Idle lg))
    = Some (l, mkSys t (mkChip v lat n' m b1 b2 Idle (more ++ lg)))
    /\ (n' < fuel)%nat
    /\ ((1 <= k)%nat -> In 0xE8 (map fst more)).
Proof.
  induction k as [|k IH]; intros i n lg Hn.
  - exists [], n, []. repeat split; [assumption|lia].
  - cbn [readUniqueId_loop]. mtriv.
    destruct (readByte_idle t n m b1 lg
                (int (int ((AT45_PagesTotal (_density t) - 1)
                           * AT45_PageBytes (_density t)) + i)) Hn)
      as (r & adr & E).
    mstep E.
    destruct (IH (i + 1) 0%nat ((232, adr) :: lg) ltac:(lia))
      as (l & n' & more & E2 & Hn' & _).
    mstep E2. exists (r :: l), n', (more ++ [(232, adr)]).
    rewrite <- app_assoc. repeat split; [assumption|].
    intros _. rewrite map_app. apply in_or_app. right. now left.
Qed.

End Total.

(** ** Operations after identification, successful or not *)




(** ** The address translator *)

(** C9, as the code has it: recomposing an address from its page and
    offset gives an address of the same page and offset, and gives the
    address back when its page number fits the [uint16_t] that
    [addressToPage] returns, as it does anywhere within a device. *)
Theorem address_recomposition t addr :
  0 <= _density t < 7 -> 0 <= addr < 4294967296 ->
  let pb := AT45_PageBytes (_density t) in
  let r := addressToByteInPage t addr + addressToPage t addr * pb in
  addressToPage t r = addressToPage t addr
  /\ addressToByteInPage t r = addressToByteInPage t addr
  /\ (addr / pb < 65536 -> r = addr).
Proof.
  intros Hd Ha. cbv zeta. unfold addressToPage, addressToByteInPage.
  pose proof (supported_bytes _ Hd) as Hpb.
  set (pb := AT45_PageBytes (_density t)) in *.
  assert (Hpos : 0 < pb <= 1056) by lia.
  rewrite (u32_small addr) by lia.
  pose proof (Z.mod_pos_bound addr pb ltac:(lia)) as Ho.
  rewrite (u16_small (addr mod pb)) by lia.
  assert (HP : 0 <= u16 (addr / pb) < 65536)
    by (unfold u16; apply Z.mod_pos_bound; lia).
  set (P := u16 (addr / pb)) in *.
  rewrite (u32_small (addr mod pb + P * pb)) by nia.
  rewrite Z.div_add, Z.div_small, Z.add_0_l by lia.
  rewrite Z.mod_add, Z.mod_mod by lia.
  rewrite (u16_small P), (u16_small (addr mod pb)) by lia.
  repeat split.
  intros Hsmall. unfold P. rewrite u16_small.
  - rewrite Z.mul_comm, Z.add_comm. symmetry. apply Z.div_mod. lia.
  - split; [apply Z.div_pos; lia|assumption].
Qed.

Lemma address_recomposition_witness :
  let t := mkFlash AT45DB041 2 (-1) in
  let r := addressToByteInPage t 1000 + addressToPage t 1000 * 264 in
  addressToPage t r = addressToPage t 1000 /\ r = 1000.
Proof.
  destruct (address_recomposition (mkFlash AT45DB041 2 (-1)) 1000)
    as (E1 & _ & E2).
  - cbn; lia.
  - lia.
  - cbv zeta. split; [exact E1|]. apply E2. cbv. reflexivity.
Defined.

(** C9, as stated, fails: the page of the recomposed address is the page
    of [addr], not [addr]. *)
Lemma page_of_recomposition_is_not_the_address :
  let t := mkFlash AT45DB041 2 (-1) in
  addressToPage t (addressToByteInPage t 264
                   + addressToPage t 264 * AT45_PageBytes (_density t))
  <> 264.
Proof. vm_compute. discriminate. Qed.

(** ** Region erases *)

Lemma geometry_264 v :
  chip_bytes v = 264 ->
  AT45_PageBytes (enum_value v) = 264 /\ chip_bits v = 9
  /\ 512 <= chip_pages v <= 4096.
Proof.
  destruct v; cbv; intros H; try discriminate H; repeat split; discriminate.
Qed.

(** [blockErase4K] with 264-byte pages, where [P] is the page of [addr]:
    the loop hands the page numbers [P] and [P + 8] to [eraseBlock], which
    takes them for block numbers. *)
Lemma blockErase4K_264 fuel v lat b2 t n m b1 lg addr :
  (lat < fuel)%nat -> (n < fuel)%nat ->
  _density t = enum_value v -> chip_bytes v = 264 ->
  0 <= addr < capacity v ->
  8 * (addr / 264 + 8) < chip_pages v ->
  blockErase4K fuel addr (mkSys t (mkChip v lat n m b1 b2 Idle lg))
  = Some (tt,
          let P := addr / 264 in
          mkSys t
            (mkChip v lat 0
               (fun q => if q / 8 =? P + 8 then erased
                         else if q / 8 =? P then erased else m q)
               b1 b2 Idle
               ((0x50, page_adr v (8 * (P + 8)))
                  :: (0x50, page_adr v (8 * P)) :: lg))).
Proof.
  intros Hlat Hn Ed Hb Ha HP.
  destruct (geometry_264 v Hb) as (Epb & Ebits & Hpages).
  pose proof (page_in_device v addr Ha) as Hp. rewrite Hb in Hp.
  unfold blockErase4K, blockErase. mtriv.
  rewrite (addressToPage_device t v addr Ed Ha), Hb, Ed, Epb.
  change (int (4096 / 264 + 1)) with 16. change (Z.to_nat 16) with 16%nat.
  set (P := addr / 264) in *.
  rewrite (int_small P) by lia.
  cbn [blockErase_loop]. change (0 <? 16) with true. cbv iota.
  mstep (eraseBlock_idle fuel (int (P + 0)) t v lat n m b1 b2 lg Hn Hlat).
  cbv zeta. rewrite Ed.
  change (int (0 + 8)) with 8. change (8 <? 16) with true. cbv iota.
  match goal with
  | |- context [mkChip v lat 0 ?m1 b1 b2 Idle ?lg1] =>
      mstep (eraseBlock_idle fuel (int (P + 8)) t v lat 0%nat m1 b1 b2 lg1
               ltac:(lia) Hlat)
  end.
  cbv zeta. rewrite Ed.
  change (int (8 + 8)) with 16. change (16 <? 16) with false. cbv iota.
  assert (Eadr : forall x, 0 <= x -> 8 * x < chip_pages v -> 
            wire_adr (enum_value v) (int (Z.shiftl (int (int x)) 3)) 0
            = page_adr v (8 * x)).
  { intros x Hx Hx8. rewrite !(int_small x) by lia.
    rewrite Z.shiftl_mul_pow2 by lia. change (2 ^ 3) with 8.
    rewrite (int_small (x * 8)) by lia.
    replace (x * 8) with (8 * x) by lia.
    apply wire_page. lia. }
  rewrite (Eadr (P + 0)), (Eadr (P + 8)) by lia.
  rewrite !page_of_page_adr by lia.
  replace (8 * (P + 0)) with (P * 8) by lia.
  replace (8 * (P + 8)) with ((P + 8) * 8) by lia.
  rewrite !Z.div_mul by lia.
  replace ((P + 8) * 8) with (8 * (P + 8)) by lia.
  replace (P * 8) with (8 * P) by lia.
  reflexivity.
Qed.

(** C4 (what the code does): at address 0 with 264-byte pages,
    [blockErase4K] sends two block erases, for the blocks that hold pages
    0 and 64: blocks 0 and 8.  Pages 8 to 15 (block 1) keep their
    contents. *)
Theorem blockErase4K_at_0_erases_blocks_0_and_8 fuel s :
  ready s -> responsive fuel s ->
  chip_bytes (variant (dev s)) = 264 ->
  exists s',
    blockErase4K fuel 0 s = Some (tt, s')
    /\ log (dev s') = [(0x50, 64 * 512); (0x50, 0)] ++ log (dev s)
    /\ (forall p o,
          main (dev s') p o
          = if (p / 8 =? 0) || (p / 8 =? 8) then 255 else main (dev s) p o)
    /\ (forall p o, 8 <= p <= 15 -> main (dev s') p o = main (dev s) p o).
Proof.
  intros Hr Hf Hb. open_sys s. destruct Hr as [Ed ->].
  destruct Hf as [Hn Hlat].
  destruct (geometry_264 v Hb) as (Epb & Ebits & Hpages).
  rewrite (blockErase4K_264 fuel v lat b2 t n m b1 lg 0 Hlat Hn Ed Hb).
  - cbv zeta. change (0 / 264) with 0. eexists. split; [reflexivity|].
    cbn [dev log main app]. unfold page_adr. rewrite Ebits.
    split; [reflexivity|].
    assert (EM : forall p o,
              (if p / 8 =? 0 + 8 then erased
               else if p / 8 =? 0 then erased else m p) o
              = if (p / 8 =? 0) || (p / 8 =? 8) then 255 else m p o).
    { intros p o. change (0 + 8) with 8.
      destruct (p / 8 =? 8), (p / 8 =? 0); reflexivity. }
    split; [exact EM|].
    intros p o Hp. rewrite EM.
    assert (p / 8 = 1) by (Z.div_mod_to_equations; lia).
    replace (p / 8) with 1. reflexivity.
  - unfold capacity. rewrite Hb. lia.
  - change (0 / 264) with 0. lia.
Qed.

Lemma blockErase4K_at_0_erases_blocks_0_and_8_witness :
  exists s',
    blockErase4K 5 0 sample_sys = Some (tt, s')
    /\ log (dev s') = [(0x50, 32768); (0x50, 0)]
    /\ main (dev s') 8 0 = main (dev sample_sys) 8 0.
Proof.
  destruct (blockErase4K_at_0_erases_blocks_0_and_8 5 sample_sys)
    as (s' & E & L & _ & K).
  - split; reflexivity.
  - split; cbv [sample_sys sample_chip dev busy_left latency]; lia.
  - reflexivity.
  - exists s'. split; [exact E|]. split; [exact L|]. apply K; lia.
Defined.

(** C5 (what the code does): at address 2112, the first byte of page 8,
    with 264-byte pages, [blockErase4K] erases the blocks that hold pages
    64 and 128, and every byte of the 4096 requested is left as it
    was. *)
Theorem blockErase4K_at_2112_misses_the_span fuel s :
  ready s -> responsive fuel s ->
  chip_bytes (variant (dev s)) = 264 ->
  exists s',
    blockErase4K fuel 2112 s = Some (tt, s')
    /\ log (dev s') = [(0x50, 128 * 512); (0x50, 64 * 512)] ++ log (dev s)
    /\ (forall p o,
          main (dev s') p o
          = if (p / 8 =? 8) || (p / 8 =? 16) then 255 else main (dev s) p o)
    /\ (forall a, 2112 <= a < 2112 + 4096 ->
          main (dev s') (a / 264) (a mod 264)
          = main (dev s) (a / 264) (a mod 264)).
Proof.
  intros Hr Hf Hb. open_sys s. destruct Hr as [Ed ->].
  destruct Hf as [Hn Hlat].
  destruct (geometry_264 v Hb) as (Epb & Ebits & Hpages).
  rewrite (blockErase4K_264 fuel v lat b2 t n m b1 lg 2112 Hlat Hn Ed Hb).
  - cbv zeta. change (2112 / 264) with 8. eexists. split; [reflexivity|].
    cbn [dev log main app]. unfold page_adr. rewrite Ebits.
    split; [reflexivity|].
    assert (EM : forall p o,
              (if p / 8 =? 8 + 8 then erased
               else if p / 8 =? 8 then erased else m p) o
              = if (p / 8 =? 8) || (p / 8 =? 16) then 255 else m p o).
    { intros p o. change (8 + 8) with 16.
      destruct (p / 8 =? 8), (p / 8 =? 16); reflexivity. }
    split; [exact EM|].
    intros a Ha. rewrite EM.
    assert (1 <= a / 264 / 8 <= 2) by (Z.div_mod_to_equations; lia).
    replace (a / 264 / 8 =? 8) with false
      by (symmetry; apply Z.eqb_neq; lia).
    replace (a / 264 / 8 =? 16) with false
      by (symmetry; apply Z.eqb_neq; lia).
    reflexivity.
  - unfold capacity. rewrite Hb. lia.
  - change (2112 / 264) with 8. lia.
Qed.

Lemma blockErase4K_at_2112_misses_the_span_witness :
  exists s',
    blockErase4K 5 2112 sample_sys = Some (tt, s')
    /\ main (dev s') 8 0 = main (dev sample_sys) 8 0.
Proof.
  destruct (blockErase4K_at_2112_misses_the_span 5 sample_sys)
    as (s' & E & _ & _ & K).
  - split; reflexivity.
  - split; cbv [sample_sys sample_chip dev busy_left latency]; lia.
  - reflexivity.
  - exists s'. split; [exact E|]. apply (K 2112). lia.
Defined.

(* ================================================================= *)
(** * Further properties of the code *)

(** ** Identification *)

(** X1: [initialize] returns, and returns [true] exactly when the device
    on the bus is the variant the object was built for.  On success the
    object's density is that variant's and the driver is [ready]; on
    failure the object is unchanged.  Either way the main array, the
    buffer, the command log and the staged-page record are untouched. *)
Theorem initialize_identifies fuel s :
  phase (dev s) = Idle -> responsive fuel s ->
  exists ok s',
    initialize fuel s = Some (ok, s')
    /\ (ok = true <-> _expected_chip (this s) = variant (dev s))
    /\ (ok = true ->
        _density (this s') = enum_value (_expected_chip (this s))
        /\ ready s')
    /\ (ok = false -> this s' = this s)
    /\ _cur_page_in_buf (this s') = _cur_page_in_buf (this s)
    /\ main (dev s') = main (dev s)
    /\ buf1 (dev s') = buf1 (dev s)
    /\ log (dev s') = log (dev s)
    /\ phase (dev s') = Idle /\ responsive fuel s'.
Proof.
  intros Hph Hf. open_sys s. subst ph. destruct Hf as [Hn Hlat].
  rewrite (initialize_idle fuel t v lat n m b1 b2 lg Hn).
  do 2 eexists. split; [reflexivity|].
  cbn [this dev main buf1 log phase busy_left latency variant].
  assert (Hiff : (enum_value (_expected_chip t) =? enum_value v) = true
                 <-> _expected_chip t = v).
  { split.
    - intros E. apply Z.eqb_eq in E.
      destruct (_expected_chip t), v; cbv in E; congruence.
    - intros ->. apply Z.eqb_refl. }
  split; [exact Hiff|].
  destruct (enum_value (_expected_chip t) =? enum_value v) eqn:E.
  - apply Z.eqb_eq in E.
    repeat split; try reflexivity; try lia; try discriminate;
      cbn [_density]; congruence.
  - repeat split; try reflexivity; try lia; discriminate.
Qed.

Lemma initialize_identifies_witness :
  exists ok s',
    initialize 5 mismatch_sys = Some (ok, s')
    /\ (ok = true <-> AT45DB041 = AT45DB161).
Proof.
  destruct (initialize_identifies 5 mismatch_sys)
    as (ok & s' & E & H & _).
  - reflexivity.
  - split; cbv [mismatch_sys sample_chip dev busy_left latency]; lia.
  - exists ok, s'. split; [exact E|exact H].
Defined.

(** ** Waiting for the device *)

Lemma while_busy_exhausted fuel : forall t v lat n m b1 b2 lg,
  (fuel <= n)%nat ->
  while_busy fuel (mkSys t (mkChip v lat n m b1 b2 Idle lg)) = None.
Proof.
  induction fuel as [|f IH]; intros t v lat n m b1 b2 lg Hn; [reflexivity|].
  cbn [while_busy]. mstep (busy_idle t v lat n m b1 b2 lg).
  destruct n as [|n]; [lia|]. cbn [Nat.eqb negb Nat.pred].
  apply IH. lia.
Qed.

(** X2: [command] polls the status register until the device is no longer
    busy, and only then selects the device and sends the opcode: with more
    polls than the device stays busy it returns with the device ready and
    the opcode received, the array, the buffer and the object untouched;
    with no more polls than the device stays busy it is still waiting. *)
Theorem command_waits_for_ready fuel s cmd :
  phase (dev s) = Idle -> u8 cmd <> 0xD7 ->
  ((busy_left (dev s) < fuel)%nat ->
   exists s',
     command fuel cmd s = Some (tt, s')
     /\ busy_left (dev s') = 0%nat
     /\ phase (dev s') = Addr (u8 cmd) []
     /\ main (dev s') = main (dev s)
     /\ buf1 (dev s') = buf1 (dev s)
     /\ log (dev s') = log (dev s)
     /\ this s' = this s)
  /\ ((fuel <= busy_left (dev s))%nat -> command fuel cmd s = None).
Proof.
  intros Hph Hc. open_sys s. subst ph. apply Z.eqb_neq in Hc. split.
  - intros Hn.
    rewrite (command_idle fuel cmd t v lat n m b1 b2 lg Hn Hc).
    eexists. repeat split.
  - intros Hn. unfold command.
    apply bind_none. now apply while_busy_exhausted.
Qed.

Lemma command_waits_for_ready_witness :
  (exists s', command 4 0xE8 busy_sys = Some (tt, s')
              /\ busy_left (dev s') = 0%nat
              /\ phase (dev s') = Addr 0xE8 [])
  /\ command 3 0xE8 busy_sys = None.
Proof.
  destruct (command_waits_for_ready 4 busy_sys 0xE8) as [H _].
  - reflexivity.
  - cbv. discriminate.
  - destruct (command_waits_for_ready 3 busy_sys 0xE8) as [_ H0].
    + reflexivity.
    + cbv. discriminate.
    + split.
      * destruct H as (s' & E & B & P & _).
        { cbv [busy_sys dev busy_left]. lia. }
        exists s'. repeat split; [exact E|exact B|exact P].
      * apply H0. cbv [busy_sys dev busy_left]. lia.
Defined.

(** X3: [busy] answers whether the device is in a self-timed operation,
    and [waitUntilBusy] returns once that is over: a [busy] right after it
    answers [false] and changes nothing.  The wait leaves the array, the
    buffer, the log and the object as they were. *)
Theorem waitUntilBusy_then_not_busy fuel s :
  phase (dev s) = Idle -> (busy_left (dev s) < fuel)%nat ->
  exists s1 s2,
    waitUntilBusy fuel s = Some (tt, s1)
    /\ busy s1 = Some (false, s2)
    /\ (exists s0, busy s = Some (negb (Nat.eqb (busy_left (dev s)) 0), s0))
    /\ busy_left (dev s1) = 0%nat
    /\ main (dev s1) = main (dev s) /\ buf1 (dev s1) = buf1 (dev s)
    /\ log (dev s1) = log (dev s) /\ this s1 = this s
    /\ s2 = s1.
Proof.
  intros Hph Hn. open_sys s. subst ph.
  rewrite (waitUntilBusy_idle fuel t v lat n m b1 b2 lg Hn).
  do 2 eexists. split; [reflexivity|].
  rewrite (busy_idle t v lat 0%nat m b1 b2 lg).
  cbn [Nat.eqb negb Nat.pred dev this busy_left main buf1 log].
  split; [reflexivity|]. split; [|repeat split].
  rewrite (busy_idle t v lat n m b1 b2 lg). eexists. reflexivity.
Qed.

Lemma waitUntilBusy_then_not_busy_witness :
  exists s1 s2,
    waitUntilBusy 5 busy_sys = Some (tt, s1) /\ busy s1 = Some (false, s2).
Proof.
  destruct (waitUntilBusy_then_not_busy 5 busy_sys)
    as (s1 & s2 & E1 & E2 & _).
  - reflexivity.
  - cbv [busy_sys dev busy_left]. lia.
  - exists s1, s2. split; assumption.
Defined.

(** ** The buffer *)

Lemma transfer_n_fill k b : forall t v lat n m b1 b2 lg pos,
  0 <= pos -> pos + Z.of_nat k <= chip_bytes v ->
  exists b1' pos',
    transfer_n k b (mkSys t (mkChip v lat n m b1 b2 (BufWrite 0 pos) lg))
    = Some (tt, mkSys t (mkChip v lat n m b1' b2 (BufWrite 0 pos') lg))
    /\ forall x, b1' x = if (pos <=? x) && (x <? pos + Z.of_nat k)
                         then u8 b else b1 x.
Proof.
  induction k as [|k IH]; intros t v lat n m b1 b2 lg pos Hpos Hk.
  - exists b1, pos. split; [reflexivity|]. intros x.
    destruct (pos <=? x) eqn:A; [|reflexivity].
    destruct (x <? pos + Z.of_nat 0) eqn:B; [|reflexivity].
    apply Z.leb_le in A. apply Z.ltb_lt in B. lia.
  - cbn [transfer_n]. mstep (transfer_bufwrite1 t v lat n m b1 b2 lg pos b).
    destruct k as [|k].
    + do 2 eexists. split; [reflexivity|]. intros x. unfold upd.
      destruct (x =? pos) eqn:A.
      * apply Z.eqb_eq in A. subst x.
        replace (pos <=? pos) with true by (symmetry; apply Z.leb_le; lia).
        replace (pos <? pos + Z.of_nat 1) with true
          by (symmetry; apply Z.ltb_lt; lia).
        reflexivity.
      * apply Z.eqb_neq in A.
        destruct (pos <=? x) eqn:B; [|reflexivity].
        destruct (x <? pos + Z.of_nat 1) eqn:C; [|reflexivity].
        apply Z.leb_le in B. apply Z.ltb_lt in C. lia.
    + replace (pos + 1 <? chip_bytes v) with true
        by (symmetry; apply Z.ltb_lt; lia).
      destruct (IH t v lat n m (upd b1 pos (u8 b)) b2 lg (pos + 1)
                  ltac:(lia) ltac:(lia)) as (b1' & pos' & E & V).
      exists b1', pos'. split; [exact E|]. intros x. rewrite V. unfold upd.
      destruct (pos + 1 <=? x) eqn:A;
        destruct (x <? pos + 1 + Z.of_nat (S k)) eqn:B;
        destruct (pos <=? x) eqn:C;
        destruct (x <? pos + Z.of_nat (S (S k))) eqn:D;
        destruct (x =? pos) eqn:F; cbn [andb]; try reflexivity; exfalso;
        try apply Z.leb_le in A; try apply Z.leb_gt in A;
        try apply Z.ltb_lt in B; try apply Z.ltb_ge in B;
        try apply Z.leb_le in C; try apply Z.leb_gt in C;
        try apply Z.ltb_lt in D; try apply Z.ltb_ge in D;
        try apply Z.eqb_eq in F; try apply Z.eqb_neq in F; lia.
Qed.

Lemma chip_bytes_at_least_264 v : 264 <= chip_bytes v.
Proof. destruct v; cbv; discriminate. Qed.

Lemma byte_of_adr_0 v : byte_of_adr v 0 = 0.
Proof. destruct v; reflexivity. Qed.

(** X4: [clearBuffer] sets bytes 0..263 of the buffer to FFh, whatever the
    page size of the device: on the devices with 528- or 1056-byte pages
    the rest of the buffer keeps what it held.  The main array and the
    object are untouched, and one buffer write (84h at offset 0) is
    logged. *)
Theorem clearBuffer_clears_264_bytes fuel s :
  phase (dev s) = Idle -> (busy_left (dev s) < fuel)%nat ->
  exists s',
    clearBuffer fuel 0 s = Some (tt, s')
    /\ (forall x, buf1 (dev s') x
                  = if (0 <=? x) && (x <? 264) then 255
                    else buf1 (dev s) x)
    /\ main (dev s') = main (dev s)
    /\ log (dev s') = (0x84, 0) :: log (dev s)
    /\ this s' = this s
    /\ phase (dev s') = Idle.
Proof.
  intros Hph Hn. open_sys s. subst ph. unfold clearBuffer.
  mstep (command_idle fuel (0x84 + 3 * u8 0) t v lat n m b1 b2 lg Hn eq_refl).
  mstep (send3bytesAddr_spec 0 0 t v lat 0%nat m b1 b2 lg
           (u8 (0x84 + 3 * u8 0))).
  rewrite wire_adr_0.
  change (dispatch v 0 (u8 (132 + 3 * u8 0)) 0)
    with (BufWrite 0 (byte_of_adr v 0)).
  change (u8 (132 + 3 * u8 0)) with 132. rewrite byte_of_adr_0.
  pose proof (chip_bytes_at_least_264 v) as Hb.
  destruct (transfer_n_fill 264 255 t v lat 0%nat m b1 b2 ((132, 0) :: lg) 0
              ltac:(lia) ltac:(lia)) as (b1' & pos' & E & V).
  mstep E.
  rewrite (unselect_bufwrite t v lat 0%nat m b1' b2 ((132, 0) :: lg) 0 pos').
  eexists. split; [reflexivity|]. cbn [dev this buf1 main log phase].
  repeat split. intros x. rewrite V. reflexivity.
Qed.

Lemma clearBuffer_clears_264_bytes_witness :
  exists s',
    clearBuffer 5 0 wide_sys = Some (tt, s')
    /\ buf1 (dev s') 263 = 255 /\ buf1 (dev s') 264 = 7.
Proof.
  destruct (clearBuffer_clears_264_bytes 5 wide_sys) as (s' & E & V & _).
  - reflexivity.
  - cbv [wide_sys dev busy_left]. lia.
  - exists s'. split; [exact E|]. rewrite !V. split; reflexivity.
Defined.

(** X5: [getPageToBuf] of a page of the device leaves the buffer holding
    that page of the main array, by a buffer clear followed by a
    main-memory-to-buffer transfer (53h) of the page; it waits for the
    transfer to finish and changes neither the array nor the object. *)
Theorem getPageToBuf_loads_page fuel s page :
  ready s -> responsive fuel s ->
  0 <= page < chip_pages (variant (dev s)) ->
  exists s',
    getPageToBuf fuel 0 page s = Some (tt, s')
    /\ buf1 (dev s') = main (dev s) page
    /\ main (dev s') = main (dev s)
    /\ log (dev s')
       = [(0x53, page_adr (variant (dev s)) page); (0x84, 0)] ++ log (dev s)
    /\ this s' = this s
    /\ busy_left (dev s') = 0%nat /\ phase (dev s') = Idle.
Proof.
  intros Hr Hf Hp. open_sys s. destruct Hr as [Ed ->].
  destruct Hf as [Hn Hlat].
  rewrite (getPageToBuf_idle fuel page t v lat n m b1 b2 lg Hn Hlat).
  rewrite Ed, wire_page, page_of_page_adr by assumption.
  eexists. repeat split.
Qed.

Lemma getPageToBuf_loads_page_witness :
  exists s',
    getPageToBuf 5 0 3 sample_sys = Some (tt, s')
    /\ buf1 (dev s') = main (dev sample_sys) 3.
Proof.
  destruct (getPageToBuf_loads_page 5 sample_sys 3) as (s' & E & B & _).
  - split; reflexivity.
  - split; cbv [sample_sys sample_chip dev busy_left latency]; lia.
  - change (chip_pages (variant (dev sample_sys))) with 2048. lia.
  - exists s'. split; assumption.
Defined.

(** ** Addresses on the wire *)

(** X6: the three address bytes [send3bytesAddr] puts on the wire for a
    page and a byte offset of the device are a 24-bit address that the
    device decodes back to the same page and the same offset, for every
    variant. *)
Theorem send3bytesAddr_round_trip s op page byte :
  _density (this s) = enum_value (variant (dev s)) ->
  phase (dev s) = Addr op [] ->
  0 <= page < chip_pages (variant (dev s)) ->
  0 <= byte < chip_bytes (variant (dev s)) ->
  exists s' adr,
    send3bytesAddr page byte s = Some (tt, s')
    /\ log (dev s') = (op, adr) :: log (dev s)
    /\ 0 <= adr < 16777216
    /\ page_of_adr (variant (dev s)) adr = page
    /\ byte_of_adr (variant (dev s)) adr = byte.
Proof.
  intros Ed Hph Hp Hb. open_sys s. subst ph.
  rewrite (send3bytesAddr_spec page byte t v lat n m b1 b2 lg op).
  do 2 eexists. split; [reflexivity|]. cbn [dev log]. rewrite Ed.
  split; [reflexivity|]. split.
  - rewrite wire_adr_device by assumption.
    destruct (chip_geometry v) as [(E & ? & ?)|[(E & ? & ?)|(E & ? & ?)]];
      rewrite E;
      [change (2 ^ 9) with 512|change (2 ^ 10) with 1024
      |change (2 ^ 11) with 2048]; lia.
  - split; [now apply decode_page|now apply decode_byte].
Qed.

Lemma send3bytesAddr_round_trip_witness :
  exists s' adr,
    send3bytesAddr 8191 1055 addressed_sys = Some (tt, s')
    /\ log (dev s') = [(0xE8, adr)]
    /\ page_of_adr AT45DB641 adr = 8191
    /\ byte_of_adr AT45DB641 adr = 1055.
Proof.
  destruct (send3bytesAddr_round_trip addressed_sys 0xE8 8191 1055)
    as (s' & adr & E & L & _ & P & B).
  - reflexivity.
  - reflexivity.
  - change (chip_pages (variant (dev addressed_sys))) with 8192. lia.
  - change (chip_bytes (variant (dev addressed_sys))) with 1056. lia.
  - exists s', adr. repeat split; assumption.
Defined.

(** ** Erasing *)

Lemma erasePage_idle fuel page t v lat n m b1 b2 lg :
  (n < fuel)%nat -> (lat < fuel)%nat ->
  erasePage fuel page (mkSys t (mkChip v lat n m b1 b2 Idle lg))
  = Some (tt,
          let adr := wire_adr (_density t) page 0 in
          mkSys t (mkChip v lat 0 (upd_page m (page_of_adr v adr) erased)
                     b1 b2 Idle ((0x81, adr) :: lg))).
Proof.
  intros Hn Hl. unfold erasePage.
  mstep (command_idle fuel 0x81 t v lat n m b1 b2 lg Hn eq_refl).
  mstep (send3bytesAddr_spec page 0 t v lat 0%nat m b1 b2 lg (u8 0x81)).
  change (u8 129) with 129.
  set (adr := wire_adr (_density t) page 0).
  change (dispatch v 0 129 adr) with (Pending 129 adr).
  mstep (unselect_erase_page t v lat 0%nat m b1 b2 ((129, adr) :: lg) adr).
  cbv zeta. apply waitUntilBusy_idle; assumption.
Qed.

(** X7: [erasePage] of a page of the device sets every byte of that page
    to FFh and leaves every other page alone, with one page erase (81h)
    on the wire; it waits for the erase to finish, so that it returns with
    the device ready again: no longer busy ([busy] answers [false]) and
    deselected. *)
Theorem erasePage_erases_one_page fuel s page :
  ready s -> responsive fuel s ->
  0 <= page < chip_pages (variant (dev s)) ->
  exists s',
    erasePage fuel page s = Some (tt, s')
    /\ (forall o, main (dev s') page o = 255)
    /\ (forall p o, p <> page -> main (dev s') p o = main (dev s) p o)
    /\ log (dev s') = (0x81, page_adr (variant (dev s)) page) :: log (dev s)
    /\ buf1 (dev s') = buf1 (dev s) /\ this s' = this s
    /\ busy_left (dev s') = 0%nat /\ phase (dev s') = Idle
    /\ busy s' = Some (false, s')
    /\ ready s' /\ responsive fuel s'.
Proof.
  intros Hr Hf Hp. open_sys s. destruct Hr as [Ed ->].
  destruct Hf as [Hn Hlat].
  rewrite (erasePage_idle fuel page t v lat n m b1 b2 lg Hn Hlat).
  cbv zeta. rewrite Ed, wire_page, page_of_page_adr by assumption.
  eexists. split; [reflexivity|].
  rewrite busy_idle.
  unfold ready, responsive.
  cbn [dev this main log buf1 phase variant busy_left latency Nat.eqb negb
       Nat.pred].
  unfold upd_page. repeat split; try assumption; try lia.
  - intros o. now rewrite Z.eqb_refl.
  - intros p o Hne. apply Z.eqb_neq in Hne. now rewrite Hne.
Qed.

Lemma erasePage_erases_one_page_witness :
  exists s',
    erasePage 5 3 sample_sys = Some (tt, s')
    /\ main (dev s') 3 0 = 255
    /\ main (dev s') 4 0 = main (dev sample_sys) 4 0
    /\ busy_left (dev s') = 0%nat
    /\ busy s' = Some (false, s').
Proof.
  destruct (erasePage_erases_one_page 5 sample_sys 3)
    as (s' & E & A & B & _ & _ & _ & Z0 & _ & Bz & _).
  - split; reflexivity.
  - split; cbv [sample_sys sample_chip dev busy_left latency]; lia.
  - change (chip_pages (variant (dev sample_sys))) with 2048. lia.
  - exists s'. split; [exact E|].
    repeat split; [apply A|apply B; lia|exact Z0|exact Bz].
Defined.

Lemma chip_pages_multiple_of_8 v :
  chip_pages v = 8 * (chip_pages v / 8)
  /\ Z.shiftr (AT45_PagesTotal (enum_value v)) 3 = chip_pages v / 8.
Proof. destruct v; split; reflexivity. Qed.

Lemma eraseBlock_device fuel block t v lat n m b1 b2 lg :
  (n < fuel)%nat -> (lat < fuel)%nat ->
  _density t = enum_value v ->
  0 <= block < chip_pages v / 8 ->
  eraseBlock fuel block (mkSys t (mkChip v lat n m b1 b2 Idle lg))
  = Some (tt,
          mkSys t (mkChip v lat 0
                     (fun q => if q / 8 =? block then erased else m q)
                     b1 b2 Idle ((0x50, page_adr v (8 * block)) :: lg))).
Proof.
  intros Hn Hlat Ed Hb.
  destruct (chip_pages_multiple_of_8 v) as [H8 _].
  pose proof (chip_pages_small v) as Hs.
  rewrite (eraseBlock_idle fuel block t v lat n m b1 b2 lg Hn Hlat).
  cbv zeta. rewrite Ed.
  rewrite (int_small block) by lia.
  rewrite Z.shiftl_mul_pow2 by lia. change (2 ^ 3) with 8.
  rewrite (int_small (block * 8)) by lia.
  replace (block * 8) with (8 * block) by lia.
  rewrite wire_page, page_of_page_adr by lia.
  replace (8 * block / 8) with block
    by (rewrite Z.mul_comm, Z.div_mul; lia).
  reflexivity.
Qed.

(** X8: [eraseBlock b], for a block index [b] of the device, erases the
    eight pages [8b .. 8b+7] and no other, with one block erase (50h)
    addressed to page [8b]. *)
Theorem eraseBlock_erases_8_pages fuel s block :
  ready s -> responsive fuel s ->
  0 <= block < chip_pages (variant (dev s)) / 8 ->
  exists s',
    eraseBlock fuel block s = Some (tt, s')
    /\ (forall p o, 8 * block <= p <= 8 * block + 7 ->
                    main (dev s') p o = 255)
    /\ (forall p o, ~ (8 * block <= p <= 8 * block + 7) ->
                    main (dev s') p o = main (dev s) p o)
    /\ log (dev s')
       = (0x50, page_adr (variant (dev s)) (8 * block)) :: log (dev s)
    /\ ready s' /\ responsive fuel s'.
Proof.
  intros Hr Hf Hb. open_sys s. destruct Hr as [Ed ->].
  destruct Hf as [Hn Hlat].
  rewrite (eraseBlock_device fuel block t v lat n m b1 b2 lg Hn Hlat Ed Hb).
  eexists. split; [reflexivity|].
  unfold ready, responsive.
  cbn [dev this main log buf1 phase variant busy_left latency].
  repeat split; try assumption; try lia.
  - intros p o Hp.
    replace (p / 8 =? block) with true; [reflexivity|].
    symmetry. apply Z.eqb_eq. Z.div_mod_to_equations. lia.
  - intros p o Hp.
    replace (p / 8 =? block) with false; [reflexivity|].
    symmetry. apply Z.eqb_neq. Z.div_mod_to_equations. lia.
Qed.

Lemma eraseBlock_erases_8_pages_witness :
  exists s',
    eraseBlock 5 2 sample_sys = Some (tt, s')
    /\ main (dev s') 16 5 = 255 /\ main (dev s') 23 5 = 255
    /\ main (dev s') 24 5 = main (dev sample_sys) 24 5.
Proof.
  destruct (eraseBlock_erases_8_pages 5 sample_sys 2)
    as (s' & E & A & B & _).
  - split; reflexivity.
  - split; cbv [sample_sys sample_chip dev busy_left latency]; lia.
  - change (chip_pages (variant (dev sample_sys)) / 8) with 256. lia.
  - exists s'. split; [exact E|].
    repeat split; [apply A; lia|apply A; lia|apply B; lia].
Defined.

Lemma eraseChip_loop_device fuel v lat b2 t b1 :
  (lat < fuel)%nat -> _density t = enum_value v ->
  forall k bl n m lg,
    0 <= bl -> chip_pages v / 8 - bl <= Z.of_nat k -> (n < fuel)%nat ->
    exists n' m' lg',
      eraseChip_loop fuel k bl (mkSys t (mkChip v lat n m b1 b2 Idle lg))
      = Some (tt, mkSys t (mkChip v lat n' m' b1 b2 Idle lg'))
      /\ (n' < fuel)%nat
      /\ (forall q o, m' q o
                      = if (bl <=? q / 8) && (q / 8 <? chip_pages v / 8)
                        then 255 else m q o)
      /\ Z.of_nat (count 0x50 lg')
         = Z.of_nat (count 0x50 lg) + Z.max 0 (chip_pages v / 8 - bl).
Proof.
  intros Hlat Ed.
  destruct (chip_pages_multiple_of_8 v) as [H8 Hshift].
  induction k as [|k IH]; intros bl n m lg Hbl Hk Hn.
  - exists n, m, lg. cbn [eraseChip_loop]. mtriv. rewrite Ed, Hshift.
    replace (bl <? chip_pages v / 8) with false
      by (symmetry; apply Z.ltb_ge; lia).
    repeat split; [assumption| |lia].
    intros q o. destruct (bl <=? q / 8) eqn:A; [|reflexivity].
    destruct (q / 8 <? chip_pages v / 8) eqn:B; [|reflexivity].
    apply Z.leb_le in A. apply Z.ltb_lt in B. lia.
  - cbn [eraseChip_loop]. mtriv. rewrite Ed, Hshift.
    destruct (bl <? chip_pages v / 8) eqn:C.
    + apply Z.ltb_lt in C. pose proof (chip_pages_small v) as Hs.
      mstep (eraseBlock_device fuel bl t v lat n m b1 b2 lg Hn Hlat Ed
               ltac:(lia)).
      rewrite (int_small (bl + 1)) by lia.
      destruct (IH (bl + 1) 0%nat
                  (fun q => if q / 8 =? bl then erased else m q)
                  ((80, page_adr v (8 * bl)) :: lg)
                  ltac:(lia) ltac:(lia) ltac:(lia))
        as (n' & m' & lg' & E & Hn' & V & Cn).
      exists n', m', lg'. repeat split; [exact E|assumption| |].
      * intros q o. rewrite V.
        destruct (bl + 1 <=? q / 8) eqn:A1;
          destruct (q / 8 <? chip_pages v / 8) eqn:A2;
          destruct (bl <=? q / 8) eqn:A3;
          destruct (q / 8 =? bl) eqn:A4; cbn [andb]; try reflexivity;
          exfalso;
          try apply Z.leb_le in A1; try apply Z.leb_gt in A1;
          try apply Z.ltb_lt in A2; try apply Z.ltb_ge in A2;
          try apply Z.leb_le in A3; try apply Z.leb_gt in A3;
          try apply Z.eqb_eq in A4; try apply Z.eqb_neq in A4; lia.
      * rewrite Cn, count_cons. change (80 =? 80) with true. cbv iota. lia.
    + apply Z.ltb_ge in C. exists n, m, lg.
      repeat split; [assumption| |lia].
      intros q o. destruct (bl <=? q / 8) eqn:A; [|reflexivity].
      destruct (q / 8 <? chip_pages v / 8) eqn:B; [|reflexivity].
      apply Z.leb_le in A. apply Z.ltb_lt in B. lia.
Qed.

Lemma stream_length v m : forall k a, length (stream v m a k) = k.
Proof. induction k as [|k IH]; intros a; [reflexivity|]. cbn. now rewrite IH. Qed.

Lemma stream_nth v m : forall k a j,
  (j < k)%nat ->
  nth j (stream v m a k) 0
  = u8 (Z.lnot (u8 (m ((a + Z.of_nat j) / chip_bytes v)
                      ((a + Z.of_nat j) mod chip_bytes v)))).
Proof.
  induction k as [|k IH]; intros a j Hj; [lia|].
  destruct j as [|j]; cbn [stream nth].
  - now rewrite Z.add_0_r.
  - rewrite IH by lia.
    now replace (a + 1 + Z.of_nat j) with (a + Z.of_nat (S j)) by lia.
Qed.

Lemma stream_erased v m : forall k a,
  0 <= a -> a + Z.of_nat k <= capacity v ->
  (forall p o, 0 <= p < chip_pages v -> m p o = 255) ->
  stream v m a k = repeat 0 k.
Proof.
  induction k as [|k IH]; intros a Ha Hk Hm; [reflexivity|].
  cbn [stream repeat]. rewrite IH by (try assumption; lia).
  rewrite Hm by (apply page_in_device; lia). reflexivity.
Qed.

(** X9: [chipErase] erases every page of the device, one block erase per
    eight pages, and returns with the driver [ready]; afterwards
    [readBytes] of any span inside the device returns zeros (the
    complement of the erased FFh). *)
Theorem chipErase_erases_the_device fuel s :
  ready s -> responsive fuel s ->
  exists s',
    chipErase fuel s = Some (tt, s')
    /\ (forall p o, 0 <= p < chip_pages (variant (dev s)) ->
                    main (dev s') p o = 255)
    /\ Z.of_nat (count 0x50 (log (dev s')))
       = Z.of_nat (count 0x50 (log (dev s)))
         + chip_pages (variant (dev s)) / 8
    /\ ready s' /\ responsive fuel s'
    /\ (forall addr len,
          0 <= addr < capacity (variant (dev s)) -> 0 <= len < 65536 ->
          addr + len <= capacity (variant (dev s)) ->
          exists s'',
            readBytes fuel addr len s'
            = Some (repeat 0 (Z.to_nat len), s'')).
Proof.
  intros Hr Hf. open_sys s. destruct Hr as [Ed ->].
  destruct Hf as [Hn Hlat].
  destruct (chip_pages_multiple_of_8 v) as [H8 Hshift].
  pose proof (chip_pages_pos v) as Hpos.
  unfold chipErase, eraseChip. mtriv. rewrite Ed. fold (chip_pages v).
  destruct (eraseChip_loop_device fuel v lat b2 t b1 Hlat Ed
              (Z.to_nat (chip_pages v)) 0 n m lg ltac:(lia) ltac:(lia) Hn)
    as (n' & m' & lg' & E & Hn' & V & Cn).
  rewrite E. eexists. split; [reflexivity|].
  unfold ready, responsive.
  cbn [dev this main log phase variant busy_left latency].
  assert (Hall : forall p o, 0 <= p < chip_pages v -> m' p o = 255).
  { intros p o Hp. rewrite V.
    replace (0 <=? p / 8) with true
      by (symmetry; apply Z.leb_le; Z.div_mod_to_equations; lia).
    replace (p / 8 <? chip_pages v / 8) with true
      by (symmetry; apply Z.ltb_lt; Z.div_mod_to_equations; lia).
    reflexivity. }
  repeat split; try assumption; try lia.
  intros addr len Ha Hl Hc.
  destruct (readBytes_device fuel v lat b2 Hlat t n' m' b1 lg' addr len Ed Ha
              Hl Hc Hn') as (lg2 & E2).
  eexists. rewrite E2. do 2 f_equal.
  apply stream_erased; try assumption; lia.
Qed.

Lemma chipErase_erases_the_device_witness :
  exists s' s'',
    chipErase 5 sample_sys = Some (tt, s')
    /\ main (dev s') 2047 263 = 255
    /\ readBytes 5 1000 4 s' = Some ([0; 0; 0; 0], s'').
Proof.
  destruct (chipErase_erases_the_device 5 sample_sys)
    as (s' & E & A & _ & _ & _ & R).
  - split; reflexivity.
  - split; cbv [sample_sys sample_chip dev busy_left latency]; lia.
  - destruct (R 1000 4) as (s'' & E2).
    + change (capacity (variant (dev sample_sys))) with 540672. lia.
    + lia.
    + change (capacity (variant (dev sample_sys))) with 540672. lia.
    + exists s', s''. split; [exact E|]. split; [|exact E2].
      apply A. change (chip_pages (variant (dev sample_sys))) with 2048. lia.
Defined.

(** ** Reading *)

Lemma not8_u8 z : u8 (Z.lnot (u8 z)) = 255 - u8 z.
Proof. apply not8_val, u8_range. Qed.

(** X10: [readBytes] of a span inside the device returns [len] bytes, the
    [j]-th being the complement of the array byte at [addr + j]; it sends
    one continuous read (E8h) and changes neither the array, the buffer
    nor the object. *)
Theorem readBytes_reads_complement fuel s addr len :
  ready s -> responsive fuel s ->
  0 <= addr < capacity (variant (dev s)) -> 0 <= len < 65536 ->
  addr + len <= capacity (variant (dev s)) ->
  exists l s' adr,
    readBytes fuel addr len s = Some (l, s')
    /\ Z.of_nat (length l) = len
    /\ (forall j, 0 <= j < len ->
          nth (Z.to_nat j) l 0
          = 255 - u8 (main (dev s)
                        ((addr + j) / chip_bytes (variant (dev s)))
                        ((addr + j) mod chip_bytes (variant (dev s)))))
    /\ main (dev s') = main (dev s) /\ buf1 (dev s') = buf1 (dev s)
    /\ this s' = this s
    /\ log (dev s') = (0xE8, adr) :: log (dev s)
    /\ ready s' /\ responsive fuel s'.
Proof.
  intros Hr Hf Ha Hl Hc. open_sys s. destruct Hr as [Ed ->].
  destruct Hf as [Hn Hlat].
  cbn [dev variant main] in *.
  destruct (readBytes_device fuel v lat b2 Hlat t n m b1 lg addr len Ed Ha
              Hl Hc Hn) as (lg' & E).
  destruct (readBytes_idle fuel v lat b2 Hlat t n m b1 lg addr len Hn)
    as (l0 & adr & E0).
  rewrite E in E0. injection E0 as _ Hlg.
  exists (stream v m addr (Z.to_nat len)), 
         (mkSys t (mkChip v lat 0 m b1 b2 Idle lg')), adr.
  split; [exact E|].
  unfold ready, responsive.
  cbn [dev this main log buf1 phase variant busy_left latency].
  repeat split; try assumption; try lia.
  - rewrite stream_length. lia.
  - intros j Hj. rewrite stream_nth by lia.
    rewrite Z2Nat.id by lia. apply not8_u8.
Qed.

Lemma readBytes_reads_complement_witness :
  exists l s',
    readBytes 5 1000 3 sample_sys = Some (l, s')
    /\ Z.of_nat (length l) = 3
    /\ nth 2 l 0 = 255 - u8 (main (dev sample_sys) 3 210)
    /\ main (dev s') = main (dev sample_sys).
Proof.
  destruct (readBytes_reads_complement 5 sample_sys 1000 3)
    as (l & s' & adr & E & L & N & M & _).
  - split; reflexivity.
  - split; cbv [sample_sys sample_chip dev busy_left latency]; lia.
  - change (capacity (variant (dev sample_sys))) with 540672. lia.
  - lia.
  - change (capacity (variant (dev sample_sys))) with 540672. lia.
  - exists l, s'. repeat split; [exact E|exact L| |exact M].
    apply (N 2). lia.
Defined.

(** X11: on the same device state [readByte addr] and
    [readBytes addr 1] disagree: [readByte] returns the array byte as it
    is, [readBytes] its complement, so the two values add up to 255.
    Neither changes the array. *)
Theorem readByte_readBytes_disagree fuel s addr :
  ready s -> responsive fuel s ->
  0 <= addr < capacity (variant (dev s)) ->
  exists b s1 s2,
    readByte fuel addr s = Some (b, s1)
    /\ readBytes fuel addr 1 s = Some ([255 - b], s2)
    /\ b = u8 (main (dev s) (addr / chip_bytes (variant (dev s)))
                 (addr mod chip_bytes (variant (dev s))))
    /\ main (dev s1) = main (dev s) /\ main (dev s2) = main (dev s).
Proof.
  intros Hr Hf Ha. open_sys s. destruct Hr as [Ed ->].
  destruct Hf as [Hn Hlat].
  cbn [dev variant main] in *.
  destruct (readByte_device fuel v lat b2 t n m b1 lg addr Ed Ha Hn)
    as (lg1 & E1).
  destruct (readBytes_device fuel v lat b2 Hlat t n m b1 lg addr 1 Ed Ha
              ltac:(lia) ltac:(lia) Hn) as (lg2 & E2).
  do 3 eexists. split; [exact E1|]. split.
  - rewrite E2. change (Z.to_nat 1) with 1%nat. cbn [stream].
    rewrite not8_u8. reflexivity.
  - repeat split.
Qed.

Lemma readByte_readBytes_disagree_witness :
  exists b s1 s2,
    readByte 5 1000 sample_sys = Some (b, s1)
    /\ readBytes 5 1000 1 sample_sys = Some ([255 - b], s2).
Proof.
  destruct (readByte_readBytes_disagree 5 sample_sys 1000)
    as (b & s1 & s2 & E1 & E2 & _).
  - split; reflexivity.
  - split; cbv [sample_sys sample_chip dev busy_left latency]; lia.
  - change (capacity (variant (dev sample_sys))) with 540672. lia.
  - exists b, s1, s2. split; assumption.
Defined.

(** ** Writing *)

(** X12: [writeBytes] changes the array inside the span
    [addr .. addr + len - 1] only: a byte of the span ends up as the
    complement of the byte written there, and every other byte of the
    device keeps its value, also on the pages that were fetched and
    programmed back.  The driver is [ready] again afterwards. *)
Theorem writeBytes_changes_only_the_span fuel s addr buf len :
  ready s -> responsive fuel s ->
  0 <= addr < capacity (variant (dev s)) -> 0 <= len < 65536 ->
  addr + len <= capacity (variant (dev s)) ->
  exists s',
    writeBytes fuel addr buf len s = Some (tt, s')
    /\ (forall a, 0 <= a < capacity (variant (dev s)) ->
          main (dev s') (a / chip_bytes (variant (dev s)))
                        (a mod chip_bytes (variant (dev s)))
          = if (addr <=? a) && (a <? addr + len)
            then 255 - u8 (nth (Z.to_nat (a - addr)) buf 0)
            else main (dev s) (a / chip_bytes (variant (dev s)))
                              (a mod chip_bytes (variant (dev s))))
    /\ ready s' /\ responsive fuel s'.
Proof.
  intros Hr Hf Ha Hl Hc. open_sys s. destruct Hr as [Ed ->].
  destruct Hf as [Hn Hlat].
  cbn [dev variant main] in *.
  destruct (writeBytes_device fuel v lat b2 Hlat t n m b1 lg addr buf len Ed
              Ha Hl Hc Hn) as (t' & m' & b1' & lg' & E & Ed' & V).
  eexists. split; [exact E|].
  unfold ready, responsive.
  cbn [dev this main log buf1 phase variant busy_left latency].
  repeat split; try assumption; try lia.
  intros a Ha'. rewrite (V _ _ (offset_in_page v a)).
  pose proof (chip_bytes_pos v).
  replace (a / chip_bytes v * chip_bytes v + a mod chip_bytes v) with a
    by (rewrite (Z.div_mod a (chip_bytes v)) at 1; lia).
  rewrite not8_u8. reflexivity.
Qed.

Lemma writeBytes_changes_only_the_span_witness :
  exists s',
    writeBytes 5 1000 [1; 2; 3] 3 sample_sys = Some (tt, s')
    /\ main (dev s') 3 207 = main (dev sample_sys) 3 207
    /\ main (dev s') 3 208 = 254
    /\ main (dev s') 3 211 = main (dev sample_sys) 3 211.
Proof.
  destruct (writeBytes_changes_only_the_span 5 sample_sys 1000 [1; 2; 3] 3)
    as (s' & E & V & _).
  - split; reflexivity.
  - split; cbv [sample_sys sample_chip dev busy_left latency]; lia.
  - change (capacity (variant (dev sample_sys))) with 540672. lia.
  - lia.
  - change (capacity (variant (dev sample_sys))) with 540672. lia.
  - exists s'. split; [exact E|].
    change (capacity (variant (dev sample_sys))) with 540672 in V.
    change (chip_bytes (variant (dev sample_sys))) with 264 in V.
    repeat split.
    + exact (V 999 ltac:(lia)).
    + exact (V 1000 ltac:(lia)).
    + exact (V 1003 ltac:(lia)).
Defined.

(** X13: [writeBytes] with [len = 0] still fetches the page of [addr] and
    programs it back: the array ends up as it was, at the price of one
    program cycle of that page, which stays recorded as staged. *)
Theorem writeBytes_of_nothing_cycles_the_page fuel s addr buf :
  ready s -> responsive fuel s ->
  0 <= addr < capacity (variant (dev s)) ->
  exists s',
    writeBytes fuel addr buf 0 s = Some (tt, s')
    /\ log (dev s')
       = (let v := variant (dev s) in
          let p := addr / chip_bytes v in
          [(0x83, page_adr v p); (0x53, page_adr v p); (0x84, 0)])
           ++ log (dev s)
    /\ (forall q o, main (dev s') q o = main (dev s) q o)
    /\ _cur_page_in_buf (this s')
       = addr / chip_bytes (variant (dev s)).
Proof.
  intros Hr Hf Ha. open_sys s. destruct Hr as [Ed ->].
  destruct Hf as [Hn Hlat].
  cbn [dev variant main log] in *.
  unfold writeBytes.
  mstep (startContWrite_device fuel v lat b2 Hlat t n m b1 lg addr Ed Ha Hn).
  cbv zeta. change (Z.to_nat (u16 0)) with 0%nat. cbn [writeBytes_loop].
  mtriv.
  pose proof (page_in_device v addr Ha) as Hp.
  rewrite (stopContWrite_device fuel v lat b2
             (with_cur t (addr / chip_bytes v)) 0%nat m
             (m (addr / chip_bytes v)) _ Ed Hp ltac:(lia)).
  eexists. split; [reflexivity|].
  cbn [dev this main log with_cur _cur_page_in_buf app].
  repeat split. intros q o. unfold upd_page.
  destruct (q =? addr / chip_bytes v) eqn:C; [|reflexivity].
  apply Z.eqb_eq in C. now subst q.
Qed.

Lemma writeBytes_of_nothing_cycles_the_page_witness :
  exists s',
    writeBytes 5 1000 [] 0 sample_sys = Some (tt, s')
    /\ fetches s' = S (fetches sample_sys)
    /\ programs s' = S (programs sample_sys).
Proof.
  destruct (writeBytes_of_nothing_cycles_the_page 5 sample_sys 1000 [])
    as (s' & E & L & _).
  - split; reflexivity.
  - split; cbv [sample_sys sample_chip dev busy_left latency]; lia.
  - change (capacity (variant (dev sample_sys))) with 540672. lia.
  - exists s'. split; [exact E|]. unfold fetches, programs. rewrite L.
    split; reflexivity.
Defined.

(** X14: a byte written with [writeContByte] sits in the buffer only: a
    [readByte] of its address before [stopContWrite] still returns the old
    array byte, and after [stopContWrite] returns the complement of the
    byte written. *)
Theorem staged_write_is_unread_until_stop fuel s a byte :
  ready s -> responsive fuel s ->
  0 <= a < capacity (variant (dev s)) ->
  let old := u8 (main (dev s) (a / chip_bytes (variant (dev s)))
                   (a mod chip_bytes (variant (dev s)))) in
  exists s1 s2 s3 s4 s5,
    startContWrite fuel a s = Some (tt, s1)
    /\ writeContByte fuel a byte s1 = Some (tt, s2)
    /\ readByte fuel a s2 = Some (old, s3)
    /\ stopContWrite fuel s3 = Some (tt, s4)
    /\ readByte fuel a s4 = Some (255 - u8 byte, s5).
Proof.
  intros Hr Hf Ha. open_sys s. destruct Hr as [Ed ->].
  destruct Hf as [Hn Hlat].
  cbn [dev variant main log] in *.
  pose proof (page_in_device v a Ha) as Hp.
  pose proof (offset_in_page v a) as Ho.
  set (p := a / chip_bytes v) in *. set (o := a mod chip_bytes v) in *.
  pose proof (startContWrite_device fuel v lat b2 Hlat t n m b1 lg a Ed Ha Hn)
    as E1.
  cbv zeta in E1. fold p in E1.
  pose proof (writeContByte_device fuel v lat b2 Hlat (with_cur t p) 0%nat m
                (m p) ((0x53, page_adr v p) :: (0x84, 0) :: lg) a byte Ed Hp
                Ha ltac:(lia)) as E2.
  cbv zeta in E2. cbn [with_cur _cur_page_in_buf] in E2. fold p o in E2.
  rewrite Z.eqb_refl in E2.
  set (t2 := with_cur (with_cur t p) p) in *.
  set (b2' := upd (m p) o (u8 (Z.lnot (u8 byte)))) in *.
  destruct (readByte_device fuel v lat b2 t2 0%nat m b2' 
              ((0x84, o) :: (0x53, page_adr v p) :: (0x84, 0) :: lg) a Ed Ha
              ltac:(lia)) as (lg3 & E3).
  pose proof (stopContWrite_device fuel v lat b2 t2 0%nat m b2' lg3 Ed Hp
                ltac:(lia)) as E4.
  cbn [t2 with_cur _cur_page_in_buf] in E4.
  destruct (readByte_device fuel v lat b2 t2 lat (upd_page m p b2') b2'
              ((0x83, page_adr v p) :: lg3) a Ed Ha Hlat) as (lg5 & E5).
  do 5 eexists.
  split; [exact E1|]. split; [exact E2|]. split; [exact E3|].
  split; [exact E4|].
  etransitivity; [exact E5|].
  fold p o. unfold upd_page, b2', upd. rewrite !Z.eqb_refl.
  rewrite u8_u8, not8_u8. reflexivity.
Qed.

Lemma staged_write_is_unread_until_stop_witness :
  exists s1 s2 s3 s4 s5,
    startContWrite 5 1000 sample_sys = Some (tt, s1)
    /\ writeContByte 5 1000 9 s1 = Some (tt, s2)
    /\ readByte 5 1000 s2
       = Some (u8 (main (dev sample_sys) 3 208), s3)
    /\ stopContWrite 5 s3 = Some (tt, s4)
    /\ readByte 5 1000 s4 = Some (246, s5).
Proof.
  apply (staged_write_is_unread_until_stop 5 sample_sys 1000 9).
  - split; reflexivity.
  - split; cbv [sample_sys sample_chip dev busy_left latency]; lia.
  - change (capacity (variant (dev sample_sys))) with 540672. lia.
Defined.

(** ** Block erases by size *)

Lemma blockErase_loop_device fuel v lat b2 t b1 page num :
  (lat < fuel)%nat -> _density t = enum_value v ->
  0 <= page -> page + num <= chip_pages v / 8 ->
  forall k i n m lg,
    0 <= i -> i mod 8 = 0 -> num - i <= 8 * Z.of_nat k -> (n < fuel)%nat ->
    exists n' m' lg',
      blockErase_loop fuel k page num i
        (mkSys t (mkChip v lat n m b1 b2 Idle lg))
      = Some (tt, mkSys t (mkChip v lat n' m' b1 b2 Idle lg'))
      /\ (n' < fuel)%nat
      /\ (forall q o,
            m' q o
            = if (page + i <=? q / 8) && (q / 8 <? page + num)
                 && ((q / 8 - page) mod 8 =? 0)
              then 255 else m q o)
      /\ Z.of_nat (count 0x50 lg')
         = Z.of_nat (count 0x50 lg) + (Z.max 0 (num - i) + 7) / 8.
Proof.
  intros Hlat Ed Hpage Hnum.
  pose proof (chip_pages_small v) as Hs.
  assert (Hb : chip_pages v / 8 <= 1024)
    by (Z.div_mod_to_equations; lia).
  induction k as [|k IH]; intros i n m lg Hi Hi8 Hk Hn.
  - exists n, m, lg. cbn [blockErase_loop].
    replace (i <? num) with false by (symmetry; apply Z.ltb_ge; lia).
    repeat split; [assumption| |].
    + intros q o.
      destruct (page + i <=? q / 8) eqn:A; [|reflexivity].
      destruct (q / 8 <? page + num) eqn:B; [|reflexivity].
      apply Z.leb_le in A. apply Z.ltb_lt in B. lia.
    + replace (Z.max 0 (num - i)) with 0 by lia. change (0 + 7) with 7.
      change (7 / 8) with 0. lia.
  - cbn [blockErase_loop]. destruct (i <? num) eqn:C.
    + apply Z.ltb_lt in C.
      rewrite (int_small (page + i)) by lia.
      mstep (eraseBlock_device fuel (page + i) t v lat n m b1 b2 lg Hn Hlat
               Ed ltac:(lia)).
      rewrite (int_small (i + 8)) by lia.
      destruct (IH (i + 8) 0%nat
                  (fun q => if q / 8 =? page + i then erased else m q)
                  ((80, page_adr v (8 * (page + i))) :: lg)
                  ltac:(lia) ltac:(Z.div_mod_to_equations; lia)
                  ltac:(lia) ltac:(lia))
        as (n' & m' & lg' & E & Hn' & V & Cn).
      exists n', m', lg'. repeat split; [exact E|assumption| |].
      * intros q o. rewrite V. set (x := q / 8).
        destruct (page + (i + 8) <=? x) eqn:A1;
          destruct (x <? page + num) eqn:A2;
          destruct (page + i <=? x) eqn:A3;
          destruct ((x - page) mod 8 =? 0) eqn:A5;
          destruct (x =? page + i) eqn:A4; cbn [andb]; try reflexivity;
          exfalso;
          try apply Z.leb_le in A1; try apply Z.leb_gt in A1;
          try apply Z.ltb_lt in A2; try apply Z.ltb_ge in A2;
          try apply Z.leb_le in A3; try apply Z.leb_gt in A3;
          try apply Z.eqb_eq in A4; try apply Z.eqb_neq in A4;
          try apply Z.eqb_eq in A5; try apply Z.eqb_neq in A5;
          Z.div_mod_to_equations; lia.
      * rewrite Cn, count_cons. change (80 =? 80) with true. cbv iota.
        Z.div_mod_to_equations. lia.
    + apply Z.ltb_ge in C. exists n, m, lg.
      repeat split; [assumption| |].
      * intros q o.
        destruct (page + i <=? q / 8) eqn:A; [|reflexivity].
        destruct (q / 8 <? page + num) eqn:B; [|reflexivity].
        apply Z.leb_le in A. apply Z.ltb_lt in B. lia.
      * replace (Z.max 0 (num - i)) with 0 by lia. change (0 + 7) with 7.
        change (7 / 8) with 0. lia.
Qed.

(** X15: the common body of [blockErase4K], [blockErase32K] and
    [blockErase64K].  With [P] the page of [addr] and
    [N = size / pageBytes + 1], and as long as [P + N] block indices
    exist, it erases the blocks numbered [P], [P + 8], [P + 16], ... below
    [P + N], that is [(N + 7) / 8] blocks starting at page [8 * P], and
    nothing else.  Unless [addr] lies in page 0, the page of [addr] itself
    is not erased. *)
Theorem blockErase_erases_every_eighth_block fuel s size addr :
  ready s -> responsive fuel s ->
  0 <= addr < capacity (variant (dev s)) -> 0 <= size ->
  let v := variant (dev s) in
  let P := addr / chip_bytes v in
  let N := size / chip_bytes v + 1 in
  P + N <= chip_pages v / 8 ->
  exists s',
    blockErase fuel size addr s = Some (tt, s')
    /\ (forall q o, main (dev s') q o
                    = if reached_by_blockErase P N q then 255
                      else main (dev s) q o)
    /\ Z.of_nat (count 0x50 (log (dev s')))
       = Z.of_nat (count 0x50 (log (dev s))) + (N + 7) / 8
    /\ (0 < P -> forall o, main (dev s') P o = main (dev s) P o)
    /\ ready s' /\ responsive fuel s'.
Proof.
  intros Hr Hf Ha Hsz. open_sys s. destruct Hr as [Ed ->].
  destruct Hf as [Hn Hlat].
  cbn [dev variant main log] in *. intros HPN.
  pose proof (chip_pages_small v) as Hs.
  pose proof (chip_bytes_pos v) as Hpb.
  pose proof (page_in_device v addr Ha) as Hp.
  assert (Hb : chip_pages v / 8 <= 1024)
    by (Z.div_mod_to_equations; lia).
  assert (HN : 1 <= size / chip_bytes v + 1)
    by (pose proof (Z.div_pos size (chip_bytes v)); lia).
  unfold blockErase. mtriv.
  rewrite (addressToPage_device t v addr Ed Ha), Ed.
  fold (chip_bytes v).
  rewrite (int_small (addr / chip_bytes v)) by lia.
  rewrite (int_small (size / chip_bytes v + 1)) by lia.
  destruct (blockErase_loop_device fuel v lat b2 t b1 (addr / chip_bytes v)
              (size / chip_bytes v + 1) Hlat Ed ltac:(lia) HPN
              (Z.to_nat (size / chip_bytes v + 1)) 0 n m lg
              ltac:(lia) eq_refl ltac:(lia) Hn)
    as (n' & m' & lg' & E & Hn' & V & Cn).
  rewrite E. eexists. split; [reflexivity|].
  unfold ready, responsive, reached_by_blockErase.
  cbn [dev this main log buf1 phase variant busy_left latency].
  rewrite Z.add_0_r in V.
  repeat split; try assumption; try lia.
  - rewrite Cn. rewrite Z.sub_0_r, Z.max_r by lia. reflexivity.
  - intros HP o. rewrite V.
    replace (addr / chip_bytes v <=? addr / chip_bytes v / 8) with false;
      [reflexivity|].
    symmetry. apply Z.leb_gt. Z.div_mod_to_equations. lia.
Qed.

Lemma blockErase_erases_every_eighth_block_witness :
  exists s',
    blockErase4K 5 264 sample_sys = Some (tt, s')
    /\ main (dev s') 8 0 = 255 /\ main (dev s') 72 0 = 255
    /\ main (dev s') 16 0 = main (dev sample_sys) 16 0
    /\ main (dev s') 1 0 = main (dev sample_sys) 1 0.
Proof.
  destruct (blockErase_erases_every_eighth_block 5 sample_sys 4096 264)
    as (s' & E & V & _ & K & _).
  - split; reflexivity.
  - split; cbv [sample_sys sample_chip dev busy_left latency]; lia.
  - change (capacity (variant (dev sample_sys))) with 540672. lia.
  - lia.
  - vm_compute. discriminate.
  - exists s'. split; [exact E|].
    repeat split; [apply (V 8 0)|apply (V 72 0)|apply (V 16 0)|].
    apply K. vm_compute. reflexivity.
Defined.

(** ** The buffer *)

(** X16: [getPageToBuf] of page [p] followed by [programBufToPage] of page
    [q] copies page [p] of the array to page [q] and changes no other
    page.  [programBufToPage] returns without waiting: the device is still
    busy with the programming when it does. *)
Theorem page_copy_through_buffer fuel s p q :
  ready s -> responsive fuel s ->
  0 <= p < chip_pages (variant (dev s)) ->
  0 <= q < chip_pages (variant (dev s)) ->
  exists s1 s2,
    getPageToBuf fuel 0 p s = Some (tt, s1)
    /\ programBufToPage fuel 0 q s1 = Some (tt, s2)
    /\ (forall o, main (dev s2) q o = main (dev s) p o)
    /\ (forall r o, r <> q -> main (dev s2) r o = main (dev s) r o)
    /\ log (dev s2)
       = [(0x83, page_adr (variant (dev s)) q);
          (0x53, page_adr (variant (dev s)) p); (0x84, 0)] ++ log (dev s)
    /\ busy_left (dev s2) = latency (dev s)
    /\ this s2 = this s.
Proof.
  intros Hr Hf Hp Hq. open_sys s. destruct Hr as [Ed ->].
  destruct Hf as [Hn Hlat].
  cbn [dev variant main log latency] in *.
  rewrite (getPageToBuf_idle fuel p t v lat n m b1 b2 lg Hn Hlat).
  rewrite Ed, wire_page, page_of_page_adr by assumption.
  do 2 eexists. split; [reflexivity|].
  rewrite (programBufToPage_idle fuel q t v lat 0%nat m (m p) b2 _
             ltac:(lia)).
  rewrite Ed, wire_page, page_of_page_adr by assumption.
  split; [reflexivity|].
  cbn [dev this main log busy_left app]. unfold upd_page.
  repeat split.
  - intros o. now rewrite Z.eqb_refl.
  - intros r o Hne. apply Z.eqb_neq in Hne. now rewrite Hne.
Qed.

Lemma page_copy_through_buffer_witness :
  exists s1 s2,
    getPageToBuf 5 0 3 sample_sys = Some (tt, s1)
    /\ programBufToPage 5 0 7 s1 = Some (tt, s2)
    /\ main (dev s2) 7 100 = main (dev sample_sys) 3 100
    /\ main (dev s2) 3 100 = main (dev sample_sys) 3 100.
Proof.
  destruct (page_copy_through_buffer 5 sample_sys 3 7)
    as (s1 & s2 & E1 & E2 & A & B & _).
  - split; reflexivity.
  - split; cbv [sample_sys sample_chip dev busy_left latency]; lia.
  - change (chip_pages (variant (dev sample_sys))) with 2048. lia.
  - change (chip_pages (variant (dev sample_sys))) with 2048. lia.
  - exists s1, s2. repeat split; [exact E1|exact E2|apply A|apply B; lia].
Defined.

(** X17: [writeByteToBuffer] stores the complement of the byte at the
    given offset of the buffer and changes no other buffer byte, nor the
    main array. *)
Theorem writeByteToBuffer_stores_complement fuel s o data :
  ready s -> responsive fuel s ->
  0 <= o < chip_bytes (variant (dev s)) ->
  exists s',
    writeByteToBuffer fuel 0 o data s = Some (tt, s')
    /\ (forall x, buf1 (dev s') x
                  = if x =? o then 255 - u8 data else buf1 (dev s) x)
    /\ main (dev s') = main (dev s)
    /\ log (dev s') = (0x84, o) :: log (dev s)
    /\ this s' = this s.
Proof.
  intros Hr Hf Ho. open_sys s. destruct Hr as [Ed ->].
  destruct Hf as [Hn Hlat].
  cbn [dev variant main log latency] in *.
  rewrite (writeByteToBuffer_idle fuel o data t v lat n m b1 b2 lg Hn).
  rewrite Ed, wire_byte, byte_of_small by assumption.
  eexists. split; [reflexivity|].
  cbn [dev this main log buf1]. repeat split.
  intros x. unfold upd. rewrite not8_u8. reflexivity.
Qed.

Lemma writeByteToBuffer_stores_complement_witness :
  exists s',
    writeByteToBuffer 5 0 263 1 sample_sys = Some (tt, s')
    /\ buf1 (dev s') 263 = 254
    /\ buf1 (dev s') 262 = buf1 (dev sample_sys) 262.
Proof.
  destruct (writeByteToBuffer_stores_complement 5 sample_sys 263 1)
    as (s' & E & A & _).
  - split; reflexivity.
  - split; cbv [sample_sys sample_chip dev busy_left latency]; lia.
  - change (chip_bytes (variant (dev sample_sys))) with 264. lia.
  - exists s'. repeat split; [exact E|apply (A 263)|apply (A 262)].
Defined.

(** ** The cost of a write *)

Lemma page_step v x :
  let pb := chip_bytes v in
  (x - 1) / pb <= x / pb <= (x - 1) / pb + 1.
Proof.
  cbv zeta.
  destruct (chip_geometry v) as [(_ & -> & _)|[(_ & -> & _)|(_ & -> & _)]];
    Z.div_mod_to_equations; lia.
Qed.

Lemma changes_span_device t v a :
  _density t = enum_value v -> 0 <= a ->
  forall k i cur,
    0 <= i -> a + i + Z.of_nat k <= capacity v ->
    (a + i - 1) / chip_bytes v <= cur <= (a + i) / chip_bytes v ->
    Z.of_nat (changes cur (span_pages t a i k))
    = Z.max 0 ((a + i + Z.of_nat k - 1) / chip_bytes v - cur).
Proof.
  intros Ed Ha.
  assert (Hc : capacity v <= 8192 * 1056)
    by (unfold capacity; pose proof (chip_pages_pos v);
        pose proof (chip_bytes_pos v); pose proof (chip_pages_small v);
        pose proof (chip_bytes_small v); nia).
  induction k as [|k IH]; intros i cur Hi Hk Hcur.
  - cbn [span_pages changes]. rewrite Z.add_0_r. lia.
  - cbn [span_pages changes].
    rewrite (u32_small (a + i)) by lia.
    rewrite (addressToPage_device t v (a + i) Ed) by lia.
    set (p := (a + i) / chip_bytes v) in *.
    rewrite Nat2Z.inj_add.
    rewrite (IH (i + 1) p) by
      (try lia; replace (a + (i + 1) - 1) with (a + i) by lia; fold p;
       pose proof (page_step v (a + i + 1)) as S1; cbv zeta in S1;
       replace (a + i + 1 - 1) with (a + i) in S1 by lia; fold p in S1;
       replace (a + (i + 1)) with (a + i + 1) by lia; lia).
    pose proof (page_step v (a + i)) as S0. cbv zeta in S0. fold p in S0.
    assert (Hm : p <= (a + (i + 1) + Z.of_nat k - 1) / chip_bytes v).
    { unfold p. apply Z.div_le_mono; [pose proof (chip_bytes_pos v)|]; lia. }
    replace (a + i + Z.of_nat (S k) - 1) with (a + (i + 1) + Z.of_nat k - 1)
      by lia.
    destruct (cur =? p) eqn:C;
      [apply Z.eqb_eq in C|apply Z.eqb_neq in C]; lia.
Qed.

(** X18: a [writeBytes] of [len >= 1] bytes inside the device costs
    exactly [(addr + len - 1) / pageBytes - addr / pageBytes + 1] page
    fetches and as many page programs: one per page the span touches, at
    least one and never more than [(len + pageBytes - 2) / pageBytes + 1]. *)
Theorem writeBytes_cost_closed_form fuel s addr buf len :
  ready s -> responsive fuel s ->
  0 <= addr -> 1 <= len < 65536 ->
  addr + len <= capacity (variant (dev s)) ->
  let pb := chip_bytes (variant (dev s)) in
  let pages := (addr + len - 1) / pb - addr / pb + 1 in
  exists s',
    writeBytes fuel addr buf len s = Some (tt, s')
    /\ Z.of_nat (fetches s') = Z.of_nat (fetches s) + pages
    /\ Z.of_nat (programs s') = Z.of_nat (programs s) + pages
    /\ 1 <= pages <= (len + pb - 2) / pb + 1.
Proof.
  intros Hr Hf Ha Hlen Hcap. open_sys s. destruct Hr as [Ed ->].
  destruct Hf as [Hn Hlat].
  cbn [dev variant main log latency] in *.
  assert (Hc : capacity v <= 8192 * 1056)
    by (unfold capacity; pose proof (chip_pages_pos v);
        pose proof (chip_bytes_pos v); pose proof (chip_pages_small v);
        pose proof (chip_bytes_small v); nia).
  unfold writeBytes.
  mstep (startContWrite_idle fuel t v lat n m b1 b2 lg Hn Hlat addr).
  cbv zeta.
  rewrite (addressToPage_device t v addr Ed) by lia.
  set (p0 := addr / chip_bytes v).
  set (lg0 := (83, wire_adr (_density t) p0 0) :: (132, 0) :: lg).
  destruct (writeBytes_loop_log fuel v lat b2 Hlat buf (u32 addr)
              (Z.to_nat (u16 len)) 0 (with_cur t p0) 0%nat m
              (m (page_of_adr v (wire_adr (_density t) p0 0))) lg0
              ltac:(lia)) as (n' & m' & b1' & E & Hn').
  mstep E.
  rewrite session_log_with_cur. cbn [with_cur _cur_page_in_buf].
  rewrite (u32_small addr), (u16_small len) in * by lia.
  set (k := Z.to_nat len) in *.
  set (sl := session_log t addr 0 k p0 lg0).
  rewrite (stopContWrite_idle fuel _ v lat n' m' b1' b2 (snd sl) Hn').
  cbv zeta. cbn [_cur_page_in_buf _density].
  eexists. split; [reflexivity|].
  unfold fetches, programs. cbn [dev log].
  pose proof (changes_span_device t v addr Ed Ha k 0 p0 ltac:(lia)
                ltac:(lia)) as Hch.
  rewrite Z.add_0_r in Hch. fold p0 in Hch.
  pose proof (page_step v addr) as S0. cbv zeta in S0. fold p0 in S0.
  specialize (Hch ltac:(lia)).
  assert (Hm : p0 <= (addr + len - 1) / chip_bytes v).
  { unfold p0. apply Z.div_le_mono; [pose proof (chip_bytes_pos v)|]; lia. }
  replace (addr + Z.of_nat k - 1) with (addr + len - 1) in Hch by lia.
  split; [|split].
  - rewrite count_cons. unfold sl.
    rewrite (session_log_count t addr 83 (or_introl eq_refl)).
    unfold lg0. rewrite !count_cons. cbn [Z.eqb Pos.eqb]. lia.
  - rewrite count_cons. unfold sl.
    rewrite (session_log_count t addr 131 (or_intror eq_refl)).
    unfold lg0. rewrite !count_cons. cbn [Z.eqb Pos.eqb]. lia.
  - split; [lia|]. clear - Ha Hlen. unfold p0.
    destruct (chip_geometry v) as [(_ & -> & _)|[(_ & -> & _)|(_ & -> & _)]];
      Z.div_mod_to_equations; lia.
Qed.

Lemma writeBytes_cost_closed_form_witness :
  exists s',
    writeBytes 5 263 [1; 2] 2 sample_sys = Some (tt, s')
    /\ fetches s' = (fetches sample_sys + 2)%nat
    /\ programs s' = (programs sample_sys + 2)%nat.
Proof.
  destruct (writeBytes_cost_closed_form 5 sample_sys 263 [1; 2] 2)
    as (s' & E & F & P & _).
  - split; reflexivity.
  - split; cbv [sample_sys sample_chip dev busy_left latency]; lia.
  - lia.
  - lia.
  - change (capacity (variant (dev sample_sys))) with 540672. lia.
  - exists s'. split; [exact E|].
    change (chip_bytes (variant (dev sample_sys))) with 264 in F, P.
    change ((263 + 2 - 1) / 264 - 263 / 264 + 1) with 2 in F, P.
    lia.
Defined.

(** ** Ending a sequence that never began *)

Lemma minus_one_is_last_page v :
  page_of_adr v (wire_adr (enum_value v) (-1) 0) = chip_pages v - 1
  /\ wire_adr (enum_value v) (-1) 0 = 16777216 - 2 ^ chip_bits v.
Proof. destruct v; split; vm_compute; reflexivity. Qed.

(** X19: [stopContWrite] on an object that never started a write
    sequence (staged page still -1) programs the buffer into the last page
    of the device: the page number -1 goes on the wire as all ones, which
    the device reads as its highest page. *)
Theorem stopContWrite_before_start_programs_last_page fuel s :
  ready s -> responsive fuel s ->
  _cur_page_in_buf (this s) = -1 ->
  exists s',
    stopContWrite fuel s = Some (tt, s')
    /\ (forall o, main (dev s') (chip_pages (variant (dev s)) - 1) o
                  = buf1 (dev s) o)
    /\ (forall p o, p <> chip_pages (variant (dev s)) - 1 ->
                    main (dev s') p o = main (dev s) p o)
    /\ log (dev s')
       = (0x83, 16777216 - 2 ^ chip_bits (variant (dev s))) :: log (dev s)
    /\ this s' = this s.
Proof.
  intros Hr Hf Hcur. open_sys s. destruct Hr as [Ed ->].
  destruct Hf as [Hn Hlat].
  cbn [_cur_page_in_buf] in Hcur.
  rewrite (stopContWrite_idle fuel t v lat n m b1 b2 lg Hn).
  cbv zeta. rewrite Hcur, Ed.
  destruct (minus_one_is_last_page v) as [-> ->].
  eexists. split; [reflexivity|].
  cbn [dev this main log]. unfold upd_page. repeat split.
  - intros o. now rewrite Z.eqb_refl.
  - intros p o Hne. apply Z.eqb_neq in Hne. now rewrite Hne.
Qed.

Lemma stopContWrite_before_start_programs_last_page_witness :
  exists s',
    stopContWrite 5 sample_sys = Some (tt, s')
    /\ main (dev s') 2047 0 = buf1 (dev sample_sys) 0
    /\ log (dev s') = [(0x83, 16776704)].
Proof.
  destruct (stopContWrite_before_start_programs_last_page 5 sample_sys)
    as (s' & E & A & _ & L & _).
  - split; reflexivity.
  - split; cbv [sample_sys sample_chip dev busy_left latency]; lia.
  - reflexivity.
  - exists s'. repeat split; [exact E|apply A|exact L].
Defined.

(** ** The megaAVR hardware layer *)

Lemma pit_ticks_nonneg l : 0 <= pit_ticks l.
Proof. induction l as [|[|] l IH]; cbn [pit_ticks]; lia. Qed.

Lemma pit_ticks_app l l' : pit_ticks (l ++ l') = pit_ticks l + pit_ticks l'.
Proof. induction l as [|[|] l IH]; cbn [pit_ticks app]; lia. Qed.

Lemma sleep_loop_0 l : sleep_loop l 0 = Some (0, l).
Proof. destruct l; reflexivity. Qed.

Lemma sleep_loop_ticks : forall wakes rs,
  0 <= rs < 4294967296 ->
  (pit_ticks wakes < rs -> sleep_loop wakes rs = None)
  /\ (rs <= pit_ticks wakes ->
      exists used rest,
        wakes = used ++ rest
        /\ sleep_loop wakes rs = Some (0, rest)
        /\ pit_ticks used = rs
        /\ (0 < rs -> exists before, used = before ++ [RTC_PIT_vect])).
Proof.
  induction wakes as [|i wakes IH]; intros rs Hrs.
  - cbn [sleep_loop pit_ticks]. split.
    + intros H. replace (0 <? rs) with true
        by (symmetry; apply Z.ltb_lt; lia). reflexivity.
    + intros H. assert (rs = 0) as -> by lia.
      exists [], []. repeat split. lia.
  - cbn [sleep_loop]. destruct (0 <? rs) eqn:C.
    + apply Z.ltb_lt in C.
      assert (Hs : serve i rs = match i with
                                | RTC_PIT_vect => rs - 1
                                | other_vect => rs
                                end).
      { destruct i; cbn [serve]; [|reflexivity]. unfold ISR_RTC_PIT.
        replace (rs =? 0) with false by (symmetry; apply Z.eqb_neq; lia).
        cbn [negb]. unfold u32. apply Z.mod_small. lia. }
      rewrite Hs.
      destruct i; cbn [pit_ticks].
      * destruct (IH (rs - 1) ltac:(lia)) as [A B]. split.
        -- intros H. apply A. lia.
        -- intros H. destruct (B ltac:(lia)) as (used & rest & -> & E & T & L).
           exists (RTC_PIT_vect :: used), rest.
           repeat split; [exact E|cbn [pit_ticks]; lia|].
           intros _. destruct (Z.eq_dec rs 1) as [->|Hne].
           ++ exists []. change (1 - 1) with 0 in E.
              rewrite sleep_loop_0 in E. injection E as E.
              now rewrite (app_inv_tail rest used [] E).
           ++ destruct (L ltac:(lia)) as (before & ->).
              exists (RTC_PIT_vect :: before). reflexivity.
      * destruct (IH rs Hrs) as [A B]. split.
        -- intros H. apply A. lia.
        -- intros H. destruct (B ltac:(lia)) as (used & rest & -> & E & T & L).
           exists (other_vect :: used), rest.
           repeat split; [exact E|cbn [pit_ticks]; lia|].
           intros H0. destruct (L H0) as (before & ->).
           exists (other_vect :: before). reflexivity.
    + apply Z.ltb_ge in C. assert (rs = 0) as -> by lia. split.
      * intros H. pose proof (pit_ticks_nonneg (i :: wakes)). lia.
      * intros _. exists [], (i :: wakes). repeat split. lia.
Qed.

(** X20: [hwInternalSleep ms] sleeps until the periodic timer has ticked
    [(ms * 15 mod 2^32) / 16] times, other interrupts not counting, and
    then returns 0 with [remainingSleep] at 0; it returns right after the
    last of these ticks.  Up to 286331153 ms that is [15 * ms / 16] ticks,
    never more than fifteen sixteenths of [ms]; above, the product wraps
    and the sleep is shorter still. *)
Theorem hwInternalSleep_waits_for_its_ticks ms wakes :
  0 <= ms < 4294967296 ->
  let ticks := u32 (ms * 15) / 16 in
  (pit_ticks wakes < ticks -> hwInternalSleep ms wakes = None)
  /\ (ticks <= pit_ticks wakes ->
      exists used rest,
        wakes = used ++ rest
        /\ hwInternalSleep ms wakes = Some (0, 0, rest)
        /\ pit_ticks used = ticks
        /\ (0 < ticks -> exists before, used = before ++ [RTC_PIT_vect]))
  /\ (ms <= 286331153 -> ticks = 15 * ms / 16 /\ 16 * ticks <= 15 * ms)
  /\ (286331153 < ms -> ticks < 15 * ms / 16).
Proof.
  intros Hms ticks.
  assert (Ht : 0 <= ticks < 4294967296).
  { unfold ticks, u32. Z.div_mod_to_equations. lia. }
  unfold hwInternalSleep.
  change PIT_INT_PERIOD with 15. rewrite (u32_small ms) by lia.
  fold ticks.
  destruct (sleep_loop_ticks wakes ticks Ht) as [A B].
  split; [|split; [|split]].
  - intros H. now rewrite (A H).
  - intros H. destruct (B H) as (used & rest & E0 & E & T & L).
    exists used, rest. rewrite E. repeat split; assumption.
  - intros H. unfold ticks. rewrite u32_small by lia.
    replace (ms * 15) with (15 * ms) by lia.
    split; [reflexivity|]. Z.div_mod_to_equations. lia.
  - intros H. unfold ticks, u32. Z.div_mod_to_equations. lia.
Qed.

Lemma hwInternalSleep_waits_for_its_ticks_witness :
  hwInternalSleep 3 [RTC_PIT_vect; other_vect] = None
  /\ exists used rest,
       [other_vect; RTC_PIT_vect; RTC_PIT_vect; other_vect] = used ++ rest
       /\ hwInternalSleep 3
            [other_vect; RTC_PIT_vect; RTC_PIT_vect; other_vect]
          = Some (0, 0, rest)
       /\ pit_ticks used = 2.
Proof.
  destruct (hwInternalSleep_waits_for_its_ticks 3 [RTC_PIT_vect; other_vect]
              ltac:(lia)) as (A & _).
  destruct (hwInternalSleep_waits_for_its_ticks 3
              [other_vect; RTC_PIT_vect; RTC_PIT_vect; other_vect]
              ltac:(lia)) as (_ & B & _).
  split.
  - apply A. vm_compute. reflexivity.
  - destruct B as (used & rest & E0 & E & T & _).
    + vm_compute. discriminate.
    + exists used, rest. repeat split; assumption.
Defined.

Lemma land_2 x : Z.land x 2 = if (x mod 4 =? 2) || (x mod 4 =? 3) then 2 else 0.
Proof.
  replace (Z.land x 2) with (Z.land (x mod 4) 2).
  2:{ change 4 with (2 ^ 2). rewrite <- Z.land_ones by lia.
      rewrite <- Z.land_assoc. reflexivity. }
  assert (H : 0 <= x mod 4 < 4) by (apply Z.mod_pos_bound; lia).
  assert (C : x mod 4 = 0 \/ x mod 4 = 1 \/ x mod 4 = 2 \/ x mod 4 = 3) by lia.
  destruct C as [->|[->|[->| ->]]]; reflexivity.
Qed.

(** X21: on a series-2 part [hwCPUVoltage] turns a 12-bit reading [adc] of
    VDD/10 into [(5 * adc + 1) / 2] millivolts: a quarter of ten times the
    reading, rounded to the nearest integer with halves going up.  On any
    other series it returns 65535. *)
Theorem hwCPUVoltage_rounds_to_nearest series adc :
  0 <= adc <= 4095 ->
  (series = 2 ->
   hwCPUVoltage series adc = (5 * adc + 1) / 2
   /\ 0 <= 4 * hwCPUVoltage series adc - 10 * adc <= 2)
  /\ (series <> 2 -> hwCPUVoltage series adc = 65535).
Proof.
  intros Hadc. split.
  - intros ->. unfold hwCPUVoltage. change (2 =? 2) with true. cbv iota zeta.
    assert (E1 : int32 adc = adc) by (unfold int32; Z.div_mod_to_equations; lia).
    rewrite E1.
    assert (E2 : int32 (adc * 10) = adc * 10)
      by (unfold int32; Z.div_mod_to_equations; lia).
    rewrite E2.
    rewrite Z.shiftr_div_pow2 by lia. change (2 ^ 2) with 4.
    rewrite land_2.
    rewrite (int_small (adc * 10 / 4)) by (Z.div_mod_to_equations; lia).
    assert (R : (if negb ((if (adc * 10 mod 4 =? 2) || (adc * 10 mod 4 =? 3)
                           then 2 else 0) =? 0)
                 then int (adc * 10 / 4 + 1) else adc * 10 / 4)
                = (5 * adc + 1) / 2).
    { destruct (adc * 10 mod 4 =? 2) eqn:A; cbn [orb].
      - apply Z.eqb_eq in A. change (negb (2 =? 0)) with true. cbv iota.
        rewrite int_small by (Z.div_mod_to_equations; lia).
        Z.div_mod_to_equations. lia.
      - apply Z.eqb_neq in A. destruct (adc * 10 mod 4 =? 3) eqn:B.
        + apply Z.eqb_eq in B. exfalso. Z.div_mod_to_equations. lia.
        + apply Z.eqb_neq in B. change (negb (0 =? 0)) with false. cbv iota.
          Z.div_mod_to_equations. lia. }
    rewrite R. rewrite u16_small by (Z.div_mod_to_equations; lia).
    split; [reflexivity|]. Z.div_mod_to_equations. lia.
  - intros H. unfold hwCPUVoltage.
    replace (series =? 2) with false by (symmetry; apply Z.eqb_neq; lia).
    reflexivity.
Qed.

Lemma hwCPUVoltage_rounds_to_nearest_witness :
  hwCPUVoltage 2 1321 = 3303 /\ hwCPUVoltage 1 1321 = 65535.
Proof.
  destruct (hwCPUVoltage_rounds_to_nearest 2 1321 ltac:(lia)) as [A _].
  destruct (hwCPUVoltage_rounds_to_nearest 1 1321 ltac:(lia)) as [_ B].
  split.
  - exact (proj1 (A eq_refl)).
  - apply B. lia.
Defined.
